(** * Trade-conflict survival report: selection and preparation pipeline

    A shallow embedding of [cox_model.py].  The script loads a table of
    bilateral trade-conflict episodes, prepares the rows used to fit a
    proportional-hazards model, and derives three views from it: the
    cohort overlay, the bilateral drill-down and the hypothetical
    scenario.

    The tables are pandas data frames.  A frame is modelled as its list
    of column names and its list of rows, each row carrying its index
    label; the pandas operations the script calls are the functions of
    [Module Pandas].  Numbers are rationals (every finite float is one)
    and a missing value is the cell [NA].  The survival library is not
    part of the repository: it enters as the record [CoxPHFitter]. *)

From Stdlib Require Import List String Ascii ZArith QArith Qround Lia Bool Arith.
From Stdlib Require Import Sorted Permutation DecimalString.
Import ListNotations.
Open Scope string_scope.
Open Scope list_scope.
Open Scope nat_scope.

(** ** Cells and frames *)

Module Pandas.

Inductive cell : Type :=
| NA
| Str (s : string)
| Num (q : Q)
| Date (year month day : Z).

Definition notna (c : cell) : bool :=
  match c with NA => false | _ => true end.

(** Element-wise [==]: a missing value equals nothing, not even itself. *)
Definition cell_eqb (a b : cell) : bool :=
  match a, b with
  | Str s, Str t => String.eqb s t
  | Num p, Num q => Qeq_bool p q
  | Date y m d, Date y' m' d' => Z.eqb y y' && Z.eqb m m' && Z.eqb d d'
  | _, _ => false
  end.

(** Element-wise [+] of two columns: string concatenation or addition;
    a missing operand gives a missing result. *)
Definition cell_add (a b : cell) : cell :=
  match a, b with
  | Str s, Str t => Str (s ++ t)%string
  | Num p, Num q => Num (p + q)
  | _, _ => NA
  end.

(** [Series.isin(values)]. *)
Definition isin (values : list string) (c : cell) : bool :=
  existsb (cell_eqb c) (map Str values).

Definition Row := list cell.

Record Frame : Type := mkFrame {
  columns : list string;
  rows : list (nat * Row)
}.

Definition len (df : Frame) : nat := List.length (rows df).

Definition index (df : Frame) : list nat := map fst (rows df).

Fixpoint col_pos (c : string) (cols : list string) : nat :=
  match cols with
  | [] => 0
  | c' :: rest => if String.eqb c c' then 0 else S (col_pos c rest)
  end.

Definition has_col (c : string) (df : Frame) : bool :=
  existsb (String.eqb c) (columns df).

Definition has_cols (cs : list string) (df : Frame) : bool :=
  forallb (fun c => has_col c df) cs.

(** The cell of row [r] under column [c], for a row laid out as [cols]. *)
Definition at_ (cols : list string) (r : Row) (c : string) : cell :=
  nth (col_pos c cols) r NA.

(** [df[c]] as the list of its cells. *)
Definition column (c : string) (df : Frame) : list cell :=
  map (fun ir => at_ (columns df) (snd ir) c) (rows df).

(** [df[[c1, ..., cn]]]. *)
Definition getitem (cs : list string) (df : Frame) : Frame :=
  mkFrame cs (map (fun ir => (fst ir, map (at_ (columns df) (snd ir)) cs)) (rows df)).

(** [df.dropna()]: keeps the rows without any missing cell. *)
Definition dropna (df : Frame) : Frame :=
  mkFrame (columns df) (filter (fun ir => forallb notna (snd ir)) (rows df)).

(** [df.dropna(subset=cs)]. *)
Definition dropna_subset (cs : list string) (df : Frame) : Frame :=
  mkFrame (columns df)
    (filter (fun ir => forallb (fun c => notna (at_ (columns df) (snd ir) c)) cs) (rows df)).

(** [df[mask]] for a mask computed row by row from [df] itself. *)
Definition where_ (mask : list string -> nat * Row -> bool) (df : Frame) : Frame :=
  mkFrame (columns df) (filter (mask (columns df)) (rows df)).

(** [df.copy()]: the same table; that it is a new object is the business
    of the store below. *)
Definition copy (df : Frame) : Frame := df.

Fixpoint set_nth (n : nat) (v : cell) (r : Row) : Row :=
  match n, r with
  | _, [] => []
  | O, _ :: rest => v :: rest
  | S n', c :: rest => c :: set_nth n' v rest
  end.

(** [df[c] = values], the values computed row by row: an existing column
    is overwritten in its place, a new one is appended. *)
Definition setitem (c : string) (f : nat * Row -> cell) (df : Frame) : Frame :=
  if has_col c df
  then mkFrame (columns df)
         (map (fun ir => (fst ir, set_nth (col_pos c (columns df)) (f ir) (snd ir))) (rows df))
  else mkFrame (columns df ++ [c])
         (map (fun ir => (fst ir, snd ir ++ [f ir])) (rows df)).

Fixpoint remove_nth (n : nat) (r : Row) : Row :=
  match n, r with
  | _, [] => []
  | O, _ :: rest => rest
  | S n', c :: rest => c :: remove_nth n' rest
  end.

(** [df.drop(columns=c)]. *)
Definition drop (c : string) (df : Frame) : Frame :=
  mkFrame (filter (fun c' => negb (String.eqb c c')) (columns df))
    (map (fun ir => (fst ir, remove_nth (col_pos c (columns df)) (snd ir))) (rows df)).

(** [df.head(n)]; a negative [n] leaves out the last [-n] rows. *)
Definition head (n : Z) (df : Frame) : Frame :=
  mkFrame (columns df)
    (if (0 <=? n)%Z then firstn (Z.to_nat n) (rows df)
     else firstn (len df - Z.to_nat (- n)) (rows df)).

(** [df.reset_index(drop=True)]. *)
Definition reset_index (df : Frame) : Frame :=
  mkFrame (columns df) (combine (seq 0 (len df)) (map snd (rows df))).

(** [pd.concat([a, b])].  Equal column lists are stacked as they are;
    otherwise the columns are united and the gaps filled with [NA]. *)
Definition concat (a b : Frame) : Frame :=
  if list_eq_dec string_dec (columns a) (columns b)
  then mkFrame (columns a) (rows a ++ rows b)
  else
    let cols := columns a ++
                filter (fun c => negb (has_col c a)) (columns b) in
    let fill (src : Frame) (ir : nat * Row) :=
      (fst ir, map (fun c => if has_col c src then at_ (columns src) (snd ir) c else NA) cols) in
    mkFrame cols (map (fill a) (rows a) ++ map (fill b) (rows b)).

(** Ascending order of a sort key, missing values last. *)
Definition key_leb (a b : cell) : bool :=
  match a, b with
  | _, NA => true
  | NA, _ => false
  | Num p, Num q => Qle_bool p q
  | Str s, Str t => String.leb s t
  | _, _ => true
  end.

Fixpoint insert_sorted (key : nat * Row -> cell) (x : nat * Row)
    (l : list (nat * Row)) : list (nat * Row) :=
  match l with
  | [] => [x]
  | y :: rest =>
      if key_leb (key y) (key x) then y :: insert_sorted key x rest
      else x :: l
  end.

(** Insertion sort from the right end keeps the rows of equal key in
    their original order. *)
Definition sort_rows (key : nat * Row -> cell) (l : list (nat * Row)) : list (nat * Row) :=
  fold_left (fun acc x => insert_sorted key x acc) l [].

(** [df.sort_values(c)]: ascending, missing keys last.  pandas leaves the
    order among equal keys to the sorting routine; here they keep their
    original order. *)
Definition sort_values (c : string) (df : Frame) : Frame :=
  mkFrame (columns df) (sort_rows (fun ir => at_ (columns df) (snd ir) c) (rows df)).

(** The group keys of [df.groupby(c)]: the distinct strings of the
    column, sorted; rows with a missing key belong to no group. *)
Fixpoint insert_key (k : string) (l : list string) : list string :=
  match l with
  | [] => [k]
  | k' :: rest =>
      if String.leb k k' then k :: l else k' :: insert_key k rest
  end.

Definition strings_of (cells : list cell) : list string :=
  flat_map (fun c => match c with Str s => [s] | _ => [] end) cells.

Definition keys_of (cells : list cell) : list string :=
  fold_right insert_key [] (nodup string_dec (strings_of cells)).

Definition group (c : string) (k : string) (df : Frame) : list (nat * Row) :=
  filter (fun ir => cell_eqb (at_ (columns df) (snd ir) c) (Str k)) (rows df).

(** [df.groupby(c, group_keys=False).apply(lambda g: g.head(n))].
    pandas concatenates the pieces group after group, the groups in
    sorted key order; but when every piece is indexed like its group (no
    group was cut short), it puts the result back in the order of [df]. *)
Definition groupby_head (c : string) (n : nat) (df : Frame) : Frame :=
  let keys := keys_of (column c df) in
  mkFrame (columns df)
    (if forallb (fun k => List.length (group c k df) <=? n) keys
     then filter (fun ir => match at_ (columns df) (snd ir) c with
                            | Str _ => true
                            | _ => false
                            end) (rows df)
     else flat_map (fun k => firstn n (group c k df)) keys).

(** [df.loc[i, c]] for an index label [i]. *)
Definition loc (df : Frame) (i : nat) (c : string) : cell :=
  match find (fun ir => Nat.eqb (fst ir) i) (rows df) with
  | Some ir => at_ (columns df) (snd ir) c
  | None => NA
  end.

(** [pd.to_datetime(x).dt.year] of one cell. *)
Definition dt_year (c : cell) : cell :=
  match c with
  | Date y _ _ => Num (inject_Z y)
  | _ => NA
  end.

(** [str] of a year: an integer column prints ["2018"], a column that
    holds a missing value is a float column and prints ["2018.0"], and
    the missing value itself prints ["nan"]. *)
Definition str_year (float_dtype : bool) (c : cell) : cell :=
  match c with
  | Num q =>
      let digits := NilZero.string_of_int (Z.to_int (Qfloor q)) in
      Str (if float_dtype then (digits ++ ".0")%string else digits)
  | NA => Str "nan"
  | other => other
  end.

End Pandas.

Import Pandas.

(** ** The episode table *)

(** One line of [df_episodes.csv]: the columns the script reads.  Every
    cell may be missing.  A date is the value [pd.to_datetime] parses;
    a file with a date that does not parse, or without one of these
    columns, is not described. *)
Record Episode : Type := mkEpisode {
  country_a : option string;
  country_b : option string;
  start_year : option Z;
  start_date : option (Z * Z * Z);
  end_date : option (Z * Z * Z);
  terminated : option Q;
  duration_months : option Q;
  number_of_measures : option Q;
  mean_duration_months : option Q;
  gdp_country_a : option Q
}.

Definition raw_columns : list string :=
  ["country_a"; "country_b"; "start_year"; "start_date"; "end_date";
   "terminated"; "duration_months"; "number_of_measures";
   "mean_duration_months"; "gdp_country_a"].

Definition str_cell (o : option string) : cell :=
  match o with Some s => Str s | None => NA end.

Definition num_cell (o : option Q) : cell :=
  match o with Some q => Num q | None => NA end.

Definition int_cell (o : option Z) : cell :=
  match o with Some z => Num (inject_Z z) | None => NA end.

Definition date_cell (o : option (Z * Z * Z)) : cell :=
  match o with Some (y, m, d) => Date y m d | None => NA end.

Definition to_row (e : Episode) : Row :=
  [str_cell (country_a e); str_cell (country_b e); int_cell (start_year e);
   date_cell (start_date e); date_cell (end_date e);
   num_cell (terminated e); num_cell (duration_months e);
   num_cell (number_of_measures e); num_cell (mean_duration_months e);
   num_cell (gdp_country_a e)].

Definition enumerate {A : Type} (l : list A) : list (nat * A) :=
  combine (seq 0 (List.length l)) l.

(** [pd.read_csv]: the lines of the file under the index 0, 1, 2, ... *)
Definition read_csv (file : list Episode) : Frame :=
  mkFrame raw_columns (enumerate (map to_row file)).

(** ** The statements of the script

    One function per assignment of the script, from the tables it reads
    to the table it builds or the column it sets. *)

Definition features : list string :=
  ["gdp_country_a"; "number_of_measures"; "mean_duration_months"].

Definition sep : string := " – ".

(** Lines 91-93:
    [data[['country_a', 'country_b'] + features +
          ['duration_months', 'terminated']].dropna().copy()] *)
Definition select_features (data : Frame) : Frame :=
  copy (dropna (getitem (["country_a"; "country_b"] ++ features
                          ++ ["duration_months"; "terminated"]) data)).

(** [df['country_a'] + " – " + df['country_b']] *)
Definition pair_label (cols : list string) (ir : nat * Row) : cell :=
  cell_add (cell_add (at_ cols (snd ir) "country_a") (Str sep))
           (at_ cols (snd ir) "country_b").

(** Line 96: [data_model['label'] = ...] *)
Definition set_pair_label (dm : Frame) : Frame :=
  setitem "label" (pair_label (columns dm)) dm.

Definition model_cols : list string :=
  ["gdp_country_a"; "number_of_measures"; "mean_duration_months";
   "duration_months"; "terminated"].

Definition big_players : list string :=
  ["United States of America"; "India"; "France"; "United Kingdom";
   "Russia"; "Canada"; "Japan"].

Definition USA : string := "United States of America".

(** Line 117: [data_model[data_model['terminated'] == 1].copy()] *)
Definition select_terminated (dm : Frame) : Frame :=
  copy (where_ (fun cols ir => cell_eqb (at_ cols (snd ir) "terminated") (Num 1)) dm).

(** Line 120: [terminated_conflicts['start_year'] =
    pd.to_datetime(data.loc[terminated_conflicts.index, 'start_date']).dt.year] *)
Definition set_start_year (data tc : Frame) : Frame :=
  setitem "start_year" (fun ir => dt_year (loc data (fst ir) "start_date")) tc.

Definition has_na (cells : list cell) : bool :=
  existsb (fun c => negb (notna c)) cells.

(** [df['country_a'] + " – " + df['country_b'] + " (" +
     df['start_year'].astype(str) + ")"] *)
Definition dated_label (float_dtype : bool) (cols : list string) (ir : nat * Row) : cell :=
  cell_add (cell_add (cell_add (pair_label cols ir) (Str " ("))
                     (str_year float_dtype (at_ cols (snd ir) "start_year")))
           (Str ")").

(** Lines 123-127: [terminated_conflicts['label'] = ...] *)
Definition set_dated_label (tc : Frame) : Frame :=
  setitem "label" (dated_label (has_na (column "start_year" tc)) (columns tc)) tc.

Definition usa_mask (cols : list string) (ir : nat * Row) : bool :=
  cell_eqb (at_ cols (snd ir) "country_a") (Str USA)
  && isin big_players (at_ cols (snd ir) "country_b").

(** Lines 130-137. *)
Definition select_usa (tc : Frame) : Frame :=
  head 5 (sort_values "start_year" (where_ usa_mask tc)).

(** Line 140: [max(0, 10 - len(usa_terminated))] *)
Definition remaining (usa : Frame) : Z :=
  Z.max 0 (10 - Z.of_nat (len usa)).

Definition other_mask (selected : list nat) (cols : list string) (ir : nat * Row) : bool :=
  isin big_players (at_ cols (snd ir) "country_a")
  && negb (cell_eqb (at_ cols (snd ir) "country_a") (Str USA))
  && isin big_players (at_ cols (snd ir) "country_b")
  && negb (existsb (Nat.eqb (fst ir)) selected).

(** The table the backfill is grouped from (lines 142-147, the mask). *)
Definition candidates (tc usa : Frame) : Frame :=
  where_ (other_mask (index usa)) tc.

(** Lines 142-147. *)
Definition select_others (tc usa : Frame) : Frame :=
  reset_index (groupby_head "country_a" 2 (candidates tc usa)).

(** Line 150. *)
Definition take_additional (usa others : Frame) : Frame :=
  head (remaining usa) others.

(** Line 153. *)
Definition concat_final (usa extra : Frame) : Frame :=
  reset_index (concat usa extra).

Definition pair_mask (initiator target : cell) (cols : list string) (ir : nat * Row) : bool :=
  cell_eqb (at_ cols (snd ir) "country_a") initiator
  && cell_eqb (at_ cols (snd ir) "country_b") target.

(** Lines 193-196. *)
Definition select_pair (selected_initiator selected_target : cell) (data : Frame) : Frame :=
  copy (where_ (pair_mask selected_initiator selected_target) data).

Definition shown_cols : list string :=
  ["country_a"; "country_b"; "start_year"; "start_date"; "end_date";
   "terminated"; "duration_months"; "number_of_measures";
   "mean_duration_months"; "gdp_country_a"].

Definition required_cols : list string :=
  ["gdp_country_a"; "number_of_measures"; "mean_duration_months";
   "duration_months"; "terminated"].

(** Line 219: [filtered_conflicts.dropna(subset=required_cols).copy()] *)
Definition select_valid (filtered : Frame) : Frame :=
  copy (dropna_subset required_cols filtered).

(** Line 223: [valid_conflicts['start_year'] =
    pd.to_datetime(valid_conflicts['start_date']).dt.year] *)
Definition set_year_from_date (vc : Frame) : Frame :=
  setitem "start_year" (fun ir => dt_year (at_ (columns vc) (snd ir) "start_date")) vc.

(** Line 226. *)
Definition select_year (selected_year : cell) (vc : Frame) : Frame :=
  where_ (fun cols ir => cell_eqb (at_ cols (snd ir) "start_year") selected_year) vc.

(** Lines 269-273. *)
Definition custom_row (gdp_input : Q) (measures_input duration_input : Z) : Frame :=
  mkFrame ["gdp_country_a"; "number_of_measures"; "mean_duration_months"]
          [(0, [Num gdp_input; Num (inject_Z measures_input); Num (inject_Z duration_input)])].

(** ** The tables of the script as functions of the loaded table *)

Definition data_model (data : Frame) : Frame :=
  set_pair_label (select_features data).

Definition terminated_conflicts (data : Frame) : Frame :=
  set_dated_label (set_start_year data (select_terminated (data_model data))).

Definition usa_terminated (data : Frame) : Frame :=
  select_usa (terminated_conflicts data).

Definition remaining_needed (data : Frame) : Z :=
  remaining (usa_terminated data).

Definition other_bigpower_conflicts (data : Frame) : Frame :=
  select_others (terminated_conflicts data) (usa_terminated data).

Definition additional (data : Frame) : Frame :=
  take_additional (usa_terminated data) (other_bigpower_conflicts data).

Definition final_set (data : Frame) : Frame :=
  concat_final (usa_terminated data) (additional data).

Definition filtered_conflicts (data : Frame) (selected_initiator selected_target : cell) : Frame :=
  select_pair selected_initiator selected_target data.

Definition valid_conflicts (data : Frame) (selected_initiator selected_target : cell) : Frame :=
  let vc := select_valid (filtered_conflicts data selected_initiator selected_target) in
  if negb (has_col "start_year" vc) then set_year_from_date vc else vc.

Definition conflict_row (data : Frame) (selected_initiator selected_target selected_year : cell) : Frame :=
  select_year selected_year (valid_conflicts data selected_initiator selected_target).

(** ** The survival library

    [lifelines] is an external collaborator.  The script creates one
    fitter, fits it once and asks it for survival curves; what the
    library computes is left open, only the shape of the calls is
    modelled. *)

Inductive Error : Type :=
| KeyError (cols : list string)
| NameError (name : string)
| IndexError
| TypeError
| LibraryError (msg : string).

Inductive Exc (A : Type) : Type :=
| Ok (a : A)
| Raise (e : Error).

Arguments Ok {A} a.
Arguments Raise {A} e.

Record CoxPHFitter : Type := mkCoxPHFitter {
  Model : Type;
  Curve : Type;
  (** [cph.fit(df, duration_col=..., event_col=...)] *)
  fit : Frame -> string -> string -> Exc Model;
  (** the index and the [coef] column of [cph.summary] *)
  params_ : Model -> list (string * Q);
  (** [cph.predict_survival_function(X)], one curve per row of [X] *)
  predict_survival_function : Model -> Frame -> Exc (list Curve)
}.

(** The library names its coefficients after the columns of the table
    it is given, the duration and the event column left out. *)
Definition covariates_of (df : Frame) (duration_col event_col : string) : list string :=
  filter (fun c => negb (String.eqb c duration_col) && negb (String.eqb c event_col))
         (columns df).

Definition names_coefficients (L : CoxPHFitter) : Prop :=
  forall df duration_col event_col m,
    fit L df duration_col event_col = Ok m ->
    map fst (params_ L m) = covariates_of df duration_col event_col.

(** ** The render: store, variables and screen *)

(** What the page shows, in order.  The static headers and paragraphs
    of the report are left out. *)
Inductive Event (C : Type) : Type :=
| markdown (text : string)
| dataframe (df : Frame)
| coefficient_table (index : list string)
| plot (label : cell) (curve : C)
| pyplot.

Arguments markdown {C} text.
Arguments dataframe {C} df.
Arguments coefficient_table {C} index.
Arguments plot {C} label curve.
Arguments pyplot {C}.

(** The values the widgets hand to the script.  A select box without
    options returns [None], which compares unequal to every cell: [NA]. *)
Record Widgets : Type := mkWidgets {
  selected_initiator : cell;
  selected_target : cell;
  selected_year : cell;
  gdp_input : Q;
  measures_input : Z;
  duration_input : Z
}.

Section Render.

Variable lifelines : CoxPHFitter.

(** The tables live in a store of objects; a variable of the script is
    bound to the position of its object.  Assigning an expression to a
    variable creates an object; [df[c] = ...] changes one in place. *)
Record State : Type := mkState {
  store : list Frame;
  globals : list (string * nat);
  screen : list (Event (Curve lifelines))
}.

Definition M (A : Type) : Type := State -> State * Exc A.

Definition ret {A : Type} (a : A) : M A := fun s => (s, Ok a).

Definition bind {A B : Type} (m : M A) (k : A -> M B) : M B :=
  fun s => match m s with
           | (s', Ok a) => k a s'
           | (s', Raise e) => (s', Raise e)
           end.

Notation "x <- m ;; k" := (bind m (fun x => k))
  (at level 61, m at next level, right associativity).
Notation "m ;;; k" := (bind m (fun _ => k))
  (at level 61, right associativity).

Definition raise {A : Type} (e : Error) : M A := fun s => (s, Raise e).

Definition call {A : Type} (r : Exc A) : M A := fun s => (s, r).

Definition emit (e : Event (Curve lifelines)) : M unit :=
  fun s => (mkState (store s) (globals s) (screen s ++ [e]), Ok tt).

Fixpoint lookup (x : string) (env : list (string * nat)) : option nat :=
  match env with
  | [] => None
  | (y, l) :: rest => if String.eqb x y then Some l else lookup x rest
  end.

(** The table a variable is bound to. *)
Definition deref (x : string) (s : State) : option Frame :=
  match lookup x (globals s) with
  | Some l => nth_error (store s) l
  | None => None
  end.

Definition var (x : string) : M Frame :=
  fun s => match deref x s with
           | Some df => (s, Ok df)
           | None => (s, Raise (NameError x))
           end.

(** [x = <table expression>]: a new object, and [x] bound to it.  Every
    table expression of the script is a call of a pandas operation (a
    selection, [dropna], [copy], [sort_values], [head], [groupby],
    [reset_index], [concat], [DataFrame]), which answers with a new
    object; no statement assigns one table variable to another. *)
Definition new (x : string) (df : Frame) : M unit :=
  fun s => (mkState (store s ++ [df])
                    ((x, List.length (store s)) :: globals s)
                    (screen s), Ok tt).

Fixpoint update (l : nat) (f : Frame -> Frame) (h : list Frame) : list Frame :=
  match l, h with
  | _, [] => []
  | O, df :: rest => f df :: rest
  | S l', df :: rest => df :: update l' f rest
  end.

(** [x[c] = ...]: the object [x] is bound to is changed in place. *)
Definition mutate (x : string) (f : Frame -> Frame) : M unit :=
  fun s => match lookup x (globals s) with
           | Some l => (mkState (update l f (store s)) (globals s) (screen s), Ok tt)
           | None => (s, Raise (NameError x))
           end.

(** Reading the columns [cs] of a table raises [KeyError] when one is
    absent. *)
Definition check (cs : list string) (df : Frame) : M unit :=
  if has_cols cs df then ret tt else raise (KeyError cs).

Definition need (cs : list string) (x : string) : M unit :=
  df <- var x ;; check cs df.

Fixpoint for_each {A : Type} (l : list A) (body : A -> M unit) : M unit :=
  match l with
  | [] => ret tt
  | a :: rest => body a ;;; for_each rest body
  end.

(** [df[c].iloc[i]] *)
Definition iloc (c : string) (i : nat) (df : Frame) : M cell :=
  match nth_error (column c df) i with
  | Some v => ret v
  | None => raise IndexError
  end.

(** [surv.iloc[:, i]] *)
Definition curve_at (i : nat) (curves : list (Curve lifelines)) : M (Curve lifelines) :=
  match nth_error curves i with
  | Some c => ret c
  | None => raise IndexError
  end.

(** Scalar [+] of strings. *)
Definition str_add (a b : cell) : M cell :=
  match a, b with
  | Str s, Str t => ret (Str (s ++ t)%string)
  | _, _ => raise TypeError
  end.

Definition no_cohort : string :=
  "⚠️ Aucun conflit terminé détecté parmi les grandes puissances.".

Definition no_conflict : string :=
  "⚠️ Aucune donnée disponible pour cette année de conflit.".

(** Lines 78-96. *)
Definition prepare (file : list Episode) : M unit :=
  new "data" (read_csv file) ;;;
  need (["country_a"; "country_b"] ++ features ++ ["duration_months"; "terminated"]) "data" ;;;
  data <- var "data" ;;
  new "data_model" (select_features data) ;;;
  need ["country_a"; "country_b"] "data_model" ;;;
  mutate "data_model" set_pair_label.

(** Lines 101-107, on the prepared table. *)
Definition fit_and_show (data_model : Frame) : M (Model lifelines) :=
  check model_cols data_model ;;;
  cph <- call (fit lifelines (getitem model_cols data_model)
                   "duration_months" "terminated") ;;
  emit (coefficient_table (map fst (params_ lifelines cph))) ;;;
  ret cph.

Definition fit_model : M (Model lifelines) :=
  data_model <- var "data_model" ;;
  fit_and_show data_model.

(** Lines 156-171, on the selected rows. *)
Definition plot_cohort (cph : Model lifelines) (final_set : Frame) : M unit :=
  if 0 <? len final_set then
    check ["label"] final_set ;;;
    surv_plot <- call (predict_survival_function lifelines cph (drop "label" final_set)) ;;
    for_each (seq 0 (len final_set)) (fun i =>
      label <- iloc "label" i final_set ;;
      curve <- curve_at i surv_plot ;;
      emit (plot label curve)) ;;;
    emit pyplot
  else
    emit (markdown no_cohort).

(** Lines 114-171. *)
Definition cohort_view (cph : Model lifelines) : M unit :=
  need ["terminated"] "data_model" ;;;
  data_model <- var "data_model" ;;
  new "terminated_conflicts" (select_terminated data_model) ;;;
  need ["start_date"] "data" ;;;
  data <- var "data" ;;
  mutate "terminated_conflicts" (set_start_year data) ;;;
  need ["country_a"; "country_b"; "start_year"] "terminated_conflicts" ;;;
  mutate "terminated_conflicts" set_dated_label ;;;
  need ["country_a"; "country_b"; "start_year"] "terminated_conflicts" ;;;
  terminated_conflicts <- var "terminated_conflicts" ;;
  new "usa_terminated" (select_usa terminated_conflicts) ;;;
  usa_terminated <- var "usa_terminated" ;;
  new "other_bigpower_conflicts" (select_others terminated_conflicts usa_terminated) ;;;
  other_bigpower_conflicts <- var "other_bigpower_conflicts" ;;
  new "additional" (take_additional usa_terminated other_bigpower_conflicts) ;;;
  additional <- var "additional" ;;
  new "final_set" (concat_final usa_terminated additional) ;;;
  final_set <- var "final_set" ;;
  plot_cohort cph final_set.

(** Lines 228-250, on the selected row; [data] is read for the type of
    its year column. *)
Definition plot_conflict (cph : Model lifelines) (data conflict_row : Frame) : M unit :=
  if 0 <? len conflict_row then
    check ["country_a"; "country_b"; "start_year"] conflict_row ;;;
    a <- iloc "country_a" 0 conflict_row ;;
    b <- iloc "country_b" 0 conflict_row ;;
    y <- iloc "start_year" 0 conflict_row ;;
    l1 <- str_add a (Str sep) ;;
    l2 <- str_add l1 b ;;
    l3 <- str_add l2 (Str " (") ;;
    l4 <- str_add l3 (str_year (has_na (column "start_year" data)) y) ;;
    label_text <- str_add l4 (Str ")") ;;
    check required_cols conflict_row ;;;
    surv_pred <- call (predict_survival_function lifelines cph
                         (getitem required_cols conflict_row)) ;;
    curve <- curve_at 0 surv_pred ;;
    emit (plot label_text curve) ;;;
    emit pyplot
  else
    emit (markdown no_conflict).

(** Lines 193-250, from the choices of the three select boxes. *)
Definition drill_down (cph : Model lifelines) (ui : Widgets) : M unit :=
  need ["country_a"; "country_b"] "data" ;;;
  data <- var "data" ;;
  new "filtered_conflicts" (select_pair (selected_initiator ui) (selected_target ui) data) ;;;
  need shown_cols "filtered_conflicts" ;;;
  filtered_conflicts <- var "filtered_conflicts" ;;
  emit (dataframe (getitem shown_cols filtered_conflicts)) ;;;
  need required_cols "filtered_conflicts" ;;;
  new "valid_conflicts" (select_valid filtered_conflicts) ;;;
  valid_conflicts <- var "valid_conflicts" ;;
  (if negb (has_col "start_year" valid_conflicts)
   then need ["start_date"] "valid_conflicts" ;;;
        mutate "valid_conflicts" set_year_from_date
   else ret tt) ;;;
  need ["start_year"] "valid_conflicts" ;;;
  valid_conflicts <- var "valid_conflicts" ;;
  new "conflict_row" (select_year (selected_year ui) valid_conflicts) ;;;
  conflict_row <- var "conflict_row" ;;
  plot_conflict cph data conflict_row.

(** Lines 276-288, on the scenario row. *)
Definition plot_scenario (cph : Model lifelines) (custom_input : Frame) : M unit :=
  surv_pred <- call (predict_survival_function lifelines cph custom_input) ;;
  curve <- curve_at 0 surv_pred ;;
  emit (plot (Str "USA – Chine (2025)") curve) ;;;
  emit pyplot.

(** Lines 264-288. *)
Definition scenario (cph : Model lifelines) (ui : Widgets) : M unit :=
  new "custom_input"
      (custom_row (gdp_input ui) (measures_input ui) (duration_input ui)) ;;;
  custom_input <- var "custom_input" ;;
  plot_scenario cph custom_input.

Definition fresh : State := mkState [] [] [].

End Render.

(** ** Vocabulary of the statements *)

(** An episode with the seven cells that [dropna] looks at. *)
Definition complete (e : Episode) : bool :=
  forallb notna
    [str_cell (country_a e); str_cell (country_b e);
     num_cell (gdp_country_a e); num_cell (number_of_measures e);
     num_cell (mean_duration_months e); num_cell (duration_months e);
     num_cell (terminated e)].

(** The five fields the fit needs. *)
Definition fit_fields (e : Episode) : list cell :=
  [num_cell (gdp_country_a e); num_cell (number_of_measures e);
   num_cell (mean_duration_months e); num_cell (duration_months e);
   num_cell (terminated e)].

Definition episode_label (e : Episode) : cell :=
  cell_add (cell_add (str_cell (country_a e)) (Str sep)) (str_cell (country_b e)).

(** The cells of a prepared row, column by column. *)
Definition prepared_cells (e : Episode) : Row :=
  str_cell (country_a e) :: str_cell (country_b e) :: fit_fields e ++ [episode_label e].

Definition prepared_columns : list string :=
  ["country_a"; "country_b"; "gdp_country_a"; "number_of_measures";
   "mean_duration_months"; "duration_months"; "terminated"; "label"].

Definition ended (e : Episode) : bool :=
  cell_eqb (num_cell (terminated e)) (Num 1).

Definition cohort_columns : list string :=
  prepared_columns ++ ["start_year"].

(** Readers of a row of the cohort tables. *)
Definition initiator (r : Row) : cell := at_ cohort_columns r "country_a".
Definition target (r : Row) : cell := at_ cohort_columns r "country_b".
Definition event_flag (r : Row) : cell := at_ cohort_columns r "terminated".
Definition year_of (r : Row) : cell := at_ cohort_columns r "start_year".

(** Ascending start years, rows without a year last. *)
Definition by_year (x y : nat * Row) : Prop :=
  key_leb (year_of (snd x)) (year_of (snd y)) = true.

Definition from_initiator (c : string) (ir : nat * Row) : bool :=
  cell_eqb (initiator (snd ir)) (Str c).

(** The table handed to the fitter. *)
Definition fit_input (file : list Episode) : Frame :=
  getitem model_cols (data_model (read_csv file)).

(** The cells of a row of [terminated_conflicts]; [float_dtype] tells
    whether its year column holds a missing value. *)
Definition episode_year (e : Episode) : cell :=
  dt_year (date_cell (start_date e)).

Definition cohort_label (float_dtype : bool) (e : Episode) : cell :=
  cell_add (cell_add (cell_add (episode_label e) (Str " ("))
                     (str_year float_dtype (episode_year e)))
           (Str ")").

Definition cohort_cells (float_dtype : bool) (e : Episode) : Row :=
  str_cell (country_a e) :: str_cell (country_b e) :: fit_fields e
  ++ [cohort_label float_dtype e; episode_year e].

Definition float_years (file : list Episode) : bool :=
  has_na (column "start_year"
            (set_start_year (read_csv file)
               (select_terminated (data_model (read_csv file))))).

(** The rows the backfill is grouped from. *)
Definition other_candidates (data : Frame) : Frame :=
  candidates (terminated_conflicts data) (usa_terminated data).

(** The label of the drill-down plot, from the first selected row. *)
Definition first_row_label (float_dtype : bool) (e : Episode) : cell :=
  cell_add
    (cell_add
       (cell_add (cell_add (cell_add (str_cell (country_a e)) (Str sep))
                           (str_cell (country_b e)))
                 (Str " ("))
       (str_year float_dtype (int_cell (start_year e))))
    (Str ")").

(** *** Ill-conditioned fitting input

    The three conditions under which the estimation is ill-posed, read
    off a table that carries the three covariates and the event column. *)

Definition value (c : cell) : Q :=
  match c with Num q => q | _ => 0%Q end.

Definition covariate (X : Frame) (c : string) : list Q :=
  map value (column c X).

Definition dot (u v : list Q) : Q :=
  fold_right Qplus 0%Q (map (fun p => (fst p * snd p)%Q) (combine u v)).

Definition det3 (a b c d e f g h i : Q) : Q :=
  (a * (e * i - f * h) - b * (d * i - f * g) + c * (d * h - e * g))%Q.

(** The Gram determinant of the three covariate columns, taken as they
    are (not centred), vanishes. *)
Definition rank_deficient (X : Frame) : bool :=
  let x := covariate X "gdp_country_a" in
  let y := covariate X "number_of_measures" in
  let z := covariate X "mean_duration_months" in
  Qeq_bool (det3 (dot x x) (dot x y) (dot x z)
                 (dot y x) (dot y y) (dot y z)
                 (dot z x) (dot z y) (dot z z)) 0%Q.

(** The rows whose event flag is 1, the test of line 117. *)
Definition events (X : Frame) : nat :=
  List.length (filter (fun c => cell_eqb c (Num 1)) (column "terminated" X)).

Definition few_events (X : Frame) : bool :=
  events X <? List.length features.

Definition constant (l : list Q) : bool :=
  match l with
  | [] => true
  | q :: rest => forallb (Qeq_bool q) rest
  end.

Definition constant_covariate (X : Frame) : bool :=
  existsb (fun c => constant (covariate X c)) features.

Definition ill_conditioned (X : Frame) : bool :=
  rank_deficient X || few_events X || constant_covariate X.

(** *** A fitter to run the script with

    It refuses ill-conditioned input and otherwise stays at the
    starting point of the iteration: every coefficient is 0 and every
    curve is flat. *)
Definition zero_fitter : CoxPHFitter :=
  mkCoxPHFitter (list (string * Q)) (list Q)
    (fun X duration_col event_col =>
       if ill_conditioned X then Raise (LibraryError "ConvergenceError")
       else Ok (map (fun c => (c, 0%Q)) (covariates_of X duration_col event_col)))
    (fun m => m)
    (fun m X => Ok (map (fun _ => [1%Q]) (rows X))).

(** ** Vocabulary of the runs *)

(** The objects a complete run creates, in the order of creation, each
    as it stands when the run ends. *)
Definition tables (file : list Episode) (ui : Widgets) : list Frame :=
  let data := read_csv file in
  [data;
   data_model data;
   terminated_conflicts data;
   usa_terminated data;
   other_bigpower_conflicts data;
   additional data;
   final_set data;
   filtered_conflicts data (selected_initiator ui) (selected_target ui);
   valid_conflicts data (selected_initiator ui) (selected_target ui);
   conflict_row data (selected_initiator ui) (selected_target ui) (selected_year ui);
   custom_row (gdp_input ui) (measures_input ui) (duration_input ui)].

(** The variables bound to them. *)
Definition names : list string :=
  ["data"; "data_model"; "terminated_conflicts"; "usa_terminated";
   "other_bigpower_conflicts"; "additional"; "final_set";
   "filtered_conflicts"; "valid_conflicts"; "conflict_row"; "custom_input"].

(** The first [n] variables, bound to the objects at [base], [base + 1],
    ...; the latest binding comes first. *)
Definition bindings (base n : nat) : list (string * nat) :=
  rev (combine (firstn n names) (seq base n)).

Section Writers.

Variable L : CoxPHFitter.

(** A command that only writes to the screen: it shows [out] and ends
    with [r], whatever the store and the variables. *)
Definition writes {A : Type} (m : M L A) (out : list (Event (Curve L))) (r : Exc A) : Prop :=
  forall s, m s = (mkState L (store L s) (globals L s) (screen L s ++ out), r).

Definition writer {A : Type} (m : M L A) : Prop :=
  exists out r, writes m out r.

(** The state after the first [n] objects of a run that started with
    the store [h] and the variables [g]. *)
Definition reached (file : list Episode) (ui : Widgets) (n : nat)
    (h : list Frame) (g : list (string * nat)) (scr : list (Event (Curve L))) : State L :=
  mkState L (h ++ firstn n (tables file ui)) (bindings (List.length h) n ++ g) scr.

End Writers.

(** ** Example files *)

Definition episode (a b : string) (year : Z) (ended_flag : Q) : Episode :=
  mkEpisode (Some a) (Some b) (Some year) (Some (year, 1%Z, 1%Z)) None
            (Some ended_flag) (Some 5%Q) (Some 3%Q) (Some 2%Q) (Some 1%Q).

(** Two terminated episodes started by India, the later one first. *)
Definition india_file : list Episode :=
  [episode "India" "France" 2020 1; episode "India" "Japan" 2018 1].

(** Three complete, terminated episodes whose covariates are neither
    constant nor collinear. *)
Definition sound_file : list Episode :=
  [mkEpisode (Some "India") (Some "Japan") (Some 2018%Z) (Some (2018, 3, 1)%Z) None
             (Some 1%Q) (Some 12%Q) (Some 1%Q) (Some 2%Q) (Some 3%Q);
   mkEpisode (Some "India") (Some "Japan") (Some 2018%Z) (Some (2018, 9, 1)%Z) None
             (Some 1%Q) (Some 7%Q) (Some 2%Q) (Some 1%Q) (Some 5%Q);
   mkEpisode (Some "United States of America") (Some "Canada") (Some 2019%Z)
             (Some (2019, 1, 1)%Z) None
             (Some 1%Q) (Some 9%Q) (Some 4%Q) (Some 7%Q) (Some 1%Q)].

Definition india_japan_2018 : Widgets :=
  mkWidgets (Str "India") (Str "Japan") (Num 2018) 2.3 15 8.

(** Terminated episodes of three initiators: two of the United States
    of America, three of India, two of Canada, one of them against a
    country outside the list. *)
Definition mixed_file : list Episode :=
  [episode "India" "France" 2020 1;
   episode "United States of America" "India" 2019 1;
   episode "India" "Japan" 2018 1;
   episode "United States of America" "Japan" 2017 1;
   episode "India" "Japan" 2016 1;
   episode "Canada" "Japan" 2016 1;
   episode "Canada" "Chile" 2016 1].

(** One episode that is still running. *)
Definition censored_file : list Episode :=
  [episode "Canada" "Chile" 2021 0].

(** ** The option lists of the select boxes (lines 185-208) *)

(** Two cells hold the same value; for [unique] the missing value is a
    value like any other. *)
Definition same_value (a b : cell) : bool :=
  match a, b with
  | NA, NA => true
  | _, _ => cell_eqb a b
  end.

(** [Series.unique()]: the values in the order of their first
    occurrence. *)
Fixpoint unique (cells : list cell) : list cell :=
  match cells with
  | [] => []
  | c :: rest => c :: filter (fun d => negb (same_value c d)) (unique rest)
  end.

Definition is_str (c : cell) : bool :=
  match c with Str _ => true | _ => false end.

(** [sorted(values)] for the values of a country column, which are
    strings or missing.  Strings are put in ascending order; a missing
    value is a float, and comparing it with a string raises
    [TypeError]; zero or one value needs no comparison. *)
Definition py_sorted (cells : list cell) : Exc (list cell) :=
  match cells with
  | [] => Ok []
  | [c] => Ok [c]
  | _ =>
      if forallb is_str cells
      then Ok (map Str (fold_right insert_key [] (strings_of cells)))
      else Raise TypeError
  end.

(** Line 185: [sorted(data['country_a'].unique())] *)
Definition available_initiators (data : Frame) : Exc (list cell) :=
  py_sorted (unique (column "country_a" data)).

(** Line 189:
    [sorted(data[data['country_a'] == selected_initiator]['country_b'].unique())] *)
Definition available_targets (data : Frame) (selected_initiator : cell) : Exc (list cell) :=
  py_sorted (unique (column "country_b"
    (where_ (fun cols ir => cell_eqb (at_ cols (snd ir) "country_a") selected_initiator)
            data))).

Fixpoint insert_cell (c : cell) (l : list cell) : list cell :=
  match l with
  | [] => [c]
  | d :: rest => if key_leb c d then c :: l else d :: insert_cell c rest
  end.

(** Lines 206-207: [filtered_conflicts['start_year'].dropna().unique()],
    then sorted in place, ascending. *)
Definition available_years (filtered : Frame) : list cell :=
  fold_right insert_cell [] (unique (filter notna (column "start_year" filtered))).

(** ** What the script expects of the predictor *)

(** One curve per row of the table it is asked about. *)
Definition curves_per_row (L : CoxPHFitter) : Prop :=
  forall m X curves,
    predict_survival_function L m X = Ok curves -> List.length curves = len X.

(** An error that the library raised, in the fit of this file or in a
    prediction. *)
Definition library_error (L : CoxPHFitter) (file : list Episode) (e : Error) : Prop :=
  fit L (fit_input file) "duration_months" "terminated" = Raise e
  \/ exists m X, predict_survival_function L m X = Raise e.

(** The index labels that the rows of [final_set] had in
    [terminated_conflicts], in the order of [final_set]. *)
Definition cohort_origin (data : Frame) : list nat :=
  index (usa_terminated data)
  ++ firstn (10 - len (usa_terminated data))
            (index (groupby_head "country_a" 2 (other_candidates data))).

Section CohortPlots.

Variable L : CoxPHFitter.

(** The body of the loop of lines 160-162, for row [i]. *)
Definition plot_row_body (final_set : Frame) (surv_plot : list (Curve L)) (i : nat) : M L unit :=
  bind L (iloc L "label" i final_set) (fun label =>
  bind L (curve_at L i surv_plot) (fun curve =>
  emit L (plot label curve))).

(** One plot per label and curve, pairwise. *)
Definition plots (labels : list cell) (curves : list (Curve L)) : list (Event (Curve L)) :=
  map (fun p => plot (fst p) (snd p)) (combine labels curves).

End CohortPlots.

(** A sort key that is a number or missing, as a start year is. *)
Definition numeric_key (c : cell) : bool :=
  match c with NA | Num _ => true | _ => false end.

(** An episode without initiator, one of India without target, and a
    complete one of India. *)
Definition gappy_file : list Episode :=
  [mkEpisode None (Some "Japan") (Some 2019%Z) (Some (2019, 1, 1)%Z) None
             (Some 1%Q) (Some 5%Q) (Some 3%Q) (Some 2%Q) (Some 1%Q);
   mkEpisode (Some "India") None (Some 2017%Z) (Some (2017, 1, 1)%Z) None
             (Some 1%Q) (Some 5%Q) (Some 3%Q) (Some 2%Q) (Some 1%Q);
   episode "India" "Japan" 2018 1].

(** A predictor that answers with a single curve whatever it is asked. *)
Definition one_curve_fitter : CoxPHFitter :=
  mkCoxPHFitter (list (string * Q)) (list Q)
    (fit zero_fitter) (fun m => m) (fun _ _ => Ok [[1%Q]]).

(** ** The script, statement by statement *)

Section Script.

Variable L : CoxPHFitter.

Notation "x <- m ;; k" := (bind L m (fun x => k))
  (at level 61, m at next level, right associativity).
Notation "m ;;; k" := (bind L m (fun _ => k))
  (at level 61, right associativity).

(** Line 78. *)
Definition load_data (file : list Episode) : M L unit :=
  new L "data" (read_csv file).

(** Lines 91-93. *)
Definition make_data_model : M L unit :=
  need L (["country_a"; "country_b"] ++ features ++ ["duration_months"; "terminated"])
       "data" ;;;
  data <- var L "data" ;;
  new L "data_model" (select_features data).

(** Line 96. *)
Definition label_data_model : M L unit :=
  need L ["country_a"; "country_b"] "data_model" ;;;
  mutate L "data_model" set_pair_label.

(** Line 117. *)
Definition make_terminated_conflicts : M L unit :=
  need L ["terminated"] "data_model" ;;;
  data_model <- var L "data_model" ;;
  new L "terminated_conflicts" (select_terminated data_model).

(** Line 120. *)
Definition date_terminated_conflicts : M L unit :=
  need L ["start_date"] "data" ;;;
  data <- var L "data" ;;
  mutate L "terminated_conflicts" (set_start_year data).

(** Lines 123-127. *)
Definition label_terminated_conflicts : M L unit :=
  need L ["country_a"; "country_b"; "start_year"] "terminated_conflicts" ;;;
  mutate L "terminated_conflicts" set_dated_label.

(** Lines 130-137. *)
Definition make_usa_terminated : M L unit :=
  need L ["country_a"; "country_b"; "start_year"] "terminated_conflicts" ;;;
  terminated_conflicts <- var L "terminated_conflicts" ;;
  new L "usa_terminated" (select_usa terminated_conflicts).

(** Lines 142-147. *)
Definition make_other_bigpower_conflicts : M L unit :=
  need L ["country_a"; "country_b"] "terminated_conflicts" ;;;
  terminated_conflicts <- var L "terminated_conflicts" ;;
  usa_terminated <- var L "usa_terminated" ;;
  new L "other_bigpower_conflicts" (select_others terminated_conflicts usa_terminated).

(** Line 150. *)
Definition make_additional : M L unit :=
  usa_terminated <- var L "usa_terminated" ;;
  other_bigpower_conflicts <- var L "other_bigpower_conflicts" ;;
  new L "additional" (take_additional usa_terminated other_bigpower_conflicts).

(** Line 153. *)
Definition make_final_set : M L unit :=
  usa_terminated <- var L "usa_terminated" ;;
  additional <- var L "additional" ;;
  new L "final_set" (concat_final usa_terminated additional).

(** Lines 156-171. *)
Definition show_cohort (cph : Model L) : M L unit :=
  final_set <- var L "final_set" ;;
  plot_cohort L cph final_set.

(** Lines 185-186: the option list is built, then the select box
    answers with the choice of the session. *)
Definition initiator_box : M L unit :=
  need L ["country_a"] "data" ;;;
  data <- var L "data" ;;
  available <- call L (available_initiators data) ;;
  ret L tt.

(** Lines 189-190. *)
Definition target_box (ui : Widgets) : M L unit :=
  need L ["country_a"; "country_b"] "data" ;;;
  data <- var L "data" ;;
  available <- call L (available_targets data (selected_initiator ui)) ;;
  ret L tt.

(** Lines 193-196. *)
Definition make_filtered_conflicts (ui : Widgets) : M L unit :=
  need L ["country_a"; "country_b"] "data" ;;;
  data <- var L "data" ;;
  new L "filtered_conflicts" (select_pair (selected_initiator ui) (selected_target ui) data).

(** Lines 199-203. *)
Definition show_filtered_conflicts : M L unit :=
  need L shown_cols "filtered_conflicts" ;;;
  filtered_conflicts <- var L "filtered_conflicts" ;;
  emit L (dataframe (getitem shown_cols filtered_conflicts)).

(** Lines 206-208. *)
Definition year_box : M L unit :=
  need L ["start_year"] "filtered_conflicts" ;;;
  filtered_conflicts <- var L "filtered_conflicts" ;;
  available <- call L (Ok (available_years filtered_conflicts)) ;;
  ret L tt.

(** Line 219. *)
Definition make_valid_conflicts : M L unit :=
  need L required_cols "filtered_conflicts" ;;;
  filtered_conflicts <- var L "filtered_conflicts" ;;
  new L "valid_conflicts" (select_valid filtered_conflicts).

(** Lines 222-223. *)
Definition date_valid_conflicts : M L unit :=
  valid_conflicts <- var L "valid_conflicts" ;;
  if negb (has_col "start_year" valid_conflicts)
  then need L ["start_date"] "valid_conflicts" ;;;
       mutate L "valid_conflicts" set_year_from_date
  else ret L tt.

(** Line 226. *)
Definition make_conflict_row (ui : Widgets) : M L unit :=
  need L ["start_year"] "valid_conflicts" ;;;
  valid_conflicts <- var L "valid_conflicts" ;;
  new L "conflict_row" (select_year (selected_year ui) valid_conflicts).

(** Lines 228-250. *)
Definition show_conflict (cph : Model L) : M L unit :=
  data <- var L "data" ;;
  conflict_row <- var L "conflict_row" ;;
  plot_conflict L cph data conflict_row.

(** Lines 269-273. *)
Definition make_custom_input (ui : Widgets) : M L unit :=
  new L "custom_input"
      (custom_row (gdp_input ui) (measures_input ui) (duration_input ui)).

(** Lines 276-288. *)
Definition show_scenario (cph : Model L) : M L unit :=
  custom_input <- var L "custom_input" ;;
  plot_scenario L cph custom_input.

(** The statements before the fit, and those after it, which use the
    fitted model. *)
Definition before_fit (file : list Episode) : list (M L unit) :=
  [load_data file; make_data_model; label_data_model].

Definition after_fit (cph : Model L) (ui : Widgets) : list (M L unit) :=
  [make_terminated_conflicts; date_terminated_conflicts; label_terminated_conflicts;
   make_usa_terminated; make_other_bigpower_conflicts; make_additional; make_final_set;
   show_cohort cph;
   initiator_box; target_box ui;
   make_filtered_conflicts ui; show_filtered_conflicts; year_box;
   make_valid_conflicts; date_valid_conflicts; make_conflict_row ui;
   show_conflict cph;
   make_custom_input ui; show_scenario cph].

(** Statements run one after the other; the first error ends the run. *)
Definition run_all (statements : list (M L unit)) : M L unit :=
  for_each L statements (fun statement => statement).

(** The state after each statement, up to and including the one that
    raises. *)
Fixpoint along (statements : list (M L unit)) (s : State L) : list (State L) :=
  match statements with
  | [] => []
  | statement :: rest =>
      match statement s with
      | (s', Ok _) => s' :: along rest s'
      | (s', Raise _) => [s']
      end
  end.

(** One run of the script, lines 78-288. *)
Definition page (file : list Episode) (ui : Widgets) : M L unit :=
  run_all (before_fit file) ;;;
  cph <- fit_model L ;;
  run_all (after_fit cph ui).

(** The states one run goes through: after each statement before the
    fit, after the fit, and after each statement that follows. *)
Definition page_states (file : list Episode) (ui : Widgets) (s : State L) : list (State L) :=
  let before := along (before_fit file) s in
  match run_all (before_fit file) s with
  | (s1, Ok _) =>
      match fit_model L s1 with
      | (s2, Ok cph) => before ++ s2 :: along (after_fit cph ui) s2
      | (s2, Raise _) => before ++ [s2]
      end
  | (_, Raise _) => before
  end.

(** The state holds the objects [objs] of the run behind the objects
    [h] that existed before it, and the variables of the run are bound
    to them in the order of creation. *)
Definition holds (h : list Frame) (g : list (string * nat)) (objs : list Frame)
    (s : State L) : Prop :=
  store L s = h ++ objs
  /\ globals L s = bindings (List.length h) (List.length objs) ++ g.

(** A statement takes a state with the objects [objs] to one with the
    objects [objs'], and raises only errors of the kind [Q]. *)
Definition step (Q : Error -> Prop) (h : list Frame) (g : list (string * nat))
    (statement : M L unit) (objs objs' : list Frame) : Prop :=
  forall s, holds h g objs s ->
    exists s' r, statement s = (s', r) /\ holds h g objs' s'
                 /\ forall e, r = Raise e -> Q e.

(** The states along [statements] hold, one after the other, the
    objects listed in [stores], as far as the run gets. *)
Definition traced (Q : Error -> Prop) (h : list Frame) (g : list (string * nat))
    (statements : list (M L unit)) (s : State L) (stores : list (list Frame)) : Prop :=
  exists k,
    k <= List.length stores
    /\ Forall2 (fun s' objs => holds h g objs s') (along statements s) (firstn k stores)
    /\ (snd (run_all statements s) = Ok tt -> k = List.length stores)
    /\ (forall e, snd (run_all statements s) = Raise e -> Q e).

End Script.

(** The objects of a run after each of its statements (the fit
    included, which creates none), as far as the run gets: what the
    run has created so far, each object as it stands at that point. *)
Definition stores_along (file : list Episode) (ui : Widgets) : list (list Frame) :=
  let data := read_csv file in
  let t := tables file ui in
  [ [data];
    [data; select_features data];
    [data; data_model data];
    [data; data_model data];
    [data; data_model data; select_terminated (data_model data)];
    [data; data_model data; set_start_year data (select_terminated (data_model data))];
    firstn 3 t; firstn 4 t; firstn 5 t; firstn 6 t; firstn 7 t;
    firstn 7 t;
    firstn 7 t; firstn 7 t;
    firstn 8 t; firstn 8 t; firstn 8 t;
    firstn 9 t; firstn 9 t; firstn 10 t;
    firstn 10 t;
    firstn 11 t; firstn 11 t ].

(** What one statement may do to the objects: nothing, create one
    behind the others, or change the newest one where it is. *)
Definition local_change (before after : list Frame) : Prop :=
  after = before
  \/ (exists df, after = before ++ [df])
  \/ (List.length after = List.length before
      /\ removelast after = removelast before).

(** A relation holds from each element of a sequence to the next. *)
Fixpoint stepwise {A : Type} (R : A -> A -> Prop) (a : A) (l : list A) : Prop :=
  match l with
  | [] => True
  | b :: rest => R a b /\ stepwise R b rest
  end.

(** *** A library that does not refuse *)

(** It fits whatever table it is given: every coefficient is 0 and
    every curve is flat. *)
Definition lenient_fitter : CoxPHFitter :=
  mkCoxPHFitter (list (string * Q)) (list Q)
    (fun X duration_col event_col =>
       Ok (map (fun c => (c, 0%Q)) (covariates_of X duration_col event_col)))
    (fun m => m)
    (fun m X => Ok (map (fun _ => [1%Q]) (rows X))).

(** [sound_file] with its last episode still running: two events for
    three covariates. *)
Definition two_event_file : list Episode :=
  [mkEpisode (Some "India") (Some "Japan") (Some 2018%Z) (Some (2018, 3, 1)%Z) None
             (Some 1%Q) (Some 12%Q) (Some 1%Q) (Some 2%Q) (Some 3%Q);
   mkEpisode (Some "India") (Some "Japan") (Some 2018%Z) (Some (2018, 9, 1)%Z) None
             (Some 1%Q) (Some 7%Q) (Some 2%Q) (Some 1%Q) (Some 5%Q);
   mkEpisode (Some "United States of America") (Some "Canada") (Some 2019%Z)
             (Some (2019, 1, 1)%Z) None
             (Some 0%Q) (Some 9%Q) (Some 4%Q) (Some 7%Q) (Some 1%Q)].

(** What the screen shows, kind by kind. *)
Definition kind {C : Type} (e : Event C) : string :=
  match e with
  | markdown _ => "markdown"
  | dataframe _ => "dataframe"
  | coefficient_table _ => "coefficient_table"
  | plot _ _ => "plot"
  | pyplot => "pyplot"
  end.

(** Every episode names its initiator and its target. *)
Definition named (e : Episode) : bool :=
  match country_a e, country_b e with
  | Some _, Some _ => true
  | _, _ => false
  end.

(** An error a run may end with when the predictor keeps its word: one
    the library raised, or the [TypeError] of [sorted] on the option
    list of the initiators or of the targets. *)
Definition run_error (L : CoxPHFitter) (file : list Episode) (ui : Widgets) (e : Error) : Prop :=
  library_error L file e
  \/ (e = TypeError
      /\ (available_initiators (read_csv file) = Raise TypeError
          \/ available_targets (read_csv file) (selected_initiator ui) = Raise TypeError)).

(** * Properties *)
(** ** Lists with positions *)

Lemma combine_seq_map {A B : Type} (f : A -> B) (l : list A) (k : nat) :
  combine (seq k (List.length (map f l))) (map f l)
  = map (fun p => (fst p, f (snd p))) (combine (seq k (List.length l)) l).
Proof.
  revert k. induction l as [|a l IH]; intros k; simpl; [reflexivity|].
  f_equal. apply IH.
Qed.

Lemma enumerate_map {A B : Type} (f : A -> B) (l : list A) :
  enumerate (map f l) = map (fun p => (fst p, f (snd p))) (enumerate l).
Proof. apply combine_seq_map. Qed.

Lemma in_combine_seq {A : Type} (l : list A) (k i : nat) (x : A) :
  In (i, x) (combine (seq k (List.length l)) l)
  <-> k <= i /\ nth_error l (i - k) = Some x.
Proof.
  revert k. induction l as [|a l IH]; intros k; simpl.
  - split; [tauto|]. intros [_ H]. destruct (i - k); discriminate.
  - rewrite IH. split.
    + intros [H | [Hle H]].
      * inversion H; subst. rewrite Nat.sub_diag. auto.
      * split; [lia|]. replace (i - k) with (S (i - S k)) by lia. exact H.
    + intros [Hle H]. destruct (Nat.eq_dec k i) as [->|Hne].
      * rewrite Nat.sub_diag in H. left. simpl in H. congruence.
      * right. split; [lia|].
        replace (i - k) with (S (i - S k)) in H by lia. exact H.
Qed.

Lemma in_enumerate {A : Type} (l : list A) (i : nat) (x : A) :
  In (i, x) (enumerate l) <-> nth_error l i = Some x.
Proof.
  unfold enumerate. rewrite in_combine_seq, Nat.sub_0_r.
  split; [tauto | split; [lia | assumption]].
Qed.

Lemma combine_seq_fst {A : Type} (l : list A) (k : nat) :
  map fst (combine (seq k (List.length l)) l) = seq k (List.length l).
Proof.
  revert k. induction l as [|a l IH]; intros k; simpl; [reflexivity|].
  f_equal. apply IH.
Qed.

Lemma combine_seq_snd {A : Type} (l : list A) (k : nat) :
  map snd (combine (seq k (List.length l)) l) = l.
Proof.
  revert k. induction l as [|a l IH]; intros k; simpl; [reflexivity|].
  f_equal. apply IH.
Qed.

Lemma enumerate_index {A : Type} (l : list A) :
  map fst (enumerate l) = seq 0 (List.length l).
Proof. apply combine_seq_fst. Qed.

Lemma enumerate_values {A : Type} (l : list A) :
  map snd (enumerate l) = l.
Proof. apply combine_seq_snd. Qed.

Lemma enumerate_length {A : Type} (l : list A) :
  List.length (enumerate l) = List.length l.
Proof. unfold enumerate. rewrite length_combine, length_seq. lia. Qed.

(** ** Feature preparation *)

Lemma data_model_columns (data : Frame) :
  columns (data_model data) = prepared_columns.
Proof. reflexivity. Qed.

Lemma data_model_rows (file : list Episode) :
  rows (data_model (read_csv file))
  = map (fun ie => (fst ie, prepared_cells (snd ie)))
        (filter (fun ie => complete (snd ie)) (enumerate file)).
Proof.
  unfold data_model, set_pair_label, select_features, copy, setitem, dropna,
    getitem, read_csv. simpl.
  rewrite enumerate_map, map_map, filter_map_swap, map_map. simpl.
  f_equal.
Qed.

(** ** The terminated episodes *)

Lemma find_combine_seq {A : Type} (l : list A) (k i : nat) (x : A) :
  k <= i -> nth_error l (i - k) = Some x ->
  find (fun ir => Nat.eqb (fst ir) i) (combine (seq k (List.length l)) l) = Some (i, x).
Proof.
  revert k. induction l as [|a l IH]; intros k Hle H; simpl.
  - destruct (i - k); discriminate.
  - destruct (Nat.eqb_spec k i) as [->|Hne].
    + rewrite Nat.sub_diag in H. simpl in H. congruence.
    + apply IH; [lia|]. replace (i - k) with (S (i - S k)) in H by lia. exact H.
Qed.

Lemma loc_read_csv (file : list Episode) (i : nat) (e : Episode) (c : string) :
  nth_error file i = Some e ->
  loc (read_csv file) i c = at_ raw_columns (to_row e) c.
Proof.
  intros H. unfold loc, read_csv, enumerate. simpl.
  rewrite (find_combine_seq (map to_row file) 0 i (to_row e)); [reflexivity | lia |].
  rewrite Nat.sub_0_r, nth_error_map, H. reflexivity.
Qed.

Lemma terminated_conflicts_columns (data : Frame) :
  columns (terminated_conflicts data) = cohort_columns.
Proof. reflexivity. Qed.

Lemma terminated_conflicts_steps (data : Frame) (fl : bool) :
  setitem "label" (dated_label fl cohort_columns)
    (set_start_year data (select_terminated (data_model data)))
  = mkFrame cohort_columns
      (map (fun ir => (fst ir, set_nth 7 (dated_label fl cohort_columns ir) (snd ir)))
         (map (fun ir => (fst ir, snd ir ++ [dt_year (loc data (fst ir) "start_date")]))
            (filter (fun ir => cell_eqb (at_ prepared_columns (snd ir) "terminated") (Num 1))
               (rows (data_model data))))).
Proof. reflexivity. Qed.

Lemma terminated_conflicts_rows (file : list Episode) :
  rows (terminated_conflicts (read_csv file))
  = map (fun ie => (fst ie, cohort_cells (float_years file) (snd ie)))
        (filter (fun ie => ended (snd ie))
           (filter (fun ie => complete (snd ie)) (enumerate file))).
Proof.
  unfold terminated_conflicts, set_dated_label.
  fold (float_years file).
  change (columns (set_start_year (read_csv file) (select_terminated (data_model (read_csv file)))))
    with cohort_columns.
  rewrite terminated_conflicts_steps. cbn [rows].
  rewrite data_model_rows, filter_map_swap, !map_map.
  apply map_ext_in. intros [i e] Hin.
  apply filter_In in Hin as [Hin _]. apply filter_In in Hin as [Hin _].
  apply in_enumerate in Hin. cbn [fst snd].
  rewrite (loc_read_csv file i e "start_date" Hin). reflexivity.
Qed.

(** ** Sorting by a key *)

Lemma key_leb_total (a b : cell) : key_leb a b = false -> key_leb b a = true.
Proof.
  destruct a, b; simpl; try reflexivity; try discriminate.
  - intros H. destruct (String.leb_total s s0) as [H1 | H1]; congruence.
  - intros H. apply Qle_bool_iff.
    destruct (Qlt_le_dec q0 q) as [Hlt | Hle].
    + apply Qlt_le_weak. exact Hlt.
    + apply Qle_bool_iff in Hle. congruence.
Qed.

Section Sorting.

Variable key : nat * Row -> cell.

Let ordered (x y : nat * Row) : Prop := key_leb (key x) (key y) = true.

Lemma insert_sorted_perm (x : nat * Row) (l : list (nat * Row)) :
  Permutation (insert_sorted key x l) (x :: l).
Proof.
  induction l as [|y l IH]; simpl; [apply Permutation_refl|].
  destruct (key_leb (key y) (key x)).
  - rewrite IH. apply perm_swap.
  - apply Permutation_refl.
Qed.

Lemma fold_insert_perm (l acc : list (nat * Row)) :
  Permutation (fold_left (fun a x => insert_sorted key x a) l acc) (acc ++ l).
Proof.
  revert acc. induction l as [|x l IH]; intros acc; simpl.
  - rewrite app_nil_r. apply Permutation_refl.
  - rewrite IH, insert_sorted_perm. apply Permutation_middle.
Qed.

Lemma sort_rows_perm (l : list (nat * Row)) : Permutation (sort_rows key l) l.
Proof. unfold sort_rows. apply (fold_insert_perm l []). Qed.

Lemma insert_sorted_hd (x y : nat * Row) (l : list (nat * Row)) :
  ordered y x -> HdRel ordered y l -> HdRel ordered y (insert_sorted key x l).
Proof.
  intros Hyx Hhd. destruct l as [|z l]; simpl.
  - constructor. exact Hyx.
  - destruct (key_leb (key z) (key x)); constructor.
    + inversion Hhd; assumption.
    + exact Hyx.
Qed.

Lemma insert_sorted_sorted (x : nat * Row) (l : list (nat * Row)) :
  Sorted ordered l -> Sorted ordered (insert_sorted key x l).
Proof.
  induction l as [|y l IH]; intros Hs; simpl.
  - repeat constructor.
  - inversion Hs as [|? ? Hl Hhd]; subst.
    destruct (key_leb (key y) (key x)) eqn:E.
    + constructor; [apply IH; exact Hl|].
      apply insert_sorted_hd; assumption.
    + constructor; [exact Hs|]. constructor.
      apply key_leb_total. exact E.
Qed.

Lemma fold_insert_sorted (l acc : list (nat * Row)) :
  Sorted ordered acc ->
  Sorted ordered (fold_left (fun a x => insert_sorted key x a) l acc).
Proof.
  revert acc. induction l as [|x l IH]; intros acc Hs; simpl; [exact Hs|].
  apply IH, insert_sorted_sorted, Hs.
Qed.

Lemma sort_rows_sorted (l : list (nat * Row)) : Sorted ordered (sort_rows key l).
Proof. apply fold_insert_sorted. constructor. Qed.

End Sorting.

Lemma Sorted_firstn {A : Type} (R : A -> A -> Prop) (n : nat) (l : list A) :
  Sorted R l -> Sorted R (firstn n l).
Proof.
  revert n. induction l as [|a l IH]; intros n Hs.
  - rewrite firstn_nil. constructor.
  - destruct n as [|n]; simpl; [constructor|].
    inversion Hs as [|? ? Hl Hhd]; subst.
    constructor; [apply IH; exact Hl|].
    destruct l as [|b l]; [destruct n; constructor|].
    destruct n as [|n]; simpl; constructor.
    inversion Hhd; assumption.
Qed.

Lemma In_firstn {A : Type} (n : nat) (l : list A) (x : A) :
  In x (firstn n l) -> In x l.
Proof.
  intros H. rewrite <- (firstn_skipn n l). apply in_or_app. left. exact H.
Qed.

(** ** The reference-country rows *)

Lemma usa_terminated_rows (data : Frame) :
  rows (usa_terminated data)
  = firstn 5 (sort_rows (fun ir => year_of (snd ir))
                (filter (usa_mask cohort_columns) (rows (terminated_conflicts data)))).
Proof. reflexivity. Qed.

Lemma usa_terminated_in (data : Frame) (x : nat * Row) :
  In x (rows (usa_terminated data)) ->
  In x (rows (terminated_conflicts data)) /\ usa_mask cohort_columns x = true.
Proof.
  rewrite usa_terminated_rows. intros H. apply In_firstn in H.
  apply (Permutation_in _ (sort_rows_perm _ _)) in H.
  apply filter_In in H. exact H.
Qed.

Lemma usa_terminated_sorted (data : Frame) :
  Sorted by_year (rows (usa_terminated data)).
Proof.
  rewrite usa_terminated_rows. apply Sorted_firstn.
  apply (sort_rows_sorted (fun ir => year_of (snd ir))).
Qed.

Lemma usa_terminated_length (data : Frame) : len (usa_terminated data) <= 5.
Proof. unfold len. rewrite usa_terminated_rows. apply firstn_le_length. Qed.

Lemma cell_eqb_Str (c : cell) (s : string) : cell_eqb c (Str s) = true <-> c = Str s.
Proof.
  destruct c; simpl; try (split; [discriminate | intros H; discriminate H]).
  rewrite String.eqb_eq. split; congruence.
Qed.

Lemma isin_In (values : list string) (c : cell) :
  isin values c = true <-> exists s, In s values /\ c = Str s.
Proof.
  unfold isin. rewrite existsb_exists. split.
  - intros [v [Hin Heq]]. apply in_map_iff in Hin as [s [<- Hs]].
    apply cell_eqb_Str in Heq. eauto.
  - intros [s [Hs ->]]. exists (Str s). split.
    + apply in_map. exact Hs.
    + apply cell_eqb_Str. reflexivity.
Qed.

(** Every row of [terminated_conflicts] is a complete, terminated
    episode of the file, at its original position. *)
Lemma terminated_conflicts_in (file : list Episode) (i : nat) (r : Row) :
  In (i, r) (rows (terminated_conflicts (read_csv file))) <->
  exists e, nth_error file i = Some e /\ complete e = true /\ ended e = true
            /\ r = cohort_cells (float_years file) e.
Proof.
  rewrite terminated_conflicts_rows, in_map_iff. split.
  - intros [[j e] [Heq Hin]]. simpl in Heq. inversion Heq; subst.
    apply filter_In in Hin as [Hin He]. apply filter_In in Hin as [Hin Hc].
    apply in_enumerate in Hin. exists e. auto.
  - intros [e [Hn [Hc [He ->]]]]. exists (i, e). split; [reflexivity|].
    apply filter_In. split; [|exact He].
    apply filter_In. split; [|exact Hc].
    apply in_enumerate. exact Hn.
Qed.

Lemma terminated_conflicts_flag (file : list Episode) (i : nat) (r : Row) :
  In (i, r) (rows (terminated_conflicts (read_csv file))) ->
  cell_eqb (event_flag r) (Num 1) = true.
Proof.
  intros H. apply terminated_conflicts_in in H as [e [_ [_ [He ->]]]]. exact He.
Qed.

(** ** Grouping *)

Lemma filter_all {A : Type} (p : A -> bool) (l : list A) :
  (forall x, In x l -> p x = true) -> filter p l = l.
Proof.
  induction l as [|a l IH]; intros H; simpl; [reflexivity|].
  rewrite (H a (or_introl eq_refl)). f_equal. apply IH.
  intros x Hx. apply H. right. exact Hx.
Qed.

Lemma filter_none {A : Type} (p : A -> bool) (l : list A) :
  (forall x, In x l -> p x = false) -> filter p l = [].
Proof.
  induction l as [|a l IH]; intros H; simpl; [reflexivity|].
  rewrite (H a (or_introl eq_refl)). apply IH.
  intros x Hx. apply H. right. exact Hx.
Qed.

Lemma filter_firstn_length {A : Type} (p : A -> bool) (n : nat) (l : list A) :
  List.length (filter p (firstn n l)) <= List.length (filter p l).
Proof.
  rewrite <- (firstn_skipn n l) at 2. rewrite filter_app, length_app. lia.
Qed.

Lemma insert_key_perm (k : string) (l : list string) :
  Permutation (insert_key k l) (k :: l).
Proof.
  induction l as [|k' l IH]; simpl; [apply Permutation_refl|].
  destruct (String.leb k k').
  - apply Permutation_refl.
  - rewrite IH. apply perm_swap.
Qed.

Lemma fold_insert_key_perm (l : list string) :
  Permutation (fold_right insert_key [] l) l.
Proof.
  induction l as [|k l IH]; simpl; [constructor|].
  rewrite insert_key_perm. constructor. exact IH.
Qed.

Lemma keys_of_NoDup (cells : list cell) : NoDup (keys_of cells).
Proof.
  unfold keys_of.
  apply (Permutation_NoDup (Permutation_sym (fold_insert_key_perm _))).
  apply NoDup_nodup.
Qed.

Lemma keys_of_In (cells : list cell) (k : string) :
  In k (keys_of cells) <-> In (Str k) cells.
Proof.
  unfold keys_of, strings_of. split.
  - intros H. apply (Permutation_in _ (fold_insert_key_perm _)) in H.
    apply nodup_In, in_flat_map in H as [c [Hc Hk]].
    destruct c; simpl in Hk; try contradiction.
    destruct Hk as [-> | []]. exact Hc.
  - intros H.
    apply (Permutation_in _ (Permutation_sym (fold_insert_key_perm _))).
    apply nodup_In, in_flat_map. exists (Str k). split; [exact H | left; reflexivity].
Qed.

Section Grouping.

Variable c : string.
Variable n : nat.
Variable df : Frame.

Let key (ir : nat * Row) : cell := at_ (columns df) (snd ir) c.

Lemma group_key (k : string) (x : nat * Row) :
  In x (group c k df) -> key x = Str k.
Proof.
  unfold group. intros H. apply filter_In in H as [_ H].
  apply cell_eqb_Str in H. exact H.
Qed.

Lemma group_empty (k : string) :
  ~ In k (keys_of (column c df)) -> group c k df = [].
Proof.
  intros Hk. apply filter_none. intros x Hx.
  destruct (cell_eqb (at_ (columns df) (snd x) c) (Str k)) eqn:E; [|reflexivity].
  exfalso. apply Hk. apply keys_of_In. apply cell_eqb_Str in E.
  unfold column. rewrite <- E. apply (in_map (fun ir => at_ (columns df) (snd ir) c)), Hx.
Qed.

Lemma filter_pieces (k : string) (keys : list string) :
  NoDup keys ->
  filter (fun ir => cell_eqb (key ir) (Str k))
         (flat_map (fun k' => firstn n (group c k' df)) keys)
  = if in_dec string_dec k keys then firstn n (group c k df) else [].
Proof.
  induction keys as [|k' keys IH]; intros Hnd; [reflexivity|].
  inversion Hnd as [|? ? Hnotin Hnd']; subst.
  cbn [flat_map]. rewrite filter_app, (IH Hnd').
  destruct (string_dec k' k) as [->|Hne].
  - rewrite filter_all.
    + destruct (in_dec string_dec k keys) as [Hin|_]; [contradiction|].
      destruct (in_dec string_dec k (k :: keys)) as [_|Hout].
      * apply app_nil_r.
      * exfalso. apply Hout. left. reflexivity.
    + intros x Hx. apply In_firstn, group_key in Hx. rewrite Hx.
      apply cell_eqb_Str. reflexivity.
  - rewrite filter_none.
    + destruct (in_dec string_dec k keys) as [Hin|Hout];
        destruct (in_dec string_dec k (k' :: keys)) as [Hin'|Hout']; try reflexivity.
      * exfalso. apply Hout'. right. exact Hin.
      * destruct Hin' as [Heq | Hin']; [congruence | contradiction].
    + intros x Hx. apply In_firstn, group_key in Hx. rewrite Hx. simpl.
      apply String.eqb_neq. exact Hne.
Qed.

(** Whichever way the pieces are put together, the rows of one key in
    the result are the first [n] rows of that key in [df]. *)
Lemma groupby_head_group (k : string) :
  filter (fun ir => cell_eqb (key ir) (Str k)) (rows (groupby_head c n df))
  = firstn n (group c k df).
Proof.
  unfold groupby_head. cbn [rows].
  destruct (forallb _ _) eqn:Hall.
  - assert (Hlen : List.length (group c k df) <= n).
    { destruct (in_dec string_dec k (keys_of (column c df))) as [Hin|Hout].
      - rewrite forallb_forall in Hall. apply Nat.leb_le, Hall, Hin.
      - rewrite group_empty by exact Hout. simpl. lia. }
    rewrite (firstn_all2 _ Hlen). unfold group.
    induction (rows df) as [|x l IH]; [reflexivity|].
    cbn [filter]. fold (key x).
    destruct (key x) eqn:E; cbn [filter]; fold (key x); rewrite ?E; simpl;
      try exact IH.
    destruct (String.eqb s k); [f_equal|]; exact IH.
  - rewrite (filter_pieces k _ (keys_of_NoDup _)).
    destruct (in_dec string_dec k (keys_of (column c df))) as [Hin|Hout]; [reflexivity|].
    rewrite group_empty by exact Hout. destruct n; reflexivity.
Qed.

Lemma groupby_head_in (x : nat * Row) :
  In x (rows (groupby_head c n df)) -> In x (rows df).
Proof.
  unfold groupby_head. cbn [rows]. destruct (forallb _ _); intros H.
  - apply filter_In in H. tauto.
  - apply in_flat_map in H as [k [_ H]]. apply In_firstn in H.
    unfold group in H. apply filter_In in H. tauto.
Qed.

Lemma groupby_head_columns : columns (groupby_head c n df) = columns df.
Proof. reflexivity. Qed.

End Grouping.

(** ** The cohort selection *)

Lemma reset_index_rows (df : Frame) :
  rows (reset_index df) = enumerate (map snd (rows df)).
Proof. unfold reset_index, enumerate, len. cbn [rows]. now rewrite length_map. Qed.

Lemma filter_combine_seq_snd {A : Type} (p : A -> bool) (l : list A) (k : nat) :
  map snd (filter (fun ir => p (snd ir)) (combine (seq k (List.length l)) l))
  = filter p l.
Proof.
  revert k. induction l as [|a l IH]; intros k; simpl; [reflexivity|].
  destruct (p a); simpl; [f_equal|]; apply IH.
Qed.

Lemma filter_map_snd {A B : Type} (p : B -> bool) (l : list (A * B)) :
  filter p (map snd l) = map snd (filter (fun ir => p (snd ir)) l).
Proof. apply filter_map_swap. Qed.

Lemma other_bigpower_conflicts_rows (data : Frame) :
  rows (other_bigpower_conflicts data)
  = enumerate (map snd (rows (groupby_head "country_a" 2 (other_candidates data)))).
Proof. unfold other_bigpower_conflicts, select_others. apply reset_index_rows. Qed.

Lemma other_candidates_columns (data : Frame) :
  columns (other_candidates data) = cohort_columns.
Proof. reflexivity. Qed.

(** Per initiator, the grouped table holds the first two candidate rows
    of that initiator, in the order of the candidates. *)
Lemma other_bigpower_conflicts_group (data : Frame) (c : string) :
  map snd (filter (from_initiator c) (rows (other_bigpower_conflicts data)))
  = map snd (firstn 2 (filter (from_initiator c) (rows (other_candidates data)))).
Proof.
  rewrite other_bigpower_conflicts_rows.
  unfold enumerate, from_initiator.
  rewrite (filter_combine_seq_snd (fun r => cell_eqb (initiator r) (Str c))).
  rewrite filter_map_snd. f_equal.
  apply (groupby_head_group "country_a" 2 (other_candidates data) c).
Qed.

Lemma other_bigpower_conflicts_in (data : Frame) (j : nat) (r : Row) :
  In (j, r) (rows (other_bigpower_conflicts data)) ->
  exists i, In (i, r) (rows (other_candidates data)).
Proof.
  rewrite other_bigpower_conflicts_rows. intros H.
  apply in_enumerate, nth_error_In, in_map_iff in H as [[i r'] [Heq Hin]].
  simpl in Heq. subst r'. exists i. apply groupby_head_in in Hin. exact Hin.
Qed.

Lemma other_candidates_in (data : Frame) (x : nat * Row) :
  In x (rows (other_candidates data)) <->
  In x (rows (terminated_conflicts data))
  /\ other_mask (index (usa_terminated data)) cohort_columns x = true.
Proof. unfold other_candidates, candidates, where_. cbn [rows]. apply filter_In. Qed.

Lemma additional_rows (data : Frame) :
  rows (additional data)
  = firstn (10 - len (usa_terminated data)) (rows (other_bigpower_conflicts data)).
Proof.
  unfold additional, take_additional, head, remaining. cbn [rows].
  fold (other_bigpower_conflicts data).
  destruct (Z.leb_spec 0 (Z.max 0 (10 - Z.of_nat (len (usa_terminated data))))) as [_|H];
    [|lia].
  f_equal. lia.
Qed.

Lemma final_set_rows (data : Frame) :
  rows (final_set data)
  = enumerate (map snd (rows (usa_terminated data)) ++ map snd (rows (additional data))).
Proof.
  unfold final_set, concat_final. rewrite reset_index_rows, <- map_app. reflexivity.
Qed.

Lemma additional_row (file : list Episode) (j : nat) (r : Row) :
  In (j, r) (rows (additional (read_csv file))) ->
  cell_eqb (event_flag r) (Num 1) = true
  /\ isin big_players (initiator r) = true
  /\ initiator r <> Str USA
  /\ isin big_players (target r) = true
  /\ exists i, In (i, r) (rows (terminated_conflicts (read_csv file)))
               /\ ~ In i (index (usa_terminated (read_csv file))).
Proof.
  rewrite additional_rows. intros H. apply In_firstn in H.
  apply other_bigpower_conflicts_in in H as [i H].
  apply other_candidates_in in H as [Htc Hmask].
  unfold other_mask in Hmask. cbn [fst snd] in Hmask.
  apply andb_prop in Hmask as [Hmask Hsel].
  apply andb_prop in Hmask as [Hmask Htgt].
  apply andb_prop in Hmask as [Hini Husa].
  split; [exact (terminated_conflicts_flag file i r Htc)|].
  split; [exact Hini|]. split.
  - intros Heq. apply negb_true_iff in Husa.
    change (at_ cohort_columns r "country_a") with (initiator r) in Husa.
    rewrite Heq in Husa. unfold cell_eqb in Husa.
    rewrite String.eqb_refl in Husa. discriminate.
  - split; [exact Htgt|]. exists i. split; [exact Htc|].
    intros Hin. apply negb_true_iff in Hsel.
    assert (existsb (Nat.eqb i) (index (usa_terminated (read_csv file))) = true) as E.
    { apply existsb_exists. exists i. split; [exact Hin | apply Nat.eqb_refl]. }
    congruence.
Qed.

Lemma additional_per_initiator (data : Frame) (c : string) :
  List.length (filter (from_initiator c) (rows (additional data))) <= 2.
Proof.
  rewrite additional_rows.
  etransitivity; [apply filter_firstn_length|].
  rewrite <- (length_map snd), other_bigpower_conflicts_group, length_map.
  apply firstn_le_length.
Qed.

Lemma final_set_length (data : Frame) : len (final_set data) <= 10.
Proof.
  unfold len. rewrite final_set_rows, enumerate_length, length_app, !length_map.
  rewrite additional_rows, length_firstn.
  pose proof (usa_terminated_length data) as H. unfold len in *. lia.
Qed.


(** C10: every backfill row has its target among the major powers; per
    initiator the grouped table keeps the first two candidate rows in
    the order of the candidates, and the backfill is a prefix of it;
    the reference-country rows are sorted by start year, the backfill
    rows need not be. *)
Theorem backfill_rows_and_order :
  (forall file : list Episode,
     let data := read_csv file in
     Forall (fun ir => isin big_players (target (snd ir)) = true) (rows (additional data))
     /\ (forall c, map snd (filter (from_initiator c) (rows (other_bigpower_conflicts data)))
                   = map snd (firstn 2 (filter (from_initiator c)
                                          (rows (other_candidates data)))))
     /\ rows (additional data)
        = firstn (10 - len (usa_terminated data)) (rows (other_bigpower_conflicts data))
     /\ Sorted by_year (rows (usa_terminated data)))
  /\ (exists file : list Episode,
        ~ Sorted by_year (rows (additional (read_csv file)))).
Proof.
  split.
  - intros file data. split.
    { apply Forall_forall. intros [j r] Hin.
      destruct (additional_row file j r Hin) as [_ [_ [_ [H4 _]]]]. exact H4. }
    split; [intros c; apply other_bigpower_conflicts_group|].
    split; [apply additional_rows | apply usa_terminated_sorted].
  - exists india_file. intros Hs.
    assert (rows (additional (read_csv india_file))
            = [(0, cohort_cells false (episode "India" "France" 2020 1));
               (1, cohort_cells false (episode "India" "Japan" 2018 1))]) as E
      by (vm_compute; reflexivity).
    rewrite E in Hs. inversion Hs as [|? ? _ Hhd]; subst.
    inversion Hhd as [|? ? Hle]; subst. vm_compute in Hle. discriminate.
Qed.

(** ** The prepared table *)

Lemma data_model_in (file : list Episode) (i : nat) (r : Row) :
  In (i, r) (rows (data_model (read_csv file))) <->
  exists e, nth_error file i = Some e /\ complete e = true /\ r = prepared_cells e.
Proof.
  rewrite data_model_rows, in_map_iff. split.
  - intros [[j e] [Heq Hin]]. simpl in Heq. inversion Heq; subst.
    apply filter_In in Hin as [Hin Hc]. apply in_enumerate in Hin. eauto.
  - intros [e [Hn [Hc ->]]]. exists (i, e). split; [reflexivity|].
    apply filter_In. split; [apply in_enumerate; exact Hn | exact Hc].
Qed.

Lemma filter_combine_seq_increasing {A : Type} (p : nat * A -> bool) (l : list A) (k : nat) :
  StronglySorted lt (map fst (filter p (combine (seq k (List.length l)) l))).
Proof.
  revert k. induction l as [|a l IH]; intros k; simpl; [constructor|].
  destruct (p (k, a)); [|apply IH].
  simpl. constructor; [apply IH|].
  apply Forall_forall. intros j Hj.
  apply in_map_iff in Hj as [[j' x] [Heq Hin]]. simpl in Heq. subst j'.
  apply filter_In in Hin as [Hin _]. apply in_combine_seq in Hin. lia.
Qed.

Lemma prepared_cells_complete (e : Episode) (c : string) :
  complete e = true ->
  In c (["country_a"; "country_b"] ++ model_cols) ->
  notna (at_ prepared_columns (prepared_cells e) c) = true.
Proof.
  unfold complete. cbn [forallb]. intros H Hc.
  repeat (apply andb_prop in H as [? H]).
  cbn in Hc.
  repeat (destruct Hc as [<- | Hc]; [assumption|]). contradiction.
Qed.

(** C4: the prepared table has the two country columns, the five
    fitting columns and the label; its rows are the rows of the file
    whose two countries and five fitting fields are all present, each
    under its original index and in the original order, and nothing
    else; none of these seven cells of a prepared row is missing. *)
Theorem feature_preparation_exact (file : list Episode) :
  let dm := data_model (read_csv file) in
  columns dm = ["country_a"; "country_b"] ++ model_cols ++ ["label"]
  /\ rows dm = map (fun ie => (fst ie, prepared_cells (snd ie)))
                   (filter (fun ie => complete (snd ie)) (enumerate file))
  /\ (forall i r, In (i, r) (rows dm) <->
        exists e, nth_error file i = Some e /\ complete e = true
                  /\ r = prepared_cells e)
  /\ StronglySorted lt (index dm)
  /\ Forall (fun ir => forall c, In c (["country_a"; "country_b"] ++ model_cols) ->
                       notna (at_ (columns dm) (snd ir) c) = true) (rows dm).
Proof.
  intros dm. split; [reflexivity|].
  split; [apply data_model_rows|].
  split; [apply data_model_in|].
  split.
  - unfold index, dm. rewrite data_model_rows, map_map. cbn [fst].
    apply (filter_combine_seq_increasing (fun ie => complete (snd ie)) file 0).
  - apply Forall_forall. intros [i r] Hin c Hc.
    apply data_model_in in Hin as [e [_ [He ->]]].
    apply prepared_cells_complete; assumption.
Qed.

(** ** Commands that only write to the screen *)

Section WriterRules.

Variable L : CoxPHFitter.

Lemma state_eta (s : State L) : mkState L (store L s) (globals L s) (screen L s) = s.
Proof. destruct s. reflexivity. Qed.

Lemma writes_ret {A : Type} (a : A) : writes L (ret L a) [] (Ok a).
Proof. intros s. unfold ret. now rewrite app_nil_r, state_eta. Qed.

Lemma writes_raise {A : Type} (e : Error) : writes L (raise L (A := A) e) [] (Raise e).
Proof. intros s. unfold raise. now rewrite app_nil_r, state_eta. Qed.

Lemma writes_call {A : Type} (r : Exc A) : writes L (call L r) [] r.
Proof. intros s. unfold call. now rewrite app_nil_r, state_eta. Qed.

Lemma writes_emit (e : Event (Curve L)) : writes L (emit L e) [e] (Ok tt).
Proof. intros s. reflexivity. Qed.

Lemma writes_bind {A B : Type} (m : M L A) (k : A -> M L B) out1 a out2 r :
  writes L m out1 (Ok a) -> writes L (k a) out2 r ->
  writes L (bind L m k) (out1 ++ out2) r.
Proof.
  intros Hm Hk s. unfold bind. rewrite Hm, Hk. cbn [store globals screen].
  now rewrite app_assoc.
Qed.

Lemma writes_bind_raise {A B : Type} (m : M L A) (k : A -> M L B) out e :
  writes L m out (Raise e) -> writes L (bind L m k) out (Raise e).
Proof. intros Hm s. unfold bind. now rewrite Hm. Qed.

Lemma writer_bind {A B : Type} (m : M L A) (k : A -> M L B) :
  writer L m -> (forall a, writer L (k a)) -> writer L (bind L m k).
Proof.
  intros [out1 [[a | e] Hm]] Hk.
  - destruct (Hk a) as [out2 [r Hka]]. exists (out1 ++ out2), r.
    eapply writes_bind; eassumption.
  - exists out1, (Raise e). apply writes_bind_raise. exact Hm.
Qed.

Lemma writer_ret {A : Type} (a : A) : writer L (ret L a).
Proof. eexists _, _. apply writes_ret. Qed.

Lemma writer_raise {A : Type} (e : Error) : writer L (raise L (A := A) e).
Proof. eexists _, _. apply writes_raise. Qed.

Lemma writer_call {A : Type} (r : Exc A) : writer L (call L r).
Proof. eexists _, _. apply writes_call. Qed.

Lemma writer_emit (e : Event (Curve L)) : writer L (emit L e).
Proof. eexists _, _. apply writes_emit. Qed.

Lemma writer_check (cs : list string) (df : Frame) : writer L (check L cs df).
Proof. unfold check. destruct (has_cols cs df); [apply writer_ret | apply writer_raise]. Qed.

Lemma writer_iloc (c : string) (i : nat) (df : Frame) : writer L (iloc L c i df).
Proof. unfold iloc. destruct (nth_error _ _); [apply writer_ret | apply writer_raise]. Qed.

Lemma writer_curve_at (i : nat) (curves : list (Curve L)) : writer L (curve_at L i curves).
Proof. unfold curve_at. destruct (nth_error _ _); [apply writer_ret | apply writer_raise]. Qed.

Lemma writer_str_add (a b : cell) : writer L (str_add L a b).
Proof.
  unfold str_add. destruct a; try apply writer_raise.
  destruct b; try apply writer_raise. apply writer_ret.
Qed.

Lemma writer_for_each {A : Type} (l : list A) (body : A -> M L unit) :
  (forall a, writer L (body a)) -> writer L (for_each L l body).
Proof.
  intros Hb. induction l as [|a l IH]; simpl.
  - apply writer_ret.
  - apply writer_bind; [apply Hb | intros _; exact IH].
Qed.

Ltac writer_steps :=
  repeat first
    [ apply writer_ret | apply writer_raise | apply writer_call | apply writer_emit
    | apply writer_check | apply writer_iloc | apply writer_curve_at
    | apply writer_str_add
    | apply writer_for_each; intros
    | apply writer_bind; [|intros] ].

Lemma writer_fit_and_show (dm : Frame) : writer L (fit_and_show L dm).
Proof. unfold fit_and_show. writer_steps. Qed.

Lemma writer_plot_cohort (cph : Model L) (fs : Frame) : writer L (plot_cohort L cph fs).
Proof. unfold plot_cohort. destruct (0 <? len fs); writer_steps. Qed.

Lemma writer_plot_conflict (cph : Model L) (data cr : Frame) :
  writer L (plot_conflict L cph data cr).
Proof. unfold plot_conflict. destruct (0 <? len cr); writer_steps. Qed.

Lemma writer_plot_scenario (cph : Model L) (ci : Frame) : writer L (plot_scenario L cph ci).
Proof. unfold plot_scenario. writer_steps. Qed.

End WriterRules.

(** ** Running the statements *)

Section Steps.

Variable L : CoxPHFitter.

Lemma nth_error_base {A : Type} (h objs : list A) (k : nat) :
  nth_error (h ++ objs) (k + List.length h) = nth_error objs k.
Proof. rewrite nth_error_app2 by lia. f_equal. lia. Qed.

Lemma update_base (h objs : list Frame) (k : nat) (f : Frame -> Frame) :
  update (k + List.length h) f (h ++ objs) = h ++ update k f objs.
Proof.
  induction h as [|a h IH]; simpl.
  - now rewrite Nat.add_0_r.
  - rewrite Nat.add_succ_r. simpl. now rewrite IH.
Qed.

Lemma new_step (h objs : list Frame) g scr (x : string) (df : Frame) :
  new L x df (mkState L (h ++ objs) g scr)
  = (mkState L (h ++ (objs ++ [df])) ((x, List.length objs + List.length h) :: g) scr, Ok tt).
Proof. unfold new. cbn [store globals screen]. now rewrite app_assoc, length_app, Nat.add_comm. Qed.

Lemma var_step (k : nat) (df : Frame) (h objs : list Frame) g scr (x : string) :
  lookup x g = Some (k + List.length h) ->
  nth_error objs k = Some df ->
  var L x (mkState L (h ++ objs) g scr) = (mkState L (h ++ objs) g scr, Ok df).
Proof.
  intros Hx Hk. unfold var, deref. cbn [store globals]. now rewrite Hx, nth_error_base, Hk.
Qed.

Lemma check_step (cs : list string) (df : Frame) (s : State L) :
  has_cols cs df = true -> check L cs df s = (s, Ok tt).
Proof. intros H. unfold check. now rewrite H. Qed.

Lemma need_step (k : nat) (df : Frame) (h objs : list Frame) g scr (cs : list string) (x : string) :
  lookup x g = Some (k + List.length h) ->
  nth_error objs k = Some df ->
  has_cols cs df = true ->
  need L cs x (mkState L (h ++ objs) g scr) = (mkState L (h ++ objs) g scr, Ok tt).
Proof.
  intros Hx Hk Hc. unfold need, bind. rewrite (var_step k df) by assumption.
  now apply check_step.
Qed.

Lemma mutate_step (k : nat) (h objs : list Frame) g scr (x : string) (f : Frame -> Frame) :
  lookup x g = Some (k + List.length h) ->
  mutate L x f (mkState L (h ++ objs) g scr)
  = (mkState L (h ++ update k f objs) g scr, Ok tt).
Proof. intros Hx. unfold mutate. cbn [store globals screen]. now rewrite Hx, update_base. Qed.

Lemma bind_step {A B : Type} (m : M L A) (k : A -> M L B) (s s' : State L) (a : A) :
  m s = (s', Ok a) -> bind L m k s = k a s'.
Proof. intros H. unfold bind. now rewrite H. Qed.

Ltac by_new :=
  erewrite bind_step; [| apply new_step]; cbn [app List.length Nat.add].
Ltac by_var k :=
  erewrite bind_step; [| eapply (var_step k); reflexivity].
Ltac by_need k :=
  erewrite bind_step; [| eapply (need_step k); reflexivity].
Ltac by_mutate k :=
  erewrite bind_step; [| apply (mutate_step k); reflexivity]; cbn [update].

Lemma prepare_run (file : list Episode) (ui : Widgets) h g scr :
  prepare L file (mkState L h g scr) = (reached L file ui 2 h g scr, Ok tt).
Proof.
  unfold prepare. rewrite <- (app_nil_r h) at 1.
  by_new. by_need 0. by_var 0. by_new. by_need 1.
  rewrite (mutate_step 1) by reflexivity. reflexivity.
Qed.


Ltac open_state :=
  unfold reached, tables, bindings, names;
  cbn [firstn seq combine rev app List.length].

Lemma fit_model_run (file : list Episode) (ui : Widgets) h g scr out r :
  writes L (fit_and_show L (data_model (read_csv file))) out r ->
  fit_model L (reached L file ui 2 h g scr) = (reached L file ui 2 h g (scr ++ out), r).
Proof.
  intros Hw. unfold fit_model. open_state.
  by_var 1. rewrite Hw. reflexivity.
Qed.

Lemma cohort_view_run (file : list Episode) (ui : Widgets) (cph : Model L) h g scr out r :
  writes L (plot_cohort L cph (final_set (read_csv file))) out r ->
  cohort_view L cph (reached L file ui 2 h g scr) = (reached L file ui 7 h g (scr ++ out), r).
Proof.
  intros Hw. unfold cohort_view. open_state.
  by_need 1. by_var 1. by_new. by_need 0. by_var 0. by_mutate 2.
  by_need 2. by_mutate 2. by_need 2. by_var 2. by_new. by_var 3. by_new.
  by_var 4. by_new. by_var 5. by_new. by_var 6.
  rewrite Hw. reflexivity.
Qed.

Lemma drill_down_run (file : list Episode) (ui : Widgets) (cph : Model L) h g scr out r :
  writes L (plot_conflict L cph (read_csv file)
              (conflict_row (read_csv file) (selected_initiator ui) (selected_target ui)
                            (selected_year ui))) out r ->
  drill_down L cph ui (reached L file ui 7 h g scr)
  = (reached L file ui 10 h g
       (scr ++ dataframe (getitem shown_cols
                            (filtered_conflicts (read_csv file) (selected_initiator ui)
                                                (selected_target ui))) :: out), r).
Proof.
  intros Hw. unfold drill_down. open_state.
  by_need 0. by_var 0. by_new. by_need 7. by_var 7.
  erewrite bind_step; [| reflexivity]. cbn [store globals screen].
  by_need 7. by_new. by_var 8.
  erewrite bind_step; [| reflexivity].
  by_need 8. by_var 8. by_new. by_var 9.
  rewrite Hw. cbn [store globals screen]. rewrite <- app_assoc. reflexivity.
Qed.

Lemma scenario_run (file : list Episode) (ui : Widgets) (cph : Model L) h g scr out r :
  writes L (plot_scenario L cph
              (custom_row (gdp_input ui) (measures_input ui) (duration_input ui))) out r ->
  scenario L cph ui (reached L file ui 10 h g scr) = (reached L file ui 11 h g (scr ++ out), r).
Proof.
  intros Hw. unfold scenario. open_state.
  by_new. by_var 10. rewrite Hw. reflexivity.
Qed.

(** *** The script, one statement at a time *)

Lemma run_all_ok (m : M L unit) (rest : list (M L unit)) (s s' : State L) :
  m s = (s', Ok tt) ->
  run_all L (m :: rest) s = run_all L rest s'
  /\ along L (m :: rest) s = s' :: along L rest s'.
Proof.
  intros H. unfold run_all. cbn [for_each along]. unfold bind. now rewrite H.
Qed.

Lemma run_all_raise (m : M L unit) (rest : list (M L unit)) (s s' : State L) (e : Error) :
  m s = (s', Raise e) ->
  run_all L (m :: rest) s = (s', Raise e)
  /\ along L (m :: rest) s = [s'].
Proof.
  intros H. unfold run_all. cbn [for_each along]. unfold bind. now rewrite H.
Qed.

Lemma last_inhabited {A : Type} (a : A) (l : list A) (d d' : A) :
  last (a :: l) d = last (a :: l) d'.
Proof.
  revert a. induction l as [|b l IH]; intros a; [reflexivity|].
  change (last (b :: l) d = last (b :: l) d'). apply IH.
Qed.

(** The last state of the trace is the state the run ends in. *)
Lemma along_last (l : list (M L unit)) (s : State L) :
  last (along L l s) s = fst (run_all L l s).
Proof.
  revert s. induction l as [|m l IH]; intros s; [reflexivity|].
  destruct (m s) as [s' [[] | e]] eqn:E.
  - destruct (run_all_ok m l s s' E) as [-> ->].
    rewrite <- IH. destruct (along L l s') as [|s0 l0]; [reflexivity|].
    change (last (s0 :: l0) s = last (s0 :: l0) s'). apply last_inhabited.
  - destruct (run_all_raise m l s s' e E) as [-> ->]. reflexivity.
Qed.

Section Statements.

Variable Q : Error -> Prop.
Variable file : list Episode.
Variable ui : Widgets.
Variable h : list Frame.
Variable g : list (string * nat).

Local Abbreviation raw := (read_csv file).
Local Abbreviation t := (tables file ui).

Lemma traced_nil (s : State L) : traced L Q h g [] s [].
Proof.
  exists 0. split; [reflexivity|]. split; [constructor|].
  split; [reflexivity | discriminate].
Qed.

Lemma traced_cons (m : M L unit) (rest : list (M L unit)) (objs objs' : list Frame)
    (stores : list (list Frame)) :
  step L Q h g m objs objs' ->
  (forall s', holds L h g objs' s' -> traced L Q h g rest s' stores) ->
  forall s, holds L h g objs s -> traced L Q h g (m :: rest) s (objs' :: stores).
Proof.
  intros Hm Hrest s Hs.
  destruct (Hm s Hs) as [s' [[[] | e] [Em [Hs' HQ]]]].
  - destruct (Hrest s' Hs') as [k [Hk [Hall [Hok Herr]]]].
    destruct (run_all_ok m rest s s' Em) as [Er Ea].
    exists (S k). rewrite Er, Ea. cbn [firstn List.length].
    split; [lia|]. split; [constructor; assumption|].
    split; [intros H; f_equal; apply Hok, H | exact Herr].
  - destruct (run_all_raise m rest s s' e Em) as [Er Ea].
    exists 1. rewrite Er, Ea. cbn [firstn List.length snd].
    split; [lia|]. split; [constructor; [assumption | constructor]|].
    split; [discriminate|]. intros e' He. apply HQ. exact He.
Qed.

Ltac enter :=
  intros [st gl scr] [Hst Hgl]; cbn [store globals screen] in Hst, Hgl; subst st gl;
  unfold holds, bindings, names, tables;
  cbn [firstn seq combine rev app List.length store globals screen].

Ltac ends_well := split; [split; reflexivity | discriminate].

Lemma load_data_step : step L Q h g (load_data L file) [] [raw].
Proof.
  enter. eexists _, (Ok tt). split.
  { unfold load_data. apply new_step. }
  ends_well.
Qed.

Lemma make_data_model_step :
  step L Q h g (make_data_model L) [raw] [raw; select_features raw].
Proof.
  enter. eexists _, (Ok tt). split.
  { unfold make_data_model. by_need 0. by_var 0. apply new_step. }
  ends_well.
Qed.

Lemma label_data_model_step :
  step L Q h g (label_data_model L) [raw; select_features raw] (firstn 2 t).
Proof.
  enter. eexists _, (Ok tt). split.
  { unfold label_data_model. by_need 1. apply (mutate_step 1). reflexivity. }
  ends_well.
Qed.

Lemma make_terminated_conflicts_step :
  step L Q h g (make_terminated_conflicts L) (firstn 2 t)
       (firstn 2 t ++ [select_terminated (data_model raw)]).
Proof.
  enter. eexists _, (Ok tt). split.
  { unfold make_terminated_conflicts. by_need 1. by_var 1. apply new_step. }
  ends_well.
Qed.

Lemma date_terminated_conflicts_step :
  step L Q h g (date_terminated_conflicts L)
       (firstn 2 t ++ [select_terminated (data_model raw)])
       (firstn 2 t ++ [set_start_year raw (select_terminated (data_model raw))]).
Proof.
  enter. eexists _, (Ok tt). split.
  { unfold date_terminated_conflicts. by_need 0. by_var 0.
    apply (mutate_step 2). reflexivity. }
  ends_well.
Qed.

Lemma label_terminated_conflicts_step :
  step L Q h g (label_terminated_conflicts L)
       (firstn 2 t ++ [set_start_year raw (select_terminated (data_model raw))])
       (firstn 3 t).
Proof.
  enter. eexists _, (Ok tt). split.
  { unfold label_terminated_conflicts. by_need 2. apply (mutate_step 2). reflexivity. }
  ends_well.
Qed.

Lemma make_usa_terminated_step :
  step L Q h g (make_usa_terminated L) (firstn 3 t) (firstn 4 t).
Proof.
  enter. eexists _, (Ok tt). split.
  { unfold make_usa_terminated. by_need 2. by_var 2. apply new_step. }
  ends_well.
Qed.

Lemma make_other_bigpower_conflicts_step :
  step L Q h g (make_other_bigpower_conflicts L) (firstn 4 t) (firstn 5 t).
Proof.
  enter. eexists _, (Ok tt). split.
  { unfold make_other_bigpower_conflicts. by_need 2. by_var 2. by_var 3. apply new_step. }
  ends_well.
Qed.

Lemma make_additional_step :
  step L Q h g (make_additional L) (firstn 5 t) (firstn 6 t).
Proof.
  enter. eexists _, (Ok tt). split.
  { unfold make_additional. by_var 3. by_var 4. apply new_step. }
  ends_well.
Qed.

Lemma make_final_set_step :
  step L Q h g (make_final_set L) (firstn 6 t) (firstn 7 t).
Proof.
  enter. eexists _, (Ok tt). split.
  { unfold make_final_set. by_var 3. by_var 5. apply new_step. }
  ends_well.
Qed.

Lemma show_cohort_step (cph : Model L) :
  (exists out r, writes L (plot_cohort L cph (final_set raw)) out r
                 /\ forall e, r = Raise e -> Q e) ->
  step L Q h g (show_cohort L cph) (firstn 7 t) (firstn 7 t).
Proof.
  intros [out [r [Hw HQ]]]. enter. eexists _, r.
  split.
  { unfold show_cohort. by_var 6. apply Hw. }
  split; [split; reflexivity | exact HQ].
Qed.

Lemma initiator_box_step :
  (forall e, available_initiators raw = Raise e -> Q e) ->
  step L Q h g (initiator_box L) (firstn 7 t) (firstn 7 t).
Proof.
  intros HQ. enter.
  destruct (available_initiators raw) as [options | e] eqn:E.
  - eexists _, (Ok tt). split.
    { unfold initiator_box. by_need 0. by_var 0.
      erewrite bind_step; [| unfold call; rewrite E]; reflexivity. }
    ends_well.
  - eexists _, (Raise e).
    split.
    { unfold initiator_box. by_need 0. by_var 0. unfold bind, call. rewrite E. reflexivity. }
    split; [split; reflexivity | intros e' He; inversion He; subst; now apply HQ].
Qed.

Lemma target_box_step :
  (forall e, available_targets raw (selected_initiator ui) = Raise e -> Q e) ->
  step L Q h g (target_box L ui) (firstn 7 t) (firstn 7 t).
Proof.
  intros HQ. enter.
  destruct (available_targets raw (selected_initiator ui)) as [options | e] eqn:E.
  - eexists _, (Ok tt). split.
    { unfold target_box. by_need 0. by_var 0.
      erewrite bind_step; [| unfold call; rewrite E]; reflexivity. }
    ends_well.
  - eexists _, (Raise e).
    split.
    { unfold target_box. by_need 0. by_var 0. unfold bind, call. rewrite E. reflexivity. }
    split; [split; reflexivity | intros e' He; inversion He; subst; now apply HQ].
Qed.

Lemma make_filtered_conflicts_step :
  step L Q h g (make_filtered_conflicts L ui) (firstn 7 t) (firstn 8 t).
Proof.
  enter. eexists _, (Ok tt). split.
  { unfold make_filtered_conflicts. by_need 0. by_var 0. apply new_step. }
  ends_well.
Qed.

Lemma show_filtered_conflicts_step :
  step L Q h g (show_filtered_conflicts L) (firstn 8 t) (firstn 8 t).
Proof.
  enter. eexists _, (Ok tt). split.
  { unfold show_filtered_conflicts. by_need 7. by_var 7. reflexivity. }
  ends_well.
Qed.

Lemma year_box_step :
  step L Q h g (year_box L) (firstn 8 t) (firstn 8 t).
Proof.
  enter. eexists _, (Ok tt). split.
  { unfold year_box. by_need 7. by_var 7. reflexivity. }
  ends_well.
Qed.

Lemma make_valid_conflicts_step :
  step L Q h g (make_valid_conflicts L) (firstn 8 t) (firstn 9 t).
Proof.
  enter. eexists _, (Ok tt). split.
  { unfold make_valid_conflicts. by_need 7. by_var 7. apply new_step. }
  ends_well.
Qed.

(** The pair's table has a [start_year] column, so line 223 never runs. *)
Lemma date_valid_conflicts_step :
  step L Q h g (date_valid_conflicts L) (firstn 9 t) (firstn 9 t).
Proof.
  enter. eexists _, (Ok tt). split.
  { unfold date_valid_conflicts. by_var 8. reflexivity. }
  ends_well.
Qed.

Lemma make_conflict_row_step :
  step L Q h g (make_conflict_row L ui) (firstn 9 t) (firstn 10 t).
Proof.
  enter. eexists _, (Ok tt). split.
  { unfold make_conflict_row. by_need 8. by_var 8. apply new_step. }
  ends_well.
Qed.

Lemma show_conflict_step (cph : Model L) :
  (exists out r,
      writes L (plot_conflict L cph raw
                  (conflict_row raw (selected_initiator ui) (selected_target ui)
                                (selected_year ui))) out r
      /\ forall e, r = Raise e -> Q e) ->
  step L Q h g (show_conflict L cph) (firstn 10 t) (firstn 10 t).
Proof.
  intros [out [r [Hw HQ]]]. enter. eexists _, r.
  split.
  { unfold show_conflict. by_var 0. by_var 9. apply Hw. }
  split; [split; reflexivity | exact HQ].
Qed.

Lemma make_custom_input_step :
  step L Q h g (make_custom_input L ui) (firstn 10 t) (firstn 11 t).
Proof.
  enter. eexists _, (Ok tt). split.
  { unfold make_custom_input. apply new_step. }
  ends_well.
Qed.

Lemma show_scenario_step (cph : Model L) :
  (exists out r,
      writes L (plot_scenario L cph
                  (custom_row (gdp_input ui) (measures_input ui) (duration_input ui))) out r
      /\ forall e, r = Raise e -> Q e) ->
  step L Q h g (show_scenario L cph) (firstn 11 t) (firstn 11 t).
Proof.
  intros [out [r [Hw HQ]]]. enter. eexists _, r.
  split.
  { unfold show_scenario. by_var 10. apply Hw. }
  split; [split; reflexivity | exact HQ].
Qed.

End Statements.

Lemma before_fit_run (file : list Episode) (ui : Widgets) h g scr :
  run_all L (before_fit L file) (mkState L h g scr) = (reached L file ui 2 h g scr, Ok tt)
  /\ along L (before_fit L file) (mkState L h g scr)
     = [mkState L (h ++ [read_csv file]) (bindings (List.length h) 1 ++ g) scr;
        mkState L (h ++ [read_csv file; select_features (read_csv file)])
                (bindings (List.length h) 2 ++ g) scr;
        reached L file ui 2 h g scr].
Proof.
  unfold before_fit. open_state.
  assert (E1 : load_data L file (mkState L h g scr)
               = (mkState L (h ++ [read_csv file]) (("data", List.length h) :: g) scr, Ok tt))
    by reflexivity.
  destruct (run_all_ok _ [make_data_model L; label_data_model L] _ _ E1) as [-> ->].
  assert (E2 : make_data_model L
                 (mkState L (h ++ [read_csv file]) (("data", List.length h) :: g) scr)
               = (mkState L (h ++ [read_csv file; select_features (read_csv file)])
                    (("data_model", S (List.length h)) :: ("data", List.length h) :: g) scr,
                  Ok tt)).
  { unfold make_data_model. by_need 0. by_var 0. apply new_step. }
  destruct (run_all_ok _ [label_data_model L] _ _ E2) as [-> ->].
  assert (E3 : label_data_model L
                 (mkState L (h ++ [read_csv file; select_features (read_csv file)])
                    (("data_model", S (List.length h)) :: ("data", List.length h) :: g) scr)
               = (mkState L (h ++ [read_csv file; data_model (read_csv file)])
                    (("data_model", S (List.length h)) :: ("data", List.length h) :: g) scr,
                  Ok tt)).
  { unfold label_data_model. by_need 1. apply (mutate_step 1). reflexivity. }
  destruct (run_all_ok _ [] _ _ E3) as [-> ->].
  split; reflexivity.
Qed.

End Steps.

(** ** A whole run *)

Section Runs.

Variable L : CoxPHFitter.

Lemma bind_raise_step {A B : Type} (m : M L A) (k : A -> M L B) (s s' : State L) (e : Error) :
  m s = (s', Raise e) -> bind L m k s = (s', Raise e).
Proof. intros H. unfold bind. now rewrite H. Qed.

Lemma deref_step (k : nat) (df : Frame) (h objs : list Frame) g scr (x : string) :
  lookup x g = Some (k + List.length h) ->
  nth_error objs k = Some df ->
  deref L x (mkState L (h ++ objs) g scr) = Some df.
Proof.
  intros Hx Hk. unfold deref. cbn [store globals]. now rewrite Hx, nth_error_base, Hk.
Qed.

End Runs.

Lemma in_combine_snd {A B : Type} (a : list A) (b : list B) (y : B) :
  In y (map snd (combine a b)) -> In y b.
Proof.
  intros H. apply in_map_iff in H as [[x y'] [Heq Hin]]. simpl in Heq. subst y'.
  apply in_combine_r in Hin. exact Hin.
Qed.

Lemma NoDup_combine_snd {A B : Type} (a : list A) (b : list B) :
  NoDup b -> NoDup (map snd (combine a b)).
Proof.
  revert b. induction a as [|x a IH]; intros [|y b] Hb; simpl; try constructor.
  - inversion Hb; subst. intros Hin. apply in_combine_snd in Hin. contradiction.
  - inversion Hb; subst. apply IH. assumption.
Qed.

Lemma bindings_fresh (base n : nat) :
  NoDup (map snd (bindings base n))
  /\ Forall (fun l => base <= l) (map snd (bindings base n)).
Proof.
  unfold bindings. rewrite map_rev. split.
  - apply (Permutation_NoDup (Permutation_rev _)).
    apply NoDup_combine_snd, seq_NoDup.
  - apply Forall_forall. intros l Hl. apply in_rev, in_combine_snd, in_seq in Hl. lia.
Qed.

(** ** The fit *)

Section Fit.

Variable L : CoxPHFitter.

Lemma fit_and_show_raises (file : list Episode) (err : Error) :
  fit L (fit_input file) "duration_months" "terminated" = Raise err ->
  writes L (fit_and_show L (data_model (read_csv file))) [] (Raise err).
Proof.
  intros H s. unfold fit_and_show.
  erewrite bind_step; [| apply check_step; reflexivity].
  apply bind_raise_step. unfold call. fold (fit_input file). rewrite H.
  now rewrite app_nil_r, state_eta.
Qed.

Lemma fit_and_show_fits (file : list Episode) (cph : Model L) :
  fit L (fit_input file) "duration_months" "terminated" = Ok cph ->
  writes L (fit_and_show L (data_model (read_csv file)))
         [coefficient_table (map fst (params_ L cph))] (Ok cph).
Proof.
  intros H s. unfold fit_and_show.
  erewrite bind_step; [| apply check_step; reflexivity].
  erewrite bind_step; [| unfold call; fold (fit_input file); rewrite H; reflexivity].
  reflexivity.
Qed.

Lemma fit_input_rows (file : list Episode) :
  rows (fit_input file)
  = map (fun ie => (fst ie, fit_fields (snd ie)))
        (filter (fun ie => complete (snd ie)) (enumerate file)).
Proof.
  unfold fit_input, getitem. cbn [rows].
  rewrite data_model_rows, map_map. reflexivity.
Qed.

End Fit.

(** ** The states of a run *)

Section Trace.

Variable L : CoxPHFitter.
Variable Q : Error -> Prop.
Variable file : list Episode.
Variable ui : Widgets.

Hypothesis fit_Q :
  forall e, fit L (fit_input file) "duration_months" "terminated" = Raise e -> Q e.
Hypothesis cohort_Q :
  forall cph, exists out r,
    writes L (plot_cohort L cph (final_set (read_csv file))) out r
    /\ forall e, r = Raise e -> Q e.
Hypothesis initiators_Q :
  forall e, available_initiators (read_csv file) = Raise e -> Q e.
Hypothesis targets_Q :
  forall e, available_targets (read_csv file) (selected_initiator ui) = Raise e -> Q e.
Hypothesis conflict_Q :
  forall cph, exists out r,
    writes L (plot_conflict L cph (read_csv file)
                (conflict_row (read_csv file) (selected_initiator ui) (selected_target ui)
                              (selected_year ui))) out r
    /\ forall e, r = Raise e -> Q e.
Hypothesis scenario_Q :
  forall cph, exists out r,
    writes L (plot_scenario L cph
                (custom_row (gdp_input ui) (measures_input ui) (duration_input ui))) out r
    /\ forall e, r = Raise e -> Q e.

Lemma after_fit_traced (cph : Model L) h g :
  forall s, holds L h g (firstn 2 (tables file ui)) s ->
            traced L Q h g (after_fit L cph ui) s (skipn 4 (stores_along file ui)).
Proof.
  unfold after_fit, stores_along. cbn [skipn].
  eapply traced_cons; [apply (make_terminated_conflicts_step L Q file ui)|].
  eapply traced_cons; [apply (date_terminated_conflicts_step L Q file ui)|].
  eapply traced_cons; [apply (label_terminated_conflicts_step L Q file ui)|].
  eapply traced_cons; [apply (make_usa_terminated_step L Q file ui)|].
  eapply traced_cons; [apply (make_other_bigpower_conflicts_step L Q file ui)|].
  eapply traced_cons; [apply (make_additional_step L Q file ui)|].
  eapply traced_cons; [apply (make_final_set_step L Q file ui)|].
  eapply traced_cons; [apply (show_cohort_step L Q file ui), cohort_Q|].
  eapply traced_cons; [apply (initiator_box_step L Q file ui), initiators_Q|].
  eapply traced_cons; [apply (target_box_step L Q file ui), targets_Q|].
  eapply traced_cons; [apply (make_filtered_conflicts_step L Q file ui)|].
  eapply traced_cons; [apply (show_filtered_conflicts_step L Q file ui)|].
  eapply traced_cons; [apply (year_box_step L Q file ui)|].
  eapply traced_cons; [apply (make_valid_conflicts_step L Q file ui)|].
  eapply traced_cons; [apply (date_valid_conflicts_step L Q file ui)|].
  eapply traced_cons; [apply (make_conflict_row_step L Q file ui)|].
  eapply traced_cons; [apply (show_conflict_step L Q file ui), conflict_Q|].
  eapply traced_cons; [apply (make_custom_input_step L Q file ui)|].
  eapply traced_cons; [apply (show_scenario_step L Q file ui), scenario_Q|].
  intros s' _. apply traced_nil.
Qed.

(** The states of a run hold, one after the other, the objects listed
    in [stores_along], up to where the run ends; the run gets at least
    to the fit, and to the end of the list when it ends normally. *)
Lemma page_traced (s : State L) :
  exists k,
    4 <= k <= 23
    /\ Forall2 (fun s' objs => holds L (store L s) (globals L s) objs s')
               (page_states L file ui s) (firstn k (stores_along file ui))
    /\ (snd (page L file ui s) = Ok tt -> k = 23)
    /\ (forall e, snd (page L file ui s) = Raise e -> Q e)
    /\ last (page_states L file ui s) s = fst (page L file ui s).
Proof.
  destruct s as [h g scr]. cbn [store globals].
  destruct (before_fit_run L file ui h g scr) as [Erun Ealong].
  unfold page, page_states. rewrite Erun, Ealong.
  erewrite bind_step; [| exact Erun].
  assert (H1 : holds L h g [read_csv file] 
                 (mkState L (h ++ [read_csv file]) (bindings (List.length h) 1 ++ g) scr))
    by (split; reflexivity).
  assert (H2 : holds L h g [read_csv file; select_features (read_csv file)]
                 (mkState L (h ++ [read_csv file; select_features (read_csv file)])
                    (bindings (List.length h) 2 ++ g) scr))
    by (split; reflexivity).
  assert (H3 : forall out, holds L h g (firstn 2 (tables file ui))
                             (reached L file ui 2 h g out))
    by (intros out; split; reflexivity).
  destruct (fit L (fit_input file) "duration_months" "terminated") as [cph | e] eqn:Efit.
  - rewrite (fit_model_run L file ui h g scr _ _ (fit_and_show_fits L file cph Efit)).
    erewrite bind_step;
      [| apply (fit_model_run L file ui h g scr _ _ (fit_and_show_fits L file cph Efit))].
    destruct (after_fit_traced cph h g _ (H3 (scr ++ [coefficient_table (map fst (params_ L cph))])))
      as [k [Hk [Hall [Hok Herr]]]].
    exists (4 + k). split; [simpl in Hk; lia|].
    split.
    { cbn [app]. change (firstn (4 + k) (stores_along file ui))
        with ([read_csv file] :: [read_csv file; select_features (read_csv file)]
              :: firstn 2 (tables file ui) :: firstn 2 (tables file ui)
              :: firstn k (skipn 4 (stores_along file ui))).
      repeat (constructor; [first [exact H1 | exact H2 | apply H3]|]). exact Hall. }
    split; [intros H; rewrite (Hok H); reflexivity|].
    split; [exact Herr|].
    rewrite <- along_last. cbn [app].
    destruct (along L (after_fit L cph ui) _) as [|s0 l0]; [reflexivity|].
    change (last (s0 :: l0) (mkState L h g scr)
            = last (s0 :: l0)
                   (reached L file ui 2 h g
                      (scr ++ [coefficient_table (map fst (params_ L cph))]))).
    apply last_inhabited.
  - rewrite (fit_model_run L file ui h g scr _ _ (fit_and_show_raises L file e Efit)).
    erewrite bind_raise_step;
      [| apply (fit_model_run L file ui h g scr _ _ (fit_and_show_raises L file e Efit))].
    exists 4. split; [lia|].
    split.
    { cbn [app]. unfold stores_along. cbn [firstn].
      repeat (constructor; [first [exact H1 | exact H2 | apply H3]|]). constructor. }
    split; [discriminate|].
    split; [intros e' He; inversion He; subst; apply fit_Q; reflexivity|].
    reflexivity.
Qed.

End Trace.

(** ** The objects of a run *)

Lemma Forall_upto {A : Type} (P : A -> Prop) (k : nat) (items : list A) :
  Forall P items -> Forall P (firstn k items).
Proof.
  intros H. apply Forall_forall. intros x Hx.
  rewrite Forall_forall in H. apply H.
  rewrite <- (firstn_skipn k items). apply in_or_app. left. exact Hx.
Qed.

Lemma Forall2_carries {A B : Type} (R : A -> B -> Prop) (P : A -> Prop) (P' : B -> Prop)
    (xs : list A) (ys : list B) :
  (forall x y, R x y -> P' y -> P x) ->
  Forall2 R xs ys -> Forall P' ys -> Forall P xs.
Proof.
  intros HR H. induction H as [|x y xs ys Hxy H IH]; intros HP; constructor.
  - inversion HP; subst. eapply HR; eassumption.
  - inversion HP; subst. apply IH. assumption.
Qed.

Lemma Forall2_behind {A B : Type} (R : A -> B -> Prop) (n : nat)
    (xs : list A) (ys : list B) :
  Forall2 R xs ys -> Forall2 R (skipn n xs) (skipn n ys).
Proof.
  intros H. revert n. induction H as [|x y xs ys Hxy H IH]; intros [|n]; simpl;
    try constructor; auto.
Qed.

Lemma Forall2_images {A B C : Type} (R : A -> B -> Prop) (f : A -> C) (f' : B -> C)
    (xs : list A) (ys : list B) :
  (forall x y, R x y -> f x = f' y) ->
  Forall2 R xs ys -> map f xs = map f' ys.
Proof.
  intros HR H. induction H as [|x y xs ys Hxy H IH]; simpl; [reflexivity|].
  f_equal; [apply HR, Hxy | exact IH].
Qed.

Lemma Forall2_ends {A B : Type} (R : A -> B -> Prop) (xs : list A) (ys : list B)
    (x0 : A) (y0 : B) :
  Forall2 R xs ys -> ys <> [] -> R (last xs x0) (last ys y0).
Proof.
  intros H. induction H as [|x y xs ys Hxy H IH]; intros Hne; [contradiction|].
  destruct H as [|x' y' xs ys Hxy' H].
  - exact Hxy.
  - apply IH. discriminate.
Qed.

Lemma stepwise_upto {A : Type} (R : A -> A -> Prop) (k : nat) (a : A) (items : list A) :
  stepwise R a items -> stepwise R a (firstn k items).
Proof.
  revert k a. induction items as [|b items IH]; intros [|k] a H; simpl; auto.
  destruct H as [Hab H]. split; [exact Hab | apply IH, H].
Qed.

Lemma stepwise_carries {A B : Type} (R : A -> A -> Prop) (R' : B -> B -> Prop)
    (S : A -> B -> Prop) :
  (forall x x' y y', S x y -> S x' y' -> R' y y' -> R x x') ->
  forall xs ys a b, S a b -> Forall2 S xs ys -> stepwise R' b ys -> stepwise R a xs.
Proof.
  intros HR xs ys a b Hab H. revert a b Hab.
  induction H as [|x y xs ys Hxy H IH]; intros a b Hab Hs; simpl; [exact I|].
  destruct Hs as [Hby Hs]. split; [eapply HR; eassumption | eapply IH; eassumption].
Qed.

Lemma local_change_behind (h before after : list Frame) :
  local_change before after -> local_change (h ++ before) (h ++ after).
Proof.
  intros [-> | [[df ->] | [Hlen Hrem]]].
  - left. reflexivity.
  - right. left. exists df. apply app_assoc.
  - destruct after as [|a after].
    + destruct before; [left; reflexivity | discriminate Hlen].
    + destruct before as [|b before]; [discriminate Hlen|].
      right. right. split.
      * rewrite !length_app. lia.
      * rewrite !removelast_app by discriminate. now rewrite Hrem.
Qed.

Lemma bindings_data (base n : nat) (g : list (string * nat)) :
  1 <= n -> lookup "data" (bindings base n ++ g) = Some base.
Proof.
  intros Hn. unfold bindings, names.
  do 12 (destruct n as [|n]; [try lia; try reflexivity|]). reflexivity.
Qed.

Lemma bindings_data_model (base n : nat) (g : list (string * nat)) :
  2 <= n -> lookup "data_model" (bindings base n ++ g) = Some (S base).
Proof.
  intros Hn. unfold bindings, names.
  do 12 (destruct n as [|n]; [try lia; try reflexivity|]). reflexivity.
Qed.

Section Objects.

Variable L : CoxPHFitter.

Lemma holds_data h g objs (s : State L) (df : Frame) :
  holds L h g objs s -> nth_error objs 0 = Some df -> deref L "data" s = Some df.
Proof.
  intros [Hs Hg] H0. unfold deref. rewrite Hg, Hs, bindings_data.
  - now rewrite (nth_error_base h objs 0 : nth_error (h ++ objs) (List.length h) = _).
  - destruct objs; [discriminate H0 | simpl; lia].
Qed.

Lemma holds_data_model h g objs (s : State L) (df : Frame) :
  holds L h g objs s -> nth_error objs 1 = Some df -> deref L "data_model" s = Some df.
Proof.
  intros [Hs Hg] H1. unfold deref. rewrite Hg, Hs, bindings_data_model.
  - now rewrite (nth_error_base h objs 1 : nth_error (h ++ objs) (S (List.length h)) = _).
  - destruct objs as [|a [|b objs]]; [discriminate H1 | discriminate H1 | simpl; lia].
Qed.

Ltac find_object :=
  first [ eapply (deref_step L 0); reflexivity | eapply (deref_step L 1); reflexivity
        | eapply (deref_step L 2); reflexivity | eapply (deref_step L 3); reflexivity
        | eapply (deref_step L 4); reflexivity | eapply (deref_step L 5); reflexivity
        | eapply (deref_step L 6); reflexivity | eapply (deref_step L 7); reflexivity
        | eapply (deref_step L 8); reflexivity | eapply (deref_step L 9); reflexivity
        | eapply (deref_step L 10); reflexivity ].

Lemma holds_every_table (file : list Episode) (ui : Widgets) h g (s : State L) :
  holds L h g (tables file ui) s ->
  map (fun x => deref L x s) names = map Some (tables file ui).
Proof.
  destruct s as [st gl scr]. intros [Hs Hg]. cbn [store globals] in Hs, Hg. subst st gl.
  unfold tables, bindings, names.
  cbn [firstn seq combine rev app List.length map].
  repeat (f_equal; [find_object|]); f_equal; find_object.
Qed.

Lemma holds_at_start (s : State L) : holds L (store L s) (globals L s) [] s.
Proof. split; [now rewrite app_nil_r | reflexivity]. Qed.

End Objects.

Lemma stores_along_local (file : list Episode) (ui : Widgets) :
  stepwise local_change [] (stores_along file ui).
Proof.
  unfold stores_along, tables. cbn [firstn stepwise].
  repeat (split;
          [first [ left; reflexivity
                 | right; left; eexists; reflexivity
                 | right; right; split; reflexivity ]|]).
  exact I.
Qed.

Lemma stores_along_data (file : list Episode) (ui : Widgets) :
  Forall (fun objs => nth_error objs 0 = Some (read_csv file)) (stores_along file ui).
Proof. repeat constructor. Qed.

Lemma stores_along_data_model (file : list Episode) (ui : Widgets) :
  Forall (fun objs => nth_error objs 1 = Some (data_model (read_csv file)))
         (skipn 2 (stores_along file ui)).
Proof. repeat constructor. Qed.

(** C9, what fails: the script does change tables in place.  On
    [sound_file] the variable [data_model] is bound to the same object
    after line 93 and after line 96, and that object has gained the
    column [label] in between; [terminated_conflicts] stays bound to
    one object from line 117 to line 127 while that object gains the
    column [start_year] and has its labels rewritten. *)
Lemma data_model_is_changed_in_place :
  let states := page_states zero_fitter sound_file india_japan_2018 (fresh zero_fitter) in
  map (fun s => lookup "data_model" (globals zero_fitter s)) (firstn 2 (skipn 1 states))
  = [Some 1; Some 1]
  /\ map (fun s => option_map columns (deref zero_fitter "data_model" s))
         (firstn 2 (skipn 1 states))
     = [Some ["country_a"; "country_b"; "gdp_country_a"; "number_of_measures";
              "mean_duration_months"; "duration_months"; "terminated"];
        Some ["country_a"; "country_b"; "gdp_country_a"; "number_of_measures";
              "mean_duration_months"; "duration_months"; "terminated"; "label"]]
  /\ map (fun s => lookup "terminated_conflicts" (globals zero_fitter s))
         (firstn 3 (skipn 4 states))
     = [Some 2; Some 2; Some 2]
  /\ map (fun s => option_map (fun df => (has_col "start_year" df, column "label" df))
                              (deref zero_fitter "terminated_conflicts" s))
         (firstn 3 (skipn 4 states))
     = [Some (false, [Str "India – Japan"; Str "India – Japan";
                      Str "United States of America – Canada"]);
        Some (true, [Str "India – Japan"; Str "India – Japan";
                     Str "United States of America – Canada"]);
        Some (true, [Str "India – Japan (2018)"; Str "India – Japan (2018)";
                     Str "United States of America – Canada (2019)"])].
Proof. repeat split; vm_compute; reflexivity. Qed.

(** C9, as amended.  The states a run goes through, statement by
    statement, hold behind the objects that existed before exactly the
    objects listed in [stores_along], up to where the run ends.  At
    every one of these states the objects that existed before are as
    they were and [data] is the loaded table; from the state after
    line 96 on, [data_model] is the prepared table.  From one state to
    the next the objects stay as they are, or one object is created
    behind them, or the newest object alone changes: that is what lines
    96, 120 and 123 do to the table created just before.  Each variable
    of the run is bound to an object of its own, created in the run.  A
    run that ends normally has gone through all 23 states and leaves
    every variable bound to its table of [tables], which depends on the
    file and the choices only: running the script again on the same file
    gives the same tables. *)
Theorem tables_change_only_when_new (L : CoxPHFitter) (file : list Episode) (ui : Widgets)
    (s : State L) :
  let base := List.length (store L s) in
  let states := page_states L file ui s in
  let final := fst (page L file ui s) in
  last states s = final
  /\ (exists k, 4 <= k <= 23
                /\ List.length states = k
                /\ map (store L) states
                   = map (app (store L s)) (firstn k (stores_along file ui)))
  /\ Forall (fun s' => firstn base (store L s') = store L s
                       /\ deref L "data" s' = Some (read_csv file)
                       /\ exists n, List.length (store L s') = base + n
                                    /\ globals L s' = bindings base n ++ globals L s
                                    /\ NoDup (map snd (bindings base n))
                                    /\ Forall (fun l => base <= l) (map snd (bindings base n)))
            states
  /\ Forall (fun s' => deref L "data_model" s' = Some (data_model (read_csv file)))
            (skipn 2 states)
  /\ stepwise (fun s1 s2 => local_change (store L s1) (store L s2)) s states
  /\ (snd (page L file ui s) = Ok tt ->
      List.length states = 23
      /\ store L final = store L s ++ tables file ui
      /\ map (fun x => deref L x final) names = map Some (tables file ui)).
Proof.
  intros base states final.
  assert (Hany : forall A (m : M L A), writer L m ->
                   exists out r, writes L m out r /\ forall e : Error, r = Raise e -> True).
  { intros A m [out [r H]]. exists out, r. split; [exact H | trivial]. }
  destruct (page_traced L (fun _ => True) file ui
              (fun _ _ => I)
              (fun cph => Hany _ _ (writer_plot_cohort L cph _))
              (fun _ _ => I) (fun _ _ => I)
              (fun cph => Hany _ _ (writer_plot_conflict L cph _ _))
              (fun cph => Hany _ _ (writer_plot_scenario L cph _)) s)
    as [k [Hk [Hall [Hok [_ Hlast]]]]].
  fold states in Hall, Hlast. fold final in Hlast.
  assert (Hlen : List.length states = k).
  { rewrite (Forall2_length Hall), length_firstn. simpl. lia. }
  split; [exact Hlast|].
  split.
  { exists k. split; [exact Hk|]. split; [exact Hlen|].
    apply (Forall2_images _ _ _ _ _ (fun s' objs (H : holds L _ _ objs s') => proj1 H) Hall). }
  split.
  { eapply Forall2_carries;
      [| exact Hall | apply (Forall_upto _ k), (stores_along_data file ui)].
    cbv beta. intros s' objs H H0. split; [|split].
    - destruct H as [Hs _]. rewrite Hs. unfold base.
      now rewrite firstn_app, Nat.sub_diag, firstn_all, app_nil_r.
    - exact (holds_data L _ _ _ _ _ H H0).
    - exists (List.length objs). destruct H as [Hs Hg].
      split; [rewrite Hs; apply length_app|]. split; [exact Hg|].
      apply bindings_fresh. }
  split.
  { eapply Forall2_carries;
      [| exact (Forall2_behind _ 2 _ _ Hall)
       | rewrite skipn_firstn_comm; apply Forall_upto, (stores_along_data_model file ui)].
    cbv beta. intros s' objs H H1. exact (holds_data_model L _ _ _ _ _ H H1). }
  split.
  { apply (stepwise_carries _ local_change
             (fun s' objs => holds L (store L s) (globals L s) objs s'))
      with (ys := firstn k (stores_along file ui)) (b := []).
    - intros x x' y y' [Hx _] [Hx' _] Hyy. rewrite Hx, Hx'.
      apply local_change_behind, Hyy.
    - apply holds_at_start.
    - exact Hall.
    - apply stepwise_upto, stores_along_local. }
  intros Hend. specialize (Hok Hend). subst k.
  split; [exact Hlen|].
  assert (Hfinal : holds L (store L s) (globals L s) (tables file ui) final).
  { rewrite <- Hlast.
    apply (Forall2_ends _ _ _ s (tables file ui) Hall). discriminate. }
  split; [exact (proj1 Hfinal)|].
  exact (holds_every_table L file ui _ _ _ Hfinal).
Qed.

(** ** A fit that fails, and a fit that does not *)




(** C3: the table handed to the fitter has exactly the three covariates,
    the duration and the event column, in that order, without the
    country names and the label, one row per prepared row; a library
    that names its coefficients after the covariate columns returns
    exactly three, one per declared covariate, in the declared order,
    and these are the rows of the coefficient table the page shows. *)
Theorem fitter_input_and_coefficients (L : CoxPHFitter) (file : list Episode) (ui : Widgets) :
  names_coefficients L ->
  columns (fit_input file) = features ++ ["duration_months"; "terminated"]
  /\ Forall (fun c => ~ In c (columns (fit_input file))) ["country_a"; "country_b"; "label"]
  /\ rows (fit_input file)
     = map (fun ie => (fst ie, fit_fields (snd ie)))
           (filter (fun ie => complete (snd ie)) (enumerate file))
  /\ forall cph,
       fit L (fit_input file) "duration_months" "terminated" = Ok cph ->
       map fst (params_ L cph) = features
       /\ List.length (params_ L cph) = 3
       /\ forall h g scr,
            fit_model L (reached L file ui 2 h g scr)
            = (reached L file ui 2 h g (scr ++ [coefficient_table features]), Ok cph).
Proof.
  intros Hlib. split; [reflexivity|].
  split.
  { repeat constructor; simpl; intros H;
      repeat (destruct H as [H | H]; [discriminate H|]); exact H. }
  split; [apply fit_input_rows|].
  intros cph Hfit.
  assert (Hnames : map fst (params_ L cph) = features).
  { rewrite (Hlib _ _ _ _ Hfit). reflexivity. }
  split; [exact Hnames|].
  split; [rewrite <- (length_map fst), Hnames; reflexivity|].
  intros h g scr. rewrite <- Hnames.
  apply fit_model_run, fit_and_show_fits. exact Hfit.
Qed.

Lemma zero_fitter_names : names_coefficients zero_fitter.
Proof.
  intros df d e m. simpl. destruct (ill_conditioned df); [discriminate|].
  intros H. inversion H. rewrite map_map. simpl. apply map_id.
Qed.

Lemma fitter_input_and_coefficients_witness :
  names_coefficients zero_fitter
  /\ fit zero_fitter (fit_input sound_file) "duration_months" "terminated"
     = Ok [("gdp_country_a", 0%Q); ("number_of_measures", 0%Q); ("mean_duration_months", 0%Q)]
  /\ map fst (params_ zero_fitter
                [("gdp_country_a", 0%Q); ("number_of_measures", 0%Q);
                 ("mean_duration_months", 0%Q)]) = features.
Proof.
  split; [exact zero_fitter_names|].
  split; [vm_compute; reflexivity|].
  apply (fitter_input_and_coefficients zero_fitter sound_file india_japan_2018
           zero_fitter_names).
  vm_compute. reflexivity.
Defined.

(** ** Empty selections *)

Section Views.

Variable L : CoxPHFitter.

Lemma plot_cohort_empty (cph : Model L) (fs : Frame) :
  len fs = 0 -> writes L (plot_cohort L cph fs) [markdown no_cohort] (Ok tt).
Proof. intros H s. unfold plot_cohort. rewrite H. reflexivity. Qed.

Lemma plot_conflict_empty (cph : Model L) (data cr : Frame) :
  len cr = 0 -> writes L (plot_conflict L cph data cr) [markdown no_conflict] (Ok tt).
Proof. intros H s. unfold plot_conflict. rewrite H. reflexivity. Qed.

(** ** The bilateral drill-down *)

Lemma filtered_conflicts_rows (data : Frame) (i t : cell) :
  rows (filtered_conflicts data i t) = filter (pair_mask i t (columns data)) (rows data).
Proof. reflexivity. Qed.

Lemma conflict_row_rows (file : list Episode) (i t y : cell) :
  rows (conflict_row (read_csv file) i t y)
  = filter (fun ir => cell_eqb (at_ raw_columns (snd ir) "start_year") y)
      (filter (fun ir => forallb (fun c => notna (at_ raw_columns (snd ir) c)) required_cols)
         (rows (filtered_conflicts (read_csv file) i t))).
Proof. reflexivity. Qed.

Lemma conflict_row_columns (file : list Episode) (i t y : cell) :
  columns (conflict_row (read_csv file) i t y) = raw_columns.
Proof. reflexivity. Qed.

Lemma read_csv_in (file : list Episode) (i : nat) (r : Row) :
  In (i, r) (rows (read_csv file)) ->
  exists e, nth_error file i = Some e /\ r = to_row e.
Proof.
  unfold read_csv. cbn [rows]. rewrite enumerate_map. intros H.
  apply in_map_iff in H as [[j e] [Heq Hin]]. simpl in Heq. inversion Heq; subst.
  apply in_enumerate in Hin. eauto.
Qed.

(** A selected row comes from an episode of the file that names both
    countries and its start year. *)
Lemma conflict_row_in (file : list Episode) (i t y : cell) (i0 : nat) (r : Row) :
  In (i0, r) (rows (conflict_row (read_csv file) i t y)) ->
  exists e a b z,
    nth_error file i0 = Some e /\ r = to_row e
    /\ country_a e = Some a /\ country_b e = Some b /\ start_year e = Some z.
Proof.
  rewrite conflict_row_rows, filtered_conflicts_rows. intros H.
  apply filter_In in H as [H Hy]. apply filter_In in H as [H _].
  apply filter_In in H as [H Hp].
  apply read_csv_in in H as [e [Hn ->]].
  unfold pair_mask in Hp. cbn in Hp, Hy.
  apply andb_prop in Hp as [Ha Hb].
  destruct (country_a e) as [a|] eqn:Ea; [|discriminate Ha].
  destruct (country_b e) as [b|] eqn:Eb; [|discriminate Hb].
  destruct (start_year e) as [z|] eqn:Ez; [|discriminate Hy].
  exists e, a, b, z. repeat split; auto.
Qed.

Lemma plot_conflict_first (cph : Model L) (data cr : Frame) (i0 : nat) (e : Episode)
    (rest : list (nat * Row)) (a b : string) (z : Z)
    (c0 : Curve L) (more : list (Curve L)) :
  columns cr = raw_columns ->
  rows cr = (i0, to_row e) :: rest ->
  country_a e = Some a -> country_b e = Some b -> start_year e = Some z ->
  predict_survival_function L cph (getitem required_cols cr) = Ok (c0 :: more) ->
  writes L (plot_conflict L cph data cr)
         [plot (first_row_label (has_na (column "start_year" data)) e) c0; pyplot] (Ok tt).
Proof.
  intros Hc Hr Ha Hb Hz Hp s.
  unfold plot_conflict, len, first_row_label. rewrite Hr. cbn [List.length Nat.ltb Nat.leb].
  erewrite bind_step; [| apply check_step; unfold has_cols, has_col; rewrite Hc; reflexivity].
  unfold iloc, column. rewrite Hr, Hc. unfold to_row. rewrite Ha, Hb, Hz.
  cbn [map nth_error snd at_ col_pos String.eqb Ascii.eqb Bool.eqb nth str_cell int_cell].
  erewrite bind_step; [| reflexivity].
  erewrite bind_step; [| reflexivity].
  erewrite bind_step; [| reflexivity].
  erewrite bind_step; [| reflexivity].
  erewrite bind_step; [| reflexivity].
  erewrite bind_step; [| reflexivity].
  erewrite bind_step; [| reflexivity].
  erewrite bind_step; [| reflexivity].
  erewrite bind_step; [| apply check_step; unfold has_cols, has_col; rewrite Hc; reflexivity].
  erewrite bind_step; [| unfold call; rewrite Hp; reflexivity].
  erewrite bind_step; [| reflexivity].
  erewrite bind_step; [| reflexivity].
  unfold emit. cbn [store globals screen]. now rewrite <- app_assoc.
Qed.

End Views.

(** C6: when the cohort selection is empty, the cohort view shows its
    "no data" message, plots nothing and ends normally; when no row
    matches the chosen pair and year, the drill-down shows the table of
    the pair and its "no data" message, plots nothing and ends
    normally. *)
Theorem empty_selection_shows_message (L : CoxPHFitter) (file : list Episode)
    (ui : Widgets) (cph : Model L) (h : list Frame) (g : list (string * nat))
    (scr : list (Event (Curve L))) :
  (len (final_set (read_csv file)) = 0 ->
   cohort_view L cph (reached L file ui 2 h g scr)
   = (reached L file ui 7 h g (scr ++ [markdown no_cohort]), Ok tt))
  /\ (len (conflict_row (read_csv file) (selected_initiator ui) (selected_target ui)
                        (selected_year ui)) = 0 ->
      drill_down L cph ui (reached L file ui 7 h g scr)
      = (reached L file ui 10 h g
           (scr ++ [dataframe (getitem shown_cols
                                 (filtered_conflicts (read_csv file) (selected_initiator ui)
                                                     (selected_target ui)));
                    markdown no_conflict]), Ok tt)).
Proof.
  split; intros H.
  - apply cohort_view_run, plot_cohort_empty. exact H.
  - apply drill_down_run, plot_conflict_empty. exact H.
Qed.

Lemma empty_selection_shows_message_witness :
  cohort_view zero_fitter [] (reached zero_fitter censored_file india_japan_2018 2 [] [] [])
  = (reached zero_fitter censored_file india_japan_2018 7 [] [] [markdown no_cohort], Ok tt)
  /\ drill_down zero_fitter [] india_japan_2018
       (reached zero_fitter censored_file india_japan_2018 7 [] [] [])
     = (reached zero_fitter censored_file india_japan_2018 10 [] []
          [dataframe (getitem shown_cols
                        (filtered_conflicts (read_csv censored_file) (Str "India") (Str "Japan")));
           markdown no_conflict], Ok tt).
Proof.
  destruct (empty_selection_shows_message zero_fitter censored_file india_japan_2018
              [] [] [] []) as [H1 H2].
  split; [apply H1 | apply H2]; reflexivity.
Defined.

(** C8, as the script has it: the drill-down keeps every row of the
    loaded table with the chosen initiator and target; of these it
    keeps every row whose five required columns are present and whose
    start year is the chosen one, in the order of the table, be it
    none, one or several.  The prediction is asked for the table of all
    these rows, and the curve that is plotted is the first one,
    labelled after the first row. *)
Theorem drill_down_rows_and_curve (L : CoxPHFitter) (file : list Episode)
    (i t y : cell) (cph : Model L) :
  let data := read_csv file in
  let cr := conflict_row data i t y in
  rows (filtered_conflicts data i t) = filter (pair_mask i t raw_columns) (rows data)
  /\ rows cr
     = filter (fun ir => cell_eqb (at_ raw_columns (snd ir) "start_year") y)
         (filter (fun ir => forallb (fun c => notna (at_ raw_columns (snd ir) c))
                                    required_cols)
            (rows (filtered_conflicts data i t)))
  /\ index (getitem required_cols cr) = index cr
  /\ (len cr = 0 -> writes L (plot_conflict L cph data cr) [markdown no_conflict] (Ok tt))
  /\ (forall c0 more,
        0 < len cr ->
        predict_survival_function L cph (getitem required_cols cr) = Ok (c0 :: more) ->
        exists i0 e,
          hd_error (rows cr) = Some (i0, to_row e)
          /\ nth_error file i0 = Some e
          /\ writes L (plot_conflict L cph data cr)
                    [plot (first_row_label (has_na (column "start_year" data)) e) c0;
                     pyplot] (Ok tt)).
Proof.
  intros data cr.
  split; [reflexivity|]. split; [apply conflict_row_rows|].
  split; [unfold index, getitem; cbn [rows]; now rewrite map_map|].
  split; [apply plot_conflict_empty|].
  intros c0 more Hlen Hp.
  destruct (rows cr) as [|[i0 r] rest] eqn:Hr; [unfold len in Hlen; rewrite Hr in Hlen; inversion Hlen|].
  assert (Hin : In (i0, r) (rows cr)) by (rewrite Hr; left; reflexivity).
  apply conflict_row_in in Hin as [e [a [b [z [Hn [-> [Ha [Hb Hz]]]]]]]].
  exists i0, e. split; [reflexivity|]. split; [exact Hn|].
  eapply plot_conflict_first; eauto; apply conflict_row_columns.
Qed.

Lemma drill_down_rows_and_curve_witness :
  exists i0 e,
    hd_error (rows (conflict_row (read_csv sound_file) (Str "India") (Str "Japan") (Num 2018)))
    = Some (i0, to_row e)
    /\ nth_error sound_file i0 = Some e
    /\ writes zero_fitter
         (plot_conflict zero_fitter [] (read_csv sound_file)
            (conflict_row (read_csv sound_file) (Str "India") (Str "Japan") (Num 2018)))
         [plot (first_row_label (has_na (column "start_year" (read_csv sound_file))) e) [1%Q];
          pyplot] (Ok tt).
Proof.
  apply (drill_down_rows_and_curve zero_fitter sound_file (Str "India") (Str "Japan")
           (Num 2018) [] : _ /\ _ /\ _ /\ _ /\ _) with (more := [[1%Q]]).
  - vm_compute. lia.
  - reflexivity.
Defined.

(** Two episodes of one pair that start in the same year are both
    selected, and the prediction is asked for both. *)
Lemma drill_down_row_not_unique :
  ~ len (conflict_row (read_csv sound_file) (Str "India") (Str "Japan") (Num 2018)) <= 1
  /\ len (getitem required_cols
            (conflict_row (read_csv sound_file) (Str "India") (Str "Japan") (Num 2018))) = 2.
Proof.
  split; [|reflexivity].
  change (len (conflict_row (read_csv sound_file) (Str "India") (Str "Japan") (Num 2018)))
    with 2.
  lia.
Qed.

(** ** The script on the example files *)

(** The reference-country rows come first, by start year; India has
    three candidate rows, so the groups are stacked in key order, each
    cut to its first two rows in table order. *)
Example final_set_mixed_file :
  map (fun ir => (fst ir, initiator (snd ir), target (snd ir), year_of (snd ir)))
      (rows (final_set (read_csv mixed_file)))
  = [(0, Str "United States of America", Str "Japan", Num 2017);
     (1, Str "United States of America", Str "India", Num 2019);
     (2, Str "Canada", Str "Japan", Num 2016);
     (3, Str "India", Str "France", Num 2020);
     (4, Str "India", Str "Japan", Num 2018)].
Proof. vm_compute. reflexivity. Qed.

(** On a well-conditioned file the run goes through all its statements. *)
Example page_sound_file :
  snd (page zero_fitter sound_file india_japan_2018 (fresh zero_fitter)) = Ok tt
  /\ map fst (globals zero_fitter
                (fst (page zero_fitter sound_file india_japan_2018 (fresh zero_fitter))))
     = rev names
  /\ List.length (page_states zero_fitter sound_file india_japan_2018 (fresh zero_fitter))
     = 23.
Proof. repeat split; vm_compute; reflexivity. Qed.

(** * Further properties *)

(** ** The plotting loop of the cohort view *)

Section CohortLoop.

Variable L : CoxPHFitter.

Lemma skipn_nth_error {A : Type} (l : list A) (k : nat) (x : A) :
  nth_error l k = Some x -> skipn k l = x :: skipn (S k) l.
Proof.
  revert k. induction l as [|a l IH]; intros [|k] H; simpl in *; try discriminate.
  - congruence.
  - apply IH. exact H.
Qed.

Lemma nth_error_combine {A B : Type} (a : list A) (b : list B) (k : nat) (x : A) (y : B) :
  nth_error a k = Some x -> nth_error b k = Some y ->
  nth_error (combine a b) k = Some (x, y).
Proof.
  revert b k. induction a as [|a0 a IH]; intros [|b0 b] [|k] Ha Hb; simpl in *;
    try discriminate.
  - congruence.
  - apply IH; assumption.
Qed.

Lemma nth_error_defined {A : Type} (l : list A) (k : nat) :
  k < List.length l -> exists x, nth_error l k = Some x.
Proof.
  intros H. destruct (nth_error l k) as [x|] eqn:E; [eauto|].
  apply nth_error_None in E. lia.
Qed.

Lemma plot_row (fs : Frame) (curves : list (Curve L)) (i : nat) (l : cell) (c : Curve L) :
  nth_error (column "label" fs) i = Some l ->
  nth_error curves i = Some c ->
  writes L (plot_row_body L fs curves i) [plot l c] (Ok tt).
Proof.
  intros Hl Hc s. unfold plot_row_body, bind, iloc, curve_at. rewrite Hl, Hc. reflexivity.
Qed.

Lemma plot_row_missing (fs : Frame) (curves : list (Curve L)) (i : nat) :
  i < len fs ->
  nth_error curves i = None ->
  writes L (plot_row_body L fs curves i) [] (Raise IndexError).
Proof.
  intros Hi Hc s.
  destruct (nth_error_defined (column "label" fs) i) as [l Hl];
    [unfold column; rewrite length_map; exact Hi|].
  unfold plot_row_body, bind, iloc, curve_at. rewrite Hl, Hc. unfold ret, raise.
  now rewrite app_nil_r, state_eta.
Qed.

Lemma plot_loop_all (fs : Frame) (curves : list (Curve L)) (m k : nat) :
  k + m <= len fs ->
  k + m <= List.length curves ->
  writes L (for_each L (seq k m) (plot_row_body L fs curves))
         (firstn m (skipn k (plots L (column "label" fs) curves))) (Ok tt).
Proof.
  revert k. induction m as [|m IH]; intros k Hk Hc.
  - apply writes_ret.
  - destruct (nth_error_defined (column "label" fs) k) as [l Hl];
      [unfold column; rewrite length_map; fold (len fs); lia|].
    destruct (nth_error_defined curves k) as [c Hcv]; [lia|].
    assert (Hp : nth_error (plots L (column "label" fs) curves) k = Some (plot l c)).
    { unfold plots. rewrite nth_error_map, (nth_error_combine _ _ k l c Hl Hcv). reflexivity. }
    rewrite (skipn_nth_error _ _ _ Hp). cbn [seq for_each firstn].
    change (plot l c :: firstn m (skipn (S k) (plots L (column "label" fs) curves)))
      with ([plot l c] ++ firstn m (skipn (S k) (plots L (column "label" fs) curves))).
    eapply writes_bind; [apply plot_row; eassumption|].
    apply IH; lia.
Qed.

Lemma plot_loop_short (fs : Frame) (curves : list (Curve L)) (m k : nat) :
  k + m <= len fs ->
  k <= List.length curves ->
  List.length curves < k + m ->
  writes L (for_each L (seq k m) (plot_row_body L fs curves))
         (skipn k (plots L (column "label" fs) curves)) (Raise IndexError).
Proof.
  revert k. induction m as [|m IH]; intros k Hk Hlo Hhi; [lia|].
  cbn [seq for_each].
  destruct (Nat.eq_dec k (List.length curves)) as [-> | Hne].
  - rewrite skipn_all2.
    + apply writes_bind_raise, plot_row_missing; [lia | apply nth_error_None; lia].
    + unfold plots. rewrite length_map, length_combine. lia.
  - destruct (nth_error_defined (column "label" fs) k) as [l Hl];
      [unfold column; rewrite length_map; fold (len fs); lia|].
    destruct (nth_error_defined curves k) as [c Hcv]; [lia|].
    assert (Hp : nth_error (plots L (column "label" fs) curves) k = Some (plot l c)).
    { unfold plots. rewrite nth_error_map, (nth_error_combine _ _ k l c Hl Hcv). reflexivity. }
    rewrite (skipn_nth_error _ _ _ Hp).
    change (plot l c :: skipn (S k) (plots L (column "label" fs) curves))
      with ([plot l c] ++ skipn (S k) (plots L (column "label" fs) curves)).
    eapply writes_bind; [apply plot_row; eassumption|].
    apply IH; lia.
Qed.

End CohortLoop.

(** X1: when the predictor answers with at least one curve per row, a
    non-empty cohort view draws one curve per selected row, in the
    order of the rows and labelled with the row's label, shows the
    figure once and ends normally. *)
Theorem cohort_view_plots_every_row (L : CoxPHFitter) (cph : Model L) (fs : Frame)
    (curves : list (Curve L)) :
  0 < len fs ->
  has_col "label" fs = true ->
  predict_survival_function L cph (drop "label" fs) = Ok curves ->
  len fs <= List.length curves ->
  writes L (plot_cohort L cph fs)
         (firstn (len fs) (plots L (column "label" fs) curves) ++ [pyplot]) (Ok tt).
Proof.
  intros Hlen Hcol Hp Hc s. unfold plot_cohort.
  apply Nat.ltb_lt in Hlen. rewrite Hlen.
  erewrite bind_step;
    [| apply check_step; unfold has_cols; cbn [forallb]; rewrite Hcol; reflexivity].
  erewrite bind_step; [| unfold call; rewrite Hp; reflexivity].
  change (fun i : nat => bind L (iloc L "label" i fs) (fun label : cell =>
            bind L (curve_at L i curves) (fun curve : Curve L => emit L (plot label curve))))
    with (plot_row_body L fs curves).
  erewrite bind_step; [| apply (plot_loop_all L fs curves (len fs) 0); simpl; lia].
  unfold emit. cbn [store globals screen skipn]. now rewrite <- app_assoc.
Qed.

Lemma cohort_view_plots_every_row_witness :
  writes zero_fitter
    (plot_cohort zero_fitter [] (final_set (read_csv sound_file)))
    (firstn (len (final_set (read_csv sound_file)))
            (plots zero_fitter (column "label" (final_set (read_csv sound_file)))
                   [[1%Q]; [1%Q]; [1%Q]]) ++ [pyplot]) (Ok tt).
Proof.
  apply (cohort_view_plots_every_row zero_fitter [] (final_set (read_csv sound_file))
           [[1%Q]; [1%Q]; [1%Q]]).
  - vm_compute. lia.
  - reflexivity.
  - reflexivity.
  - vm_compute. lia.
Defined.

(** X2: when the predictor answers with fewer curves than rows, the
    cohort view draws the curves it has, then raises [IndexError]; the
    figure is not shown. *)
Theorem cohort_view_short_of_curves (L : CoxPHFitter) (cph : Model L) (fs : Frame)
    (curves : list (Curve L)) :
  has_col "label" fs = true ->
  predict_survival_function L cph (drop "label" fs) = Ok curves ->
  List.length curves < len fs ->
  writes L (plot_cohort L cph fs) (plots L (column "label" fs) curves) (Raise IndexError).
Proof.
  intros Hcol Hp Hc s. unfold plot_cohort.
  assert (Hlen : (0 <? len fs) = true) by (apply Nat.ltb_lt; lia). rewrite Hlen.
  erewrite bind_step;
    [| apply check_step; unfold has_cols; cbn [forallb]; rewrite Hcol; reflexivity].
  erewrite bind_step; [| unfold call; rewrite Hp; reflexivity].
  change (fun i : nat => bind L (iloc L "label" i fs) (fun label : cell =>
            bind L (curve_at L i curves) (fun curve : Curve L => emit L (plot label curve))))
    with (plot_row_body L fs curves).
  apply bind_raise_step.
  apply (plot_loop_short L fs curves (len fs) 0); simpl; lia.
Qed.

Lemma cohort_view_short_of_curves_witness :
  writes one_curve_fitter
    (plot_cohort one_curve_fitter [] (final_set (read_csv sound_file)))
    (plots one_curve_fitter (column "label" (final_set (read_csv sound_file))) [[1%Q]])
    (Raise IndexError).
Proof.
  apply (cohort_view_short_of_curves one_curve_fitter [] (final_set (read_csv sound_file))
           [[1%Q]]).
  - reflexivity.
  - reflexivity.
  - vm_compute. lia.
Defined.

(** ** What the library is given *)

Lemma fit_fields_complete (e : Episode) :
  complete e = true -> forallb notna (fit_fields e) = true.
Proof.
  unfold complete, fit_fields. cbn [forallb]. intros H.
  apply andb_prop in H as [_ H]. apply andb_prop in H as [_ H]. exact H.
Qed.

(** X3: the table handed to the fitter has no missing cell at all, and
    it has one row for each row of the prepared table, under the same
    index. *)
Theorem fit_input_has_no_missing_cell (file : list Episode) :
  Forall (fun ir => forallb notna (snd ir) = true) (rows (fit_input file))
  /\ index (fit_input file) = index (data_model (read_csv file))
  /\ len (fit_input file) = len (data_model (read_csv file)).
Proof.
  split.
  - rewrite fit_input_rows. apply Forall_forall. intros [i r] Hin.
    apply in_map_iff in Hin as [[j e] [Heq Hin]]. inversion Heq; subst.
    apply filter_In in Hin as [_ Hc]. apply fit_fields_complete. exact Hc.
  - split.
    + unfold index, fit_input, getitem. cbn [rows]. now rewrite map_map.
    + unfold len, fit_input, getitem. cbn [rows]. now rewrite length_map.
Qed.

(** Every row of [final_set] holds the cells of a complete, terminated
    episode of the file. *)
Lemma final_set_row (file : list Episode) (j : nat) (r : Row) :
  In (j, r) (rows (final_set (read_csv file))) ->
  exists i e, nth_error file i = Some e /\ complete e = true /\ ended e = true
              /\ r = cohort_cells (float_years file) e.
Proof.
  rewrite final_set_rows. intros H.
  apply in_enumerate, nth_error_In, in_app_or in H.
  assert (Htc : exists i, In (i, r) (rows (terminated_conflicts (read_csv file)))).
  { destruct H as [H | H]; apply in_map_iff in H as [[i r'] [Heq Hin]];
      simpl in Heq; subst r'.
    - exists i. apply usa_terminated_in in Hin. tauto.
    - destruct (additional_row file i r Hin) as [_ [_ [_ [_ [i' [Hi' _]]]]]]. eauto. }
  destruct Htc as [i Htc]. apply terminated_conflicts_in in Htc as [e He].
  exists i, e. exact He.
Qed.

Lemma cohort_cells_covariates (fl : bool) (e : Episode) (c : string) :
  complete e = true -> In c features ->
  notna (at_ (columns (drop "label" (mkFrame cohort_columns [])))
             (remove_nth 7 (cohort_cells fl e)) c) = true.
Proof.
  unfold complete. cbn [forallb]. intros H Hc.
  repeat (apply andb_prop in H as [? H]).
  cbn in Hc. repeat (destruct Hc as [<- | Hc]; [assumption|]). contradiction.
Qed.

(** X4: every table handed to the predictor carries the three
    covariates of the model, and none of them is missing in any row:
    the cohort rows without their label, the required columns of the
    selected rows of the drill-down, and the row of the scenario. *)
Theorem prediction_inputs_are_complete (file : list Episode) (ui : Widgets) :
  let data := read_csv file in
  let cohort := drop "label" (final_set data) in
  let selected := getitem required_cols
                    (conflict_row data (selected_initiator ui) (selected_target ui)
                                  (selected_year ui)) in
  let custom := custom_row (gdp_input ui) (measures_input ui) (duration_input ui) in
  (has_cols features cohort = true
   /\ Forall (fun ir => forall c, In c features ->
                notna (at_ (columns cohort) (snd ir) c) = true) (rows cohort))
  /\ (has_cols features selected = true
      /\ Forall (fun ir => forallb notna (snd ir) = true) (rows selected))
  /\ (columns custom = features
      /\ Forall (fun ir => forallb notna (snd ir) = true) (rows custom)).
Proof.
  intros data cohort selected custom. split; [|split].
  - split; [reflexivity|].
    apply Forall_forall. intros [j r] Hin c Hc.
    unfold cohort, drop in Hin. cbn [rows] in Hin.
    apply in_map_iff in Hin as [[j' r'] [Heq Hin]]. cbn [fst snd] in Heq.
    inversion Heq; subst. clear Heq.
    apply final_set_row in Hin as [i [e [_ [He [_ ->]]]]].
    apply (cohort_cells_covariates (float_years file) e c); assumption.
  - split; [reflexivity|].
    apply Forall_forall. intros [j r] Hin.
    unfold selected, getitem in Hin. cbn [rows] in Hin.
    apply in_map_iff in Hin as [[j' r'] [Heq Hin]]. cbn [fst snd] in Heq.
    inversion Heq; subst. clear Heq.
    unfold data in Hin. rewrite conflict_row_rows in Hin.
    apply filter_In in Hin as [Hin _]. apply filter_In in Hin as [_ Hreq].
    exact Hreq.
  - split; [reflexivity|]. repeat constructor.
Qed.

(** ** The labels of the cohort plot *)

Lemma has_na_map {A : Type} (f : A -> cell) (l : list A) :
  has_na (map f l) = existsb (fun x => negb (notna (f x))) l.
Proof. unfold has_na. induction l as [|a l IH]; simpl; [reflexivity|]. now rewrite IH. Qed.

Lemma existsb_ext_in {A : Type} (f g : A -> bool) (l : list A) :
  (forall x, In x l -> f x = g x) -> existsb f l = existsb g l.
Proof.
  induction l as [|a l IH]; intros H; simpl; [reflexivity|].
  rewrite (H a (or_introl eq_refl)), IH; [reflexivity|].
  intros x Hx. apply H. right. exact Hx.
Qed.

Lemma dated_rows (file : list Episode) :
  rows (set_start_year (read_csv file) (select_terminated (data_model (read_csv file))))
  = map (fun ie => (fst ie, prepared_cells (snd ie) ++ [episode_year (snd ie)]))
        (filter (fun ie => ended (snd ie))
           (filter (fun ie => complete (snd ie)) (enumerate file))).
Proof.
  change (rows (set_start_year (read_csv file) (select_terminated (data_model (read_csv file)))))
    with (map (fun ir => (fst ir, snd ir ++ [dt_year (loc (read_csv file) (fst ir) "start_date")]))
            (filter (fun ir => cell_eqb (at_ prepared_columns (snd ir) "terminated") (Num 1))
               (rows (data_model (read_csv file))))).
  rewrite data_model_rows, filter_map_swap, map_map.
  apply map_ext_in. intros [i e] Hin.
  apply filter_In in Hin as [Hin _]. apply filter_In in Hin as [Hin _].
  apply in_enumerate in Hin. cbn [fst snd].
  rewrite (loc_read_csv file i e "start_date" Hin). reflexivity.
Qed.

(** The year column of [terminated_conflicts] is a float column exactly
    when a complete, terminated episode has no start date. *)
Lemma float_years_spec (file : list Episode) :
  float_years file = true <->
  exists e, In e file /\ complete e = true /\ ended e = true /\ start_date e = None.
Proof.
  unfold float_years, column.
  change (columns (set_start_year (read_csv file)
                     (select_terminated (data_model (read_csv file)))))
    with cohort_columns.
  rewrite dated_rows, map_map, has_na_map, existsb_exists. cbn [snd].
  split.
  - intros [[i e] [Hin Hna]].
    apply filter_In in Hin as [Hin He]. apply filter_In in Hin as [Hin Hc].
    apply in_enumerate, nth_error_In in Hin. exists e. repeat split; try assumption.
    cbn [snd] in Hna. unfold episode_year in Hna.
    destruct (start_date e) as [[[y m] d]|]; [discriminate Hna | reflexivity].
  - intros [e [Hin [Hc [He Hd]]]]. apply In_nth_error in Hin as [i Hi].
    exists (i, e). split.
    + apply filter_In. split; [|exact He]. apply filter_In. split; [|exact Hc].
      apply in_enumerate. exact Hi.
    + cbn [snd]. unfold episode_year. rewrite Hd. reflexivity.
Qed.

Lemma final_set_label (file : list Episode) (j : nat) (r : Row) :
  In (j, r) (rows (final_set (read_csv file))) ->
  exists a b y,
    initiator r = Str a /\ target r = Str b
    /\ str_year (float_years file) (year_of r) = Str y
    /\ at_ cohort_columns r "label"
       = Str (((((a ++ sep) ++ b) ++ " (") ++ y) ++ ")")%string.
Proof.
  intros H. apply final_set_row in H as [i [e [_ [Hc [_ ->]]]]].
  unfold complete in Hc. cbn [forallb] in Hc.
  apply andb_prop in Hc as [Ha Hc]. apply andb_prop in Hc as [Hb _].
  destruct (country_a e) as [a|] eqn:Ea; [|discriminate Ha].
  destruct (country_b e) as [b|] eqn:Eb; [|discriminate Hb].
  unfold initiator, target, year_of, cohort_cells, cohort_label, episode_label,
    episode_year.
  rewrite Ea, Eb.
  destruct (start_date e) as [[[y m] d]|]; eexists a, b, _;
    (split; [reflexivity|]); (split; [reflexivity|]); split; reflexivity.
Qed.

(** X5: every row of the cohort selection has a label that is a
    string, never missing: initiator, dash, target and, in brackets,
    the start year as the year column prints it.  That column prints
    plain years unless a complete, terminated episode of the file has
    no start date; then it is a float column and every year is printed
    with a decimal point. *)
Theorem cohort_labels_are_strings (file : list Episode) :
  Forall (fun ir => exists a b y,
            initiator (snd ir) = Str a /\ target (snd ir) = Str b
            /\ str_year (float_years file) (year_of (snd ir)) = Str y
            /\ at_ cohort_columns (snd ir) "label"
               = Str (((((a ++ sep) ++ b) ++ " (") ++ y) ++ ")")%string)
         (rows (final_set (read_csv file)))
  /\ (float_years file = true <->
      exists e, In e file /\ complete e = true /\ ended e = true /\ start_date e = None)
  /\ (forall z : Z,
        str_year false (Num (inject_Z z)) = Str (NilZero.string_of_int (Z.to_int z))
        /\ str_year true (Num (inject_Z z))
           = Str (NilZero.string_of_int (Z.to_int z) ++ ".0")%string)
  /\ str_year (float_years file) NA = Str "nan".
Proof.
  split.
  { apply Forall_forall. intros [j r] Hin. apply (final_set_label file j r Hin). }
  split; [apply float_years_spec|].
  split; [|reflexivity].
  intros z. unfold str_year. rewrite Qfloor_Z. split; reflexivity.
Qed.

(** ** How many rows the cohort view takes *)

(** X6: the backfill may take between 5 and 10 rows, never none; the
    cohort has as many rows as the reference-country rows plus the
    grouped candidates allow, up to 10; and whenever it has fewer than
    10 rows, every grouped candidate row is in it. *)
Theorem cohort_fills_up_to_ten (data : Frame) :
  remaining_needed data = (10 - Z.of_nat (len (usa_terminated data)))%Z
  /\ (5 <= remaining_needed data <= 10)%Z
  /\ len (final_set data)
     = len (usa_terminated data)
       + Nat.min (10 - len (usa_terminated data)) (len (other_bigpower_conflicts data))
  /\ (len (final_set data) < 10 ->
      rows (additional data) = rows (other_bigpower_conflicts data)).
Proof.
  pose proof (usa_terminated_length data) as Hu.
  assert (Hlen : len (final_set data)
                 = len (usa_terminated data)
                   + Nat.min (10 - len (usa_terminated data))
                             (len (other_bigpower_conflicts data))).
  { unfold len at 1. rewrite final_set_rows, enumerate_length, length_app, !length_map.
    rewrite additional_rows, length_firstn. reflexivity. }
  unfold remaining_needed, remaining.
  split; [lia|]. split; [lia|]. split; [exact Hlen|].
  intros Hlt. rewrite additional_rows. apply firstn_all2.
  unfold len in *. lia.
Qed.

(** ** Which reference-country rows are kept *)

Lemma In_skipn_list {A : Type} (n : nat) (l : list A) (x : A) :
  In x (skipn n l) -> In x l.
Proof.
  intros H. rewrite <- (firstn_skipn n l). apply in_or_app. right. exact H.
Qed.

Lemma key_leb_trans (a b c : cell) :
  numeric_key a = true -> numeric_key b = true -> numeric_key c = true ->
  key_leb a b = true -> key_leb b c = true -> key_leb a c = true.
Proof.
  destruct a, b, c; simpl; try discriminate; try reflexivity; intros _ _ _ H1 H2.
  apply Qle_bool_iff in H1, H2. apply Qle_bool_iff. eapply Qle_trans; eassumption.
Qed.

Lemma sorted_numeric_strongly (l : list (nat * Row)) :
  Forall (fun x => numeric_key (year_of (snd x)) = true) l ->
  Sorted by_year l -> StronglySorted by_year l.
Proof.
  induction l as [|a l IH]; intros Hn Hs; [constructor|].
  inversion Hn as [|? ? Ha Hl]; subst. inversion Hs as [|? ? Hs' Hhd]; subst.
  specialize (IH Hl Hs'). constructor; [exact IH|].
  destruct l as [|b l]; [constructor|].
  inversion Hhd as [|? ? Hab]; subst.
  inversion IH as [|? ? _ Hb]; subst.
  inversion Hl as [|? ? Hbn Hln]; subst.
  constructor; [exact Hab|].
  rewrite Forall_forall in *. intros x Hx.
  unfold by_year in *. eapply key_leb_trans; eauto.
Qed.

Lemma strongly_sorted_split {A : Type} (R : A -> A -> Prop) (n : nat) (l : list A) :
  StronglySorted R l ->
  forall x y, In x (firstn n l) -> In y (skipn n l) -> R x y.
Proof.
  revert n. induction l as [|a l IH]; intros n Hs x y Hx Hy.
  - rewrite firstn_nil in Hx. contradiction.
  - destruct n as [|n]; [contradiction|].
    inversion Hs as [|? ? Hs' Hall]; subst. cbn [firstn skipn] in Hx, Hy.
    destruct Hx as [<- | Hx].
    + rewrite Forall_forall in Hall. apply Hall. eapply In_skipn_list. exact Hy.
    + eapply IH; eassumption.
Qed.

Lemma terminated_conflicts_year (file : list Episode) (x : nat * Row) :
  In x (rows (terminated_conflicts (read_csv file))) ->
  numeric_key (year_of (snd x)) = true.
Proof.
  destruct x as [i r]. intros H. apply terminated_conflicts_in in H as [e [_ [_ [_ ->]]]].
  unfold year_of, cohort_cells, episode_year. cbn.
  destruct (start_date e) as [[[y m] d]|]; reflexivity.
Qed.

(** X7: the reference-country rows are the earliest ones.  The
    terminated episodes of the reference country against a major power
    are all kept when there are at most five; otherwise five are kept,
    and no row left out starts before a row that is kept (rows without
    a start date count as latest). *)
Theorem usa_terminated_keeps_the_earliest (file : list Episode) :
  let data := read_csv file in
  let matching := filter (usa_mask cohort_columns) (rows (terminated_conflicts data)) in
  exists left_out,
    Permutation (rows (usa_terminated data) ++ left_out) matching
    /\ len (usa_terminated data) = Nat.min 5 (List.length matching)
    /\ (left_out <> [] -> len (usa_terminated data) = 5)
    /\ forall x y, In x (rows (usa_terminated data)) -> In y left_out -> by_year x y.
Proof.
  intros data matching.
  set (sorted := sort_rows (fun ir => year_of (snd ir)) matching).
  assert (Hperm : Permutation sorted matching) by apply sort_rows_perm.
  exists (skipn 5 sorted).
  assert (Hrows : rows (usa_terminated data) = firstn 5 sorted) by apply usa_terminated_rows.
  rewrite Hrows. unfold len. rewrite Hrows.
  split; [rewrite firstn_skipn; exact Hperm|].
  split; [rewrite length_firstn, (Permutation_length Hperm); reflexivity|].
  split.
  - intros Hne. rewrite length_firstn.
    assert (5 < List.length sorted); [|lia].
    destruct (le_lt_dec (List.length sorted) 5) as [Hle|Hlt]; [|exact Hlt].
    exfalso. apply Hne. apply skipn_all2. exact Hle.
  - apply strongly_sorted_split. apply sorted_numeric_strongly.
    + apply Forall_forall. intros x Hx.
      apply (Permutation_in _ Hperm) in Hx. apply filter_In in Hx as [Hx _].
      apply (terminated_conflicts_year file x Hx).
    + apply (sort_rows_sorted (fun ir => year_of (snd ir))).
Qed.

(** ** Where the rows of the cohort come from *)

Lemma distinct_filter {K V : Type} (key : V -> K) (keep : V -> bool) (xs : list V) :
  NoDup (map key xs) -> NoDup (map key (filter keep xs)).
Proof.
  induction xs as [|x xs IH]; intros H; simpl; [constructor|].
  inversion H as [|? ? Hnot Hl]; subst.
  destruct (keep x); [|apply IH; exact Hl].
  simpl. constructor; [|apply IH; exact Hl].
  intros Hin. apply Hnot. apply in_map_iff in Hin as [y [Hy Hin]].
  apply filter_In in Hin as [Hin _]. rewrite <- Hy. apply in_map. exact Hin.
Qed.

Lemma distinct_firstn {K V : Type} (key : V -> K) (n : nat) (xs : list V) :
  NoDup (map key xs) -> NoDup (map key (firstn n xs)).
Proof.
  revert n. induction xs as [|x xs IH]; intros n H.
  - rewrite firstn_nil. constructor.
  - destruct n as [|n]; simpl; [constructor|].
    inversion H as [|? ? Hnot Hl]; subst. constructor; [|apply IH; exact Hl].
    intros Hin. apply Hnot. apply in_map_iff in Hin as [y [Hy Hin]].
    apply In_firstn in Hin. rewrite <- Hy. apply in_map. exact Hin.
Qed.

Lemma NoDup_firstn {A : Type} (n : nat) (l : list A) : NoDup l -> NoDup (firstn n l).
Proof.
  intros H. rewrite <- (map_id (firstn n l)). apply distinct_firstn.
  rewrite map_id. exact H.
Qed.

Lemma NoDup_map_fst_eq {A B : Type} (l : list (A * B)) (i : A) (r1 r2 : B) :
  NoDup (map fst l) -> In (i, r1) l -> In (i, r2) l -> r1 = r2.
Proof.
  induction l as [|[j r] l IH]; intros H H1 H2; [contradiction|].
  inversion H as [|? ? Hnot Hl]; subst. simpl in Hnot.
  destruct H1 as [E1 | H1], H2 as [E2 | H2].
  - congruence.
  - inversion E1; subst. exfalso. apply Hnot.
    apply (in_map fst) in H2. exact H2.
  - inversion E2; subst. exfalso. apply Hnot.
    apply (in_map fst) in H1. exact H1.
  - apply IH; assumption.
Qed.

Lemma increasing_NoDup (l : list nat) : StronglySorted lt l -> NoDup l.
Proof.
  induction 1 as [|a l _ IH Hall]; constructor; [|exact IH].
  intros Hin. rewrite Forall_forall in Hall. specialize (Hall a Hin). lia.
Qed.

Lemma filter_twice {A : Type} (p q : A -> bool) (l : list A) :
  filter p (filter q l) = filter (fun x => q x && p x) l.
Proof.
  induction l as [|a l IH]; simpl; [reflexivity|].
  destruct (q a); simpl; [destruct (p a); simpl; now rewrite IH | exact IH].
Qed.

Lemma terminated_conflicts_index (file : list Episode) :
  NoDup (index (terminated_conflicts (read_csv file))).
Proof.
  unfold index. rewrite terminated_conflicts_rows, map_map, filter_twice. cbn [fst].
  apply increasing_NoDup.
  apply (filter_combine_seq_increasing
           (fun ie => complete (snd ie) && ended (snd ie)) file 0).
Qed.

Lemma usa_terminated_index (file : list Episode) :
  NoDup (index (usa_terminated (read_csv file))).
Proof.
  unfold index. rewrite usa_terminated_rows. apply distinct_firstn.
  apply (Permutation_NoDup
           (Permutation_map fst (Permutation_sym (sort_rows_perm _ _)))).
  apply distinct_filter. apply terminated_conflicts_index.
Qed.

Section GroupIndex.

Variable c : string.
Variable n : nat.
Variable df : Frame.
Hypothesis distinct : NoDup (index df).

Lemma pieces_index (keys : list string) :
  NoDup keys ->
  NoDup (map fst (flat_map (fun k => firstn n (group c k df)) keys)).
Proof.
  induction keys as [|k keys IH]; intros Hk; [constructor|].
  inversion Hk as [|? ? Hnot Hk']; subst.
  cbn [flat_map]. rewrite map_app. apply NoDup_app.
  - apply distinct_firstn. unfold group. apply distinct_filter. exact distinct.
  - apply IH. exact Hk'.
  - intros i H1 H2.
    apply in_map_iff in H1 as [[i1 r1] [E1 H1]]. simpl in E1. subst i1.
    apply in_map_iff in H2 as [[i2 r2] [E2 H2]]. simpl in E2. subst i2.
    apply in_flat_map in H2 as [k' [Hk'in H2]].
    apply In_firstn in H1, H2.
    pose proof (group_key c df k _ H1) as K1.
    pose proof (group_key c df k' _ H2) as K2.
    unfold group in H1, H2. apply filter_In in H1 as [H1 _]. apply filter_In in H2 as [H2 _].
    assert (r1 = r2) by (eapply NoDup_map_fst_eq; eassumption). subst r2.
    cbn [snd] in K1, K2. rewrite K1 in K2. inversion K2; subst. contradiction.
Qed.

Lemma groupby_head_index : NoDup (index (groupby_head c n df)).
Proof.
  unfold index, groupby_head. cbn [rows]. destruct (forallb _ _).
  - apply distinct_filter. exact distinct.
  - apply pieces_index. apply keys_of_NoDup.
Qed.

End GroupIndex.

Lemma Forall2_fst_snd {A B : Type} (P : A -> B -> Prop) (l : list (A * B)) :
  Forall (fun x => P (fst x) (snd x)) l -> Forall2 P (map fst l) (map snd l).
Proof. induction 1; simpl; constructor; assumption. Qed.

Lemma firstn_enumerate_values {A : Type} (n : nat) (l : list A) :
  map snd (firstn n (enumerate l)) = firstn n l.
Proof. now rewrite <- firstn_map, enumerate_values. Qed.

(** X8: the rows of the cohort stem from pairwise different lines of
    the file: no episode is selected twice.  Row by row, the cohort
    holds the cells of the complete, terminated episode found at the
    line its row came from. *)
Theorem cohort_rows_are_distinct_episodes (file : list Episode) :
  let data := read_csv file in
  NoDup (cohort_origin data)
  /\ Forall2 (fun i r => exists e, nth_error file i = Some e
                                   /\ complete e = true /\ ended e = true
                                   /\ r = cohort_cells (float_years file) e)
             (cohort_origin data) (map snd (rows (final_set data))).
Proof.
  intros data. unfold cohort_origin.
  set (grouped := groupby_head "country_a" 2 (other_candidates data)).
  assert (Hcand : forall x, In x (rows grouped) ->
            In x (rows (terminated_conflicts data))
            /\ ~ In (fst x) (index (usa_terminated data))).
  { intros x Hx. apply groupby_head_in, other_candidates_in in Hx as [Htc Hmask].
    split; [exact Htc|]. unfold other_mask in Hmask.
    apply andb_prop in Hmask as [_ Hsel]. apply negb_true_iff in Hsel.
    intros Hin.
    assert (existsb (Nat.eqb (fst x)) (index (usa_terminated data)) = true) as E.
    { apply existsb_exists. exists (fst x). split; [exact Hin | apply Nat.eqb_refl]. }
    congruence. }
  split.
  - apply NoDup_app.
    + apply usa_terminated_index.
    + apply NoDup_firstn. apply groupby_head_index.
      unfold other_candidates, candidates, where_, index. cbn [rows].
      apply distinct_filter. apply terminated_conflicts_index.
    + intros i Hu Hg. apply In_firstn in Hg.
      apply in_map_iff in Hg as [x [<- Hx]]. apply (Hcand x Hx). exact Hu.
  - rewrite final_set_rows, enumerate_values.
    apply Forall2_app.
    + apply Forall2_fst_snd. apply Forall_forall. intros [i r] Hin.
      apply usa_terminated_in in Hin as [Htc _].
      apply terminated_conflicts_in in Htc. exact Htc.
    + rewrite additional_rows, other_bigpower_conflicts_rows, firstn_enumerate_values.
      fold grouped. unfold index. rewrite !firstn_map.
      apply Forall2_fst_snd. apply Forall_forall. intros [i r] Hin.
      apply In_firstn in Hin. apply Hcand in Hin as [Htc _].
      apply terminated_conflicts_in in Htc. exact Htc.
Qed.

(** ** The option lists of the select boxes *)

Lemma same_value_Str (c : cell) (s : string) : same_value c (Str s) = true -> c = Str s.
Proof. destruct c; simpl; try discriminate. intros H. apply String.eqb_eq in H. now subst. Qed.

Lemma same_value_NA (c : cell) : same_value c NA = true -> c = NA.
Proof. destruct c; simpl; try discriminate. reflexivity. Qed.

Lemma unique_incl (l : list cell) (c : cell) : In c (unique l) -> In c l.
Proof.
  induction l as [|a l IH]; simpl; [tauto|].
  intros [H | H]; [left; exact H|]. apply filter_In in H as [H _]. right. apply IH, H.
Qed.

Lemma unique_keeps (l : list cell) (c : cell) :
  (forall a, same_value a c = true -> a = c) -> In c l -> In c (unique l).
Proof.
  intros Hsame. induction l as [|a l IH]; simpl; [tauto|].
  intros [H | H]; [left; exact H|].
  destruct (same_value a c) eqn:E.
  - left. apply Hsame. exact E.
  - right. apply filter_In. split; [apply IH, H | now rewrite E].
Qed.

Lemma strings_of_In (l : list cell) (s : string) : In s (strings_of l) <-> In (Str s) l.
Proof.
  unfold strings_of. rewrite in_flat_map. split.
  - intros [c [Hc Hs]]. destruct c; simpl in Hs; try contradiction.
    destruct Hs as [-> | []]. exact Hc.
  - intros H. exists (Str s). split; [exact H | left; reflexivity].
Qed.

Lemma py_sorted_In (l l' : list cell) (s : string) :
  py_sorted l = Ok l' -> (In (Str s) l' <-> In (Str s) l).
Proof.
  unfold py_sorted. destruct l as [|a [|b l]].
  - intros H. inversion H. tauto.
  - intros H. inversion H. tauto.
  - destruct (forallb is_str (a :: b :: l)); [|discriminate].
    intros H. inversion H as [H']. clear H H'. split.
    + intros Hin. apply in_map_iff in Hin as [t [Ht Hin]]. inversion Ht; subst.
      apply strings_of_In.
      apply (Permutation_in _ (fold_insert_key_perm _)). exact Hin.
    + intros Hin. apply strings_of_In in Hin. apply in_map.
      apply (Permutation_in _ (Permutation_sym (fold_insert_key_perm _))). exact Hin.
Qed.

Lemma py_sorted_mixed (l : list cell) (s : string) :
  In NA l -> In (Str s) l -> py_sorted l = Raise TypeError.
Proof.
  intros Hna Hs. unfold py_sorted. destruct l as [|a [|b l]].
  - contradiction.
  - destruct Hna as [-> | []]. destruct Hs as [H | []]. discriminate H.
  - destruct (forallb is_str (a :: b :: l)) eqn:E; [|reflexivity].
    rewrite forallb_forall in E. specialize (E NA Hna). discriminate E.
Qed.

Lemma column_read_csv (file : list Episode) (c : string) :
  column c (read_csv file) = map (fun e => at_ raw_columns (to_row e) c) file.
Proof.
  unfold column, read_csv. cbn [rows columns].
  rewrite enumerate_map, map_map. cbn [snd].
  rewrite <- (map_map snd (fun e => at_ raw_columns (to_row e) c)), enumerate_values.
  reflexivity.
Qed.

(** X9: a file in which one episode lacks its initiator and another
    names it cannot fill the initiator box: sorting the initiators
    raises [TypeError].  In the same way the target box of an initiator
    fails when one of its episodes lacks the target and another names
    it. *)
Theorem missing_country_breaks_select_box (file : list Episode) :
  ((exists e, In e file /\ country_a e = None) ->
   (exists e a, In e file /\ country_a e = Some a) ->
   available_initiators (read_csv file) = Raise TypeError)
  /\ (forall a,
        (exists e, In e file /\ country_a e = Some a /\ country_b e = None) ->
        (exists e b, In e file /\ country_a e = Some a /\ country_b e = Some b) ->
        available_targets (read_csv file) (Str a) = Raise TypeError).
Proof.
  split.
  - intros [e [He Hn]] [e' [a [He' Ha]]]. unfold available_initiators.
    rewrite column_read_csv.
    apply (py_sorted_mixed _ a).
    + apply unique_keeps; [apply same_value_NA|].
      apply in_map_iff. exists e. split; [|exact He]. cbn. now rewrite Hn.
    + apply unique_keeps; [intros c; apply same_value_Str|].
      apply in_map_iff. exists e'. split; [|exact He']. cbn. now rewrite Ha.
  - intros a [e [He [Ha Hn]]] [e' [b [He' [Ha' Hb]]]]. unfold available_targets.
    assert (Hrow : forall x, In x file -> country_a x = Some a ->
              In (str_cell (country_b x))
                 (column "country_b"
                    (where_ (fun cols ir => cell_eqb (at_ cols (snd ir) "country_a") (Str a))
                            (read_csv file)))).
    { intros x Hx Hxa. apply In_nth_error in Hx as [i Hi].
      unfold column, where_. cbn [rows columns].
      apply in_map_iff. exists (i, to_row x). split; [reflexivity|].
      apply filter_In. split.
      - unfold read_csv. cbn [rows]. rewrite enumerate_map.
        apply in_map_iff. exists (i, x). split; [reflexivity|].
        apply in_enumerate. exact Hi.
      - cbn. rewrite Hxa. simpl. apply String.eqb_refl. }
    apply (py_sorted_mixed _ b).
    + apply unique_keeps; [apply same_value_NA|].
      specialize (Hrow e He Ha). now rewrite Hn in Hrow.
    + apply unique_keeps; [intros c; apply same_value_Str|].
      specialize (Hrow e' He' Ha'). now rewrite Hb in Hrow.
Qed.

Lemma missing_country_breaks_select_box_witness :
  available_initiators (read_csv gappy_file) = Raise TypeError
  /\ available_targets (read_csv gappy_file) (Str "India") = Raise TypeError.
Proof.
  destruct (missing_country_breaks_select_box gappy_file) as [H1 H2]. split.
  - apply H1.
    + eexists. split; [left; reflexivity | reflexivity].
    + eexists _, "India". split; [right; left; reflexivity | reflexivity].
  - apply H2.
    + eexists. split; [right; left; reflexivity | split; reflexivity].
    + eexists _, "Japan". split; [right; right; left; reflexivity | split; reflexivity].
Defined.

Lemma insert_cell_perm (c : cell) (l : list cell) : Permutation (insert_cell c l) (c :: l).
Proof.
  induction l as [|d l IH]; simpl; [apply Permutation_refl|].
  destruct (key_leb c d); [apply Permutation_refl|].
  rewrite IH. apply perm_swap.
Qed.

Lemma sort_cells_perm (l : list cell) : Permutation (fold_right insert_cell [] l) l.
Proof.
  induction l as [|c l IH]; simpl; [constructor|].
  rewrite insert_cell_perm. constructor. exact IH.
Qed.

Lemma insert_cell_sorted (c : cell) (l : list cell) :
  Sorted (fun a b => key_leb a b = true) l ->
  Sorted (fun a b => key_leb a b = true) (insert_cell c l).
Proof.
  induction l as [|d l IH]; intros Hs; simpl; [repeat constructor|].
  inversion Hs as [|? ? Hl Hhd]; subst.
  destruct (key_leb c d) eqn:E.
  - constructor; [exact Hs|]. constructor. exact E.
  - constructor; [apply IH; exact Hl|].
    destruct l as [|x l]; simpl.
    + constructor. apply key_leb_total. exact E.
    + destruct (key_leb c x); constructor.
      * apply key_leb_total. exact E.
      * inversion Hhd. assumption.
Qed.

Lemma sort_cells_sorted (l : list cell) :
  Sorted (fun a b => key_leb a b = true) (fold_right insert_cell [] l).
Proof.
  induction l as [|c l IH]; simpl; [constructor|]. apply insert_cell_sorted, IH.
Qed.

(** X10: what the boxes offer exists in the table.  An initiator offered
    is the initiator of some row; for a target offered for an
    initiator, the table of the pair is not empty; a year offered for a
    pair is the start year of one of its rows and is never missing, and
    the years are offered in ascending order. *)
Theorem offered_choices_exist (data : Frame) :
  (forall offered a,
     available_initiators data = Ok offered -> In (Str a) offered ->
     exists ir, In ir (rows data) /\ at_ (columns data) (snd ir) "country_a" = Str a)
  /\ (forall i offered b,
        available_targets data i = Ok offered -> In (Str b) offered ->
        0 < len (filtered_conflicts data i (Str b)))
  /\ (forall i t y,
        In y (available_years (filtered_conflicts data i t)) ->
        notna y = true
        /\ exists ir, In ir (rows (filtered_conflicts data i t))
                      /\ at_ (columns data) (snd ir) "start_year" = y)
  /\ (forall i t,
        Sorted (fun a b => key_leb a b = true)
               (available_years (filtered_conflicts data i t))).
Proof.
  split; [|split; [|split]].
  - intros offered a Hs Hin. unfold available_initiators in Hs.
    apply (py_sorted_In _ _ a Hs), unique_incl in Hin.
    unfold column in Hin. apply in_map_iff in Hin as [ir [Heq Hin]]. eauto.
  - intros i offered b Hs Hin. unfold available_targets in Hs.
    apply (py_sorted_In _ _ b Hs), unique_incl in Hin.
    unfold column, where_ in Hin. cbn [rows columns] in Hin.
    apply in_map_iff in Hin as [ir [Heq Hin]].
    apply filter_In in Hin as [Hin Hi].
    assert (Hrow : In ir (rows (filtered_conflicts data i (Str b)))).
    { rewrite filtered_conflicts_rows. apply filter_In. split; [exact Hin|].
      unfold pair_mask. rewrite Hi, Heq. simpl. apply String.eqb_refl. }
    unfold len. destruct (rows (filtered_conflicts data i (Str b))); [contradiction|].
    simpl. lia.
  - intros i t y Hin. unfold available_years in Hin.
    apply (Permutation_in _ (sort_cells_perm _)), unique_incl, filter_In in Hin
      as [Hin Hna].
    split; [exact Hna|].
    unfold column in Hin. apply in_map_iff in Hin as [ir [Heq Hin]]. eauto.
  - intros i t. apply sort_cells_sorted.
Qed.

Lemma offered_choices_exist_witness :
  0 < len (filtered_conflicts (read_csv sound_file) (Str "India") (Str "Japan"))
  /\ notna (Num 2018) = true.
Proof.
  destruct (offered_choices_exist (read_csv sound_file)) as [_ [H2 [H3 _]]]. split.
  - apply (H2 (Str "India") [Str "Japan"] "Japan"); [reflexivity | left; reflexivity].
  - apply (H3 (Str "India") (Str "Japan") (Num 2018)). left. reflexivity.
Defined.

(** ** Where a run can fail *)

Section Failures.

Variable L : CoxPHFitter.
Hypothesis contract : curves_per_row L.
Variable file : list Episode.

Let from_library (A : Type) (r : Exc A) : Prop :=
  (exists a, r = Ok a) \/ (exists e, r = Raise e /\ library_error L file e).

Lemma predict_error (cph : Model L) (X : Frame) (e : Error) :
  predict_survival_function L cph X = Raise e -> library_error L file e.
Proof. intros H. right. eauto. Qed.

Lemma fit_and_show_outcome :
  exists out r, writes L (fit_and_show L (data_model (read_csv file))) out r
                /\ from_library _ r.
Proof.
  destruct (fit L (fit_input file) "duration_months" "terminated") as [cph | e] eqn:E.
  - eexists _, (Ok cph). split; [apply fit_and_show_fits; exact E | left; eauto].
  - eexists _, (Raise e). split; [apply fit_and_show_raises; exact E|].
    right. exists e. split; [reflexivity | left; exact E].
Qed.

Lemma plot_cohort_outcome (cph : Model L) :
  exists out r, writes L (plot_cohort L cph (final_set (read_csv file))) out r
                /\ from_library _ r.
Proof.
  set (fs := final_set (read_csv file)).
  destruct (len fs) as [|n] eqn:Hlen.
  { eexists _, (Ok tt). split; [apply plot_cohort_empty; exact Hlen | left; eauto]. }
  destruct (predict_survival_function L cph (drop "label" fs)) as [curves | e] eqn:Hp.
  - assert (Hc : List.length curves = len fs).
    { rewrite (contract _ _ _ Hp). unfold len, drop. cbn [rows]. apply length_map. }
    eexists _, (Ok tt). split; [|left; eauto].
    intros s. unfold plot_cohort. rewrite Hlen. cbn [Nat.ltb Nat.leb].
    erewrite bind_step; [| apply check_step; reflexivity].
    erewrite bind_step; [| unfold call; rewrite Hp; reflexivity].
    change (fun i : nat => bind L (iloc L "label" i fs) (fun label : cell =>
              bind L (curve_at L i curves)
                   (fun curve : Curve L => emit L (plot label curve))))
      with (plot_row_body L fs curves).
    rewrite <- Hlen.
    erewrite bind_step; [| apply (plot_loop_all L fs curves (len fs) 0); simpl; lia].
    unfold emit. cbn [store globals screen skipn]. rewrite <- app_assoc. reflexivity.
  - eexists _, (Raise e). split; [|right; exists e; split;
                                    [reflexivity | eapply predict_error; exact Hp]].
    intros s. unfold plot_cohort. rewrite Hlen. cbn [Nat.ltb Nat.leb].
    erewrite bind_step; [| apply check_step; reflexivity].
    apply bind_raise_step. unfold call. rewrite Hp.
    now rewrite app_nil_r, state_eta.
Qed.

Lemma plot_conflict_raises (cph : Model L) (data cr : Frame) (i0 : nat) (e : Episode)
    (rest : list (nat * Row)) (a b : string) (z : Z) (err : Error) :
  columns cr = raw_columns ->
  rows cr = (i0, to_row e) :: rest ->
  country_a e = Some a -> country_b e = Some b -> start_year e = Some z ->
  predict_survival_function L cph (getitem required_cols cr) = Raise err ->
  writes L (plot_conflict L cph data cr) [] (Raise err).
Proof.
  intros Hc Hr Ha Hb Hz Hp s.
  unfold plot_conflict, len. rewrite Hr. cbn [List.length Nat.ltb Nat.leb].
  erewrite bind_step; [| apply check_step; unfold has_cols, has_col; rewrite Hc; reflexivity].
  unfold iloc, column. rewrite Hr, Hc. unfold to_row. rewrite Ha, Hb, Hz.
  cbn [map nth_error snd at_ col_pos String.eqb Ascii.eqb Bool.eqb nth str_cell int_cell].
  do 8 (erewrite bind_step; [| reflexivity]).
  erewrite bind_step; [| apply check_step; unfold has_cols, has_col; rewrite Hc; reflexivity].
  apply bind_raise_step. unfold call. rewrite Hp.
  now rewrite app_nil_r, state_eta.
Qed.

Lemma plot_conflict_outcome (cph : Model L) (i t y : cell) :
  exists out r,
    writes L (plot_conflict L cph (read_csv file) (conflict_row (read_csv file) i t y)) out r
    /\ from_library _ r.
Proof.
  set (cr := conflict_row (read_csv file) i t y).
  destruct (rows cr) as [|[i0 r0] rest] eqn:Hr.
  { eexists _, (Ok tt). split; [|left; eauto].
    apply plot_conflict_empty. unfold len. now rewrite Hr. }
  assert (Hin : In (i0, r0) (rows cr)) by (rewrite Hr; left; reflexivity).
  apply conflict_row_in in Hin as [e [a [b [z [_ [-> [Ha [Hb Hz]]]]]]]].
  destruct (predict_survival_function L cph (getitem required_cols cr))
    as [curves | err] eqn:Hp.
  - assert (Hc : List.length curves = S (List.length rest)).
    { rewrite (contract _ _ _ Hp). unfold len, getitem. cbn [rows].
      rewrite length_map, Hr. reflexivity. }
    destruct curves as [|c0 more]; [discriminate Hc|].
    eexists _, (Ok tt). split; [|left; eauto].
    eapply plot_conflict_first; eauto; apply conflict_row_columns.
  - eexists _, (Raise err). split; [|right; exists err; split;
                                      [reflexivity | eapply predict_error; exact Hp]].
    eapply plot_conflict_raises; eauto; apply conflict_row_columns.
Qed.

Lemma plot_scenario_outcome (cph : Model L) (gdp : Q) (measures duration : Z) :
  exists out r,
    writes L (plot_scenario L cph (custom_row gdp measures duration)) out r
    /\ from_library _ r.
Proof.
  destruct (predict_survival_function L cph (custom_row gdp measures duration))
    as [curves | err] eqn:Hp.
  - pose proof (contract _ _ _ Hp) as Hc.
    destruct curves as [|c0 more]; [discriminate Hc|].
    eexists _, (Ok tt). split; [|left; eauto].
    intros s. unfold plot_scenario.
    erewrite bind_step; [| unfold call; rewrite Hp; reflexivity].
    erewrite bind_step; [| reflexivity].
    erewrite bind_step; [| reflexivity].
    unfold emit. cbn [store globals screen]. rewrite <- app_assoc. reflexivity.
  - eexists _, (Raise err). split; [|right; exists err; split;
                                      [reflexivity | eapply predict_error; exact Hp]].
    intros s. unfold plot_scenario. apply bind_raise_step. unfold call. rewrite Hp.
    now rewrite app_nil_r, state_eta.
Qed.

Lemma py_sorted_raises (cells : list cell) (e : Error) :
  py_sorted cells = Raise e -> e = TypeError.
Proof.
  unfold py_sorted. destruct cells as [|a [|b cells]]; try discriminate.
  destruct (forallb is_str (a :: b :: cells)); [discriminate|].
  intros H. now inversion H.
Qed.

Lemma page_outcome (ui : Widgets) (s : State L) :
  snd (page L file ui s) = Ok tt
  \/ exists e, snd (page L file ui s) = Raise e /\ run_error L file ui e.
Proof.
  assert (Hlib : forall (m : M L unit),
             (exists out r, writes L m out r /\ from_library _ r) ->
             exists out r, writes L m out r /\ forall e, r = Raise e -> run_error L file ui e).
  { intros m [out [r [Hw Hr]]]. exists out, r. split; [exact Hw|].
    intros e ->. destruct Hr as [[a Ha] | [e' [He' Hl]]]; [discriminate Ha|].
    inversion He'; subst. left. exact Hl. }
  destruct (page_traced L (run_error L file ui) file ui) with (s := s)
    as [k [_ [_ [_ [Herr _]]]]].
  - intros e H. left. left. exact H.
  - intros cph. apply Hlib, plot_cohort_outcome.
  - intros e H. pose proof (py_sorted_raises _ _ H). subst e.
    right. split; [reflexivity | left; exact H].
  - intros e H. pose proof (py_sorted_raises _ _ H). subst e.
    right. split; [reflexivity | right; exact H].
  - intros cph. apply Hlib, plot_conflict_outcome.
  - intros cph. apply Hlib, plot_scenario_outcome.
  - destruct (snd (page L file ui s)) as [[] | e]; [left; reflexivity|].
    right. exists e. split; [reflexivity | apply Herr; reflexivity].
Qed.

End Failures.

Lemma py_sorted_strings (cells : list cell) :
  forallb is_str cells = true -> exists options, py_sorted cells = Ok options.
Proof.
  intros H. unfold py_sorted. destruct cells as [|a [|b cells]]; eauto.
  rewrite H. eauto.
Qed.

Lemma unique_strings (cells : list cell) :
  forallb is_str cells = true -> forallb is_str (unique cells) = true.
Proof.
  intros H. apply forallb_forall. intros c Hc.
  rewrite forallb_forall in H. apply H, unique_incl, Hc.
Qed.

Lemma named_initiators (file : list Episode) :
  forallb named file = true ->
  exists options, available_initiators (read_csv file) = Ok options.
Proof.
  intros H. apply py_sorted_strings, unique_strings.
  rewrite column_read_csv. apply forallb_forall. intros c Hc.
  apply in_map_iff in Hc as [e [<- He]].
  rewrite forallb_forall in H. specialize (H e He). unfold named in H.
  cbn. destruct (country_a e); [reflexivity | discriminate H].
Qed.

Lemma named_targets (file : list Episode) (chosen : cell) :
  forallb named file = true ->
  exists options, available_targets (read_csv file) chosen = Ok options.
Proof.
  intros H. apply py_sorted_strings, unique_strings.
  apply forallb_forall. intros c Hc.
  unfold column, where_ in Hc. cbn [rows columns] in Hc.
  apply in_map_iff in Hc as [ir [<- Hir]].
  apply filter_In in Hir as [Hir _].
  unfold read_csv in Hir. cbn [rows] in Hir.
  destruct ir as [i r]. apply in_enumerate in Hir.
  apply nth_error_In, in_map_iff in Hir as [e [<- He]].
  rewrite forallb_forall in H. specialize (H e He). unfold named in H.
  cbn. destruct (country_a e); [|discriminate H].
  destruct (country_b e); [reflexivity | discriminate H].
Qed.


Lemma lenient_fitter_curves : curves_per_row lenient_fitter.
Proof. intros m X curves H. simpl in H. inversion H. unfold len. apply length_map. Qed.


(** With a library that fits it, the run on [gappy_file] gets past the
    cohort view and ends at line 185, in the thirteenth state. *)
Example page_gappy_file :
  snd (page lenient_fitter gappy_file india_japan_2018 (fresh lenient_fitter))
  = Raise TypeError
  /\ List.length (page_states lenient_fitter gappy_file india_japan_2018
                               (fresh lenient_fitter)) = 13.
Proof. split; vm_compute; reflexivity. Qed.
